(** * lawncare-pro: the plan and step routes of [server/lib/setupPlanRoutes.ts]

    A shallow embedding of the nine Express handlers registered by
    [setupPlanRoutes], of the SQL statements they send and of the
    transaction discipline of the connection they run on, followed by
    the properties of the plan/step persistence layer. *)

From Stdlib Require Import ZArith List String Bool Lia DecimalString.
From Stdlib Require Import Sorting.Sorted Sorting.Permutation.
Import ListNotations.
Local Open Scope string_scope.
Local Open Scope list_scope.
Local Open Scope Z_scope.

Set Implicit Arguments.

(* ===================================================================== *)
(** ** Tables *)
(* ===================================================================== *)

(** The schema and [client/src/types] are not among the sources: the
    columns of the three tables are those of section 3 of the
    specification, with the nullability the handlers themselves show (a
    step is inserted without [completedAt] and without [stepOrder], and
    with a [null] [templateId]).  Identities and timestamps are
    integers. *)

(** Modelled from the spec: the values of [planType], which the sources
    do not list. *)
Inductive PlanType := new_lawn | lawn_improvement.

Module PlanRow.
(** Modelled from the spec: the columns of [UserPlans], whose schema is
    not among the sources. *)
Record row := mk {
    userPlanId : Z;
    userId : Z;
    grassSpeciesId : Z;
    planType : PlanType;
    establishmentType : option string;
    isCompleted : bool;
    isArchived : bool;
    createdAt : Z;
    completedAt : option Z }.
End PlanRow.

Module StepRow.
(** Modelled from the spec: the columns of [PlanSteps], whose schema is
    not among the sources.  There is no [createdAt] among them. *)
Record row := mk {
    planStepId : Z;
    userPlanId : Z;
    templateId : option Z;
    stepDescription : string;
    dueDate : Z;
    completed : bool;
    completedAt : option Z;
    stepOrder : option Z }.
End StepRow.

Module SpeciesRow.
(** Modelled from the spec: the columns of [GrassSpecies] the handlers
    read; its schema is not among the sources. *)
Record row := mk {
    grassSpeciesId : Z;
    name : string }.
End SpeciesRow.

(** The rows of a table in heap order. *)
Record Tables := mkTables {
  UserPlans : list PlanRow.row;
  PlanSteps : list StepRow.row;
  GrassSpecies : list SpeciesRow.row }.

(** The store: the tables and the sequence behind [planStepId].  A
    sequence is advanced outside any transaction, so ROLLBACK does not
    give a drawn value back. *)
Record Store := mkStore {
  tables : Tables;
  planStepId_seq : Z }.

(* ===================================================================== *)
(** ** Request bodies and response objects *)
(* ===================================================================== *)

(** A step of the body of PUT /api/plans/:planId. *)
Module StepInput.
Record t := mk {
    planStepId : option Z;
    stepDescription : string;
    dueDate : Z;
    completed : bool }.
End StepInput.

(** The body of PUT /api/plans/:planId ([updatedPlan]).  The flags may
    be missing (the handler writes [x || false]); a body without an
    iterable [steps] is [None]. *)
Module PlanInput.
Record t := mk {
    grassSpeciesId : Z;
    planType : PlanType;
    isCompleted : option bool;
    isArchived : option bool;
    establishmentType : option string;
    steps : option (list StepInput.t) }.
End PlanInput.

(** The body of POST /api/plans/:planId/steps ([newStep]). *)
Module NewStep.
Record t := mk {
    stepDescription : string;
    dueDate : Z;
    completed : option bool }.
End NewStep.

(** The object the driver builds for one row of
    [SELECT up.*, gs.name as "grassSpeciesName", ps.*].  A row object has
    one property per column name and the columns are assigned from left
    to right, so for the names that [UserPlans] and [PlanSteps] share
    ([userPlanId], [completedAt]) the property holds the value of
    [ps.*]: it is [null] on the row of a plan that has no step. *)
Module Joined.
Record row := mk {
    userPlanId : option Z;
    userId : Z;
    grassSpeciesId : Z;
    planType : PlanType;
    establishmentType : option string;
    isCompleted : bool;
    isArchived : bool;
    createdAt : Z;
    completedAt : option Z;
    grassSpeciesName : string;
    planStepId : option Z;
    templateId : option Z;
    stepDescription : option string;
    dueDate : option Z;
    completed : option bool;
    stepOrder : option Z }.
End Joined.

(** An element of [finalPlan.steps] in PUT /api/plans/:planId. *)
Module StepSummary.
Record t := mk {
    planStepId : option Z;
    stepDescription : option string;
    dueDate : option Z;
    completed : option bool }.
End StepSummary.

(** [finalPlan]: the properties of [rows[0]] spread (nothing when there
    is no row), and [steps]. *)
Module FinalPlan.
Record t := mk {
    first : option Joined.row;
    steps : list StepSummary.t }.
End FinalPlan.

(** An element of [plan.steps] in GET /api/users/:userId/plans. *)
Module PlanStep.
Record t := mk {
    planStepId : option Z;
    userPlanId : option Z;
    templateId : option Z;
    stepDescription : option string;
    dueDate : option Z;
    completed : option bool;
    completedAt : option Z;
    createdAt : Z }.
End PlanStep.

(** An element of [plans] in GET /api/users/:userId/plans. *)
Module UserPlan.
Record t := mk {
    userPlanId : option Z;
    userId : Z;
    grassSpeciesId : Z;
    grassSpeciesName : string;
    establishmentType : option string;
    planType : PlanType;
    isCompleted : bool;
    isArchived : bool;
    createdAt : Z;
    completedAt : option Z;
    steps : list PlanStep.t }.
End UserPlan.

(** [userPlan] of GET /api/plans/:planId: the row of
    [SELECT up.*, gs.name as "grassSpeciesName"] and [steps]. *)
Module PlanWithSteps.
Record t := mk {
    plan : PlanRow.row;
    grassSpeciesName : string;
    steps : list StepRow.row }.
End PlanWithSteps.

Inductive Body :=
| PlanBody (userPlan : PlanWithSteps.t)
| FinalPlanBody (finalPlan : FinalPlan.t)
| PlansBody (plans : list UserPlan.t)
| StepBody (step : option StepRow.row)
| PlanRowBody (plan : option PlanRow.row)
| MessageBody (message : string).

(** What a handler can throw: a [ClientError], an error reported by the
    store, or a JavaScript [TypeError]. *)
Inductive Error :=
| ClientError (status : Z) (message : string)
| StoreError
| TypeError.

(** What a handler does with the response: [res.status(s).json(body)] or
    [next(err)]. *)
Inductive Response :=
| Json (status : Z) (body : Body)
| Next (err : Error).

(** The status the error middleware answers with. *)
Definition statusOf (r : Response) : Z :=
  match r with
  | Json status _ => status
  | Next (ClientError status _) => status
  | Next _ => 500
  end.

(* ===================================================================== *)
(** ** JavaScript operators the handlers use *)
(* ===================================================================== *)

(** [x || false] on a flag that may be missing. *)
Definition orFalse (x : option bool) : bool :=
  match x with Some b => b | None => false end.

(** [x || 0] on a number that may be [null]. *)
Definition orZero (x : option Z) : Z :=
  match x with Some n => if n =? 0 then 0 else n | None => 0 end.

(** Truthiness of a number that may be [null] or missing. *)
Definition truthy (x : option Z) : bool :=
  match x with Some n => negb (n =? 0) | None => false end.

(** [x !== null]. *)
Definition notNull {A : Type} (x : option A) : bool :=
  match x with Some _ => true | None => false end.

(** [a === b] on identities that may be [null]. *)
Definition strictEq (a b : option Z) : bool :=
  match a, b with
  | Some x, Some y => x =? y
  | None, None => true
  | _, _ => false
  end.

(* ===================================================================== *)
(** ** ORDER BY *)
(* ===================================================================== *)

Section OrderBy.
Variable A : Type.
Variable leb : A -> A -> bool.

(** A row goes before the first row that does not sort before it. *)
Fixpoint insertRow (x : A) (l : list A) : list A :=
  match l with
  | [] => [x]
  | y :: l' => if leb x y then x :: y :: l' else y :: insertRow x l'
  end.

(** [ORDER BY] as an insertion sort.  Rows with equal keys keep the order
    the scan produced them in; the store leaves their order open, and the
    properties below are stated on the rows and on their being sorted,
    not on the place of a row among its equals. *)
Definition orderBy (l : list A) : list A :=
  fold_right insertRow [] l.
End OrderBy.

(** [ASC] on a column that may be [NULL]: [NULL] sorts last. *)
Definition ascNullsLast (a b : option Z) : bool :=
  match a, b with
  | Some x, Some y => x <=? y
  | _, None => true
  | None, Some _ => false
  end.

(* ===================================================================== *)
(** ** SQL statements *)
(* ===================================================================== *)

(** [UPDATE t SET ... WHERE hit RETURNING *]: the table afterwards and
    the rows written. *)
Definition sqlUpdate {A : Type} (hit : A -> bool) (set : A -> A)
    (l : list A) : list A * list A :=
  (map (fun r => if hit r then set r else r) l, map set (filter hit l)).

(** [DELETE FROM t WHERE hit RETURNING *]: the table afterwards and the
    rows removed. *)
Definition sqlDelete {A : Type} (hit : A -> bool) (l : list A)
    : list A * list A :=
  (filter (fun r => negb (hit r)) l, filter hit l).

Definition withUserPlans (t : Tables) (l : list PlanRow.row) : Tables :=
  {| UserPlans := l; PlanSteps := PlanSteps t; GrassSpecies := GrassSpecies t |}.

Definition withPlanSteps (t : Tables) (l : list StepRow.row) : Tables :=
  {| UserPlans := UserPlans t; PlanSteps := l; GrassSpecies := GrassSpecies t |}.

Definition withTables (s : Store) (t : Tables) : Store :=
  {| tables := t; planStepId_seq := planStepId_seq s |}.

(** [WHERE "userPlanId" = $1 AND "userId" = $2] on [UserPlans]. *)
Definition ownedBy (planId userId : Z) (up : PlanRow.row) : bool :=
  (PlanRow.userPlanId up =? planId) && (PlanRow.userId up =? userId).

(** [WHERE "userPlanId" = $1] on [PlanSteps]. *)
Definition ofPlan (planId : Z) (ps : StepRow.row) : bool :=
  StepRow.userPlanId ps =? planId.

(** [WHERE "planStepId" = $1 AND "userPlanId" = $2] on [PlanSteps]. *)
Definition stepOfPlan (stepId planId : Z) (ps : StepRow.row) : bool :=
  (StepRow.planStepId ps =? stepId) && (StepRow.userPlanId ps =? planId).

(** [JOIN "GrassSpecies" gs ON up."grassSpeciesId" = gs."grassSpeciesId"]:
    the species rows one plan row joins with. *)
Definition speciesOf (t : Tables) (up : PlanRow.row) : list SpeciesRow.row :=
  filter (fun gs => SpeciesRow.grassSpeciesId gs =? PlanRow.grassSpeciesId up)
         (GrassSpecies t).

(** [checkPlanSql]: [SELECT * FROM "UserPlans" WHERE "userPlanId" = $1
    AND "userId" = $2]. *)
Definition checkPlanSql (planId userId : Z) (t : Tables) : list PlanRow.row :=
  filter (ownedBy planId userId) (UserPlans t).

(** [planSql] of GET /api/plans/:planId. *)
Definition planSql (planId userId : Z) (t : Tables)
    : list (PlanRow.row * string) :=
  flat_map (fun up => map (fun gs => (up, SpeciesRow.name gs)) (speciesOf t up))
           (filter (ownedBy planId userId) (UserPlans t)).

(** [stepsSql] of GET /api/plans/:planId:
    [SELECT * FROM "PlanSteps" WHERE "userPlanId" = $1 ORDER BY "dueDate" ASC]. *)
Definition stepsSql (planId : Z) (t : Tables) : list StepRow.row :=
  orderBy (fun a b => StepRow.dueDate a <=? StepRow.dueDate b)
          (filter (ofPlan planId) (PlanSteps t)).

(** The row object of a plan row joined with a species row and a step. *)
Definition matched (up : PlanRow.row) (gs : SpeciesRow.row) (ps : StepRow.row)
    : Joined.row :=
  {| Joined.userPlanId := Some (StepRow.userPlanId ps);
     Joined.userId := PlanRow.userId up;
     Joined.grassSpeciesId := PlanRow.grassSpeciesId up;
     Joined.planType := PlanRow.planType up;
     Joined.establishmentType := PlanRow.establishmentType up;
     Joined.isCompleted := PlanRow.isCompleted up;
     Joined.isArchived := PlanRow.isArchived up;
     Joined.createdAt := PlanRow.createdAt up;
     Joined.completedAt := StepRow.completedAt ps;
     Joined.grassSpeciesName := SpeciesRow.name gs;
     Joined.planStepId := Some (StepRow.planStepId ps);
     Joined.templateId := StepRow.templateId ps;
     Joined.stepDescription := Some (StepRow.stepDescription ps);
     Joined.dueDate := Some (StepRow.dueDate ps);
     Joined.completed := Some (StepRow.completed ps);
     Joined.stepOrder := StepRow.stepOrder ps |}.

(** The row object of a plan row that no step joins with: every column
    of [ps.*] is [NULL]. *)
Definition unmatched (up : PlanRow.row) (gs : SpeciesRow.row) : Joined.row :=
  {| Joined.userPlanId := None;
     Joined.userId := PlanRow.userId up;
     Joined.grassSpeciesId := PlanRow.grassSpeciesId up;
     Joined.planType := PlanRow.planType up;
     Joined.establishmentType := PlanRow.establishmentType up;
     Joined.isCompleted := PlanRow.isCompleted up;
     Joined.isArchived := PlanRow.isArchived up;
     Joined.createdAt := PlanRow.createdAt up;
     Joined.completedAt := None;
     Joined.grassSpeciesName := SpeciesRow.name gs;
     Joined.planStepId := None;
     Joined.templateId := None;
     Joined.stepDescription := None;
     Joined.dueDate := None;
     Joined.completed := None;
     Joined.stepOrder := None |}.

(** [LEFT JOIN "PlanSteps" ps ON up."userPlanId" = ps."userPlanId"]. *)
Definition leftJoinSteps (t : Tables) (up : PlanRow.row) (gs : SpeciesRow.row)
    : list Joined.row :=
  match filter (ofPlan (PlanRow.userPlanId up)) (PlanSteps t) with
  | [] => [unmatched up gs]
  | ps :: more => map (matched up gs) (ps :: more)
  end.

(** [FROM "UserPlans" up JOIN "GrassSpecies" gs ... LEFT JOIN "PlanSteps"
    ps ... WHERE keep], before ORDER BY. *)
Definition joinedRows (keep : PlanRow.row -> bool) (t : Tables)
    : list Joined.row :=
  flat_map (fun up => flat_map (leftJoinSteps t up) (speciesOf t up))
           (filter keep (UserPlans t)).

(** [updatedPlanSql] of PUT /api/plans/:planId:
    [WHERE up."userPlanId" = $1 ORDER BY ps."dueDate" ASC]. *)
Definition updatedPlanSql (planId : Z) (t : Tables) : list Joined.row :=
  orderBy (fun a b => ascNullsLast (Joined.dueDate a) (Joined.dueDate b))
          (joinedRows (fun up => PlanRow.userPlanId up =? planId) t).

(** The key of [ORDER BY up."createdAt" DESC, ps."dueDate" ASC]. *)
Definition createdDescDueAsc (a b : Joined.row) : bool :=
  (Joined.createdAt b <? Joined.createdAt a)
  || ((Joined.createdAt a =? Joined.createdAt b)
      && ascNullsLast (Joined.dueDate a) (Joined.dueDate b)).

(** [plansSql] of GET /api/users/:userId/plans.  The key reads
    [up."createdAt"]; [PlanSteps] has no column of that name, so the
    property [createdAt] of the row object is the plan's. *)
Definition plansSql (userId : Z) (t : Tables) : list Joined.row :=
  orderBy createdDescDueAsc
          (joinedRows (fun up => PlanRow.userId up =? userId) t).

(** [SET "grassSpeciesId" = $1, "planType" = $2, "isCompleted" = $3,
    "isArchived" = $4, "establishmentType" = $5] on a plan. *)
Definition setPlan (grassSpeciesId : Z) (planType : PlanType)
    (isCompleted isArchived : bool) (establishmentType : option string)
    (up : PlanRow.row) : PlanRow.row :=
  {| PlanRow.userPlanId := PlanRow.userPlanId up;
     PlanRow.userId := PlanRow.userId up;
     PlanRow.grassSpeciesId := grassSpeciesId;
     PlanRow.planType := planType;
     PlanRow.establishmentType := establishmentType;
     PlanRow.isCompleted := isCompleted;
     PlanRow.isArchived := isArchived;
     PlanRow.createdAt := PlanRow.createdAt up;
     PlanRow.completedAt := PlanRow.completedAt up |}.

(** [updatePlanSql] of PUT /api/plans/:planId, with its parameters
    [$1] to [$7]: [... WHERE "userPlanId" = $6 AND "userId" = $7
    RETURNING *]. *)
Definition updatePlanSql (grassSpeciesId : Z) (planType : PlanType)
    (isCompleted isArchived : bool) (establishmentType : option string)
    (planId userId : Z) (t : Tables) : Tables * list PlanRow.row :=
  let (l, rows) :=
    sqlUpdate (ownedBy planId userId)
              (setPlan grassSpeciesId planType isCompleted isArchived
                       establishmentType)
              (UserPlans t) in
  (withUserPlans t l, rows).

(** [SET "stepDescription" = $1, "dueDate" = $2, "completed" = $3] on a
    step. *)
Definition setStep (stepDescription : string) (dueDate : Z) (completed : bool)
    (ps : StepRow.row) : StepRow.row :=
  {| StepRow.planStepId := StepRow.planStepId ps;
     StepRow.userPlanId := StepRow.userPlanId ps;
     StepRow.templateId := StepRow.templateId ps;
     StepRow.stepDescription := stepDescription;
     StepRow.dueDate := dueDate;
     StepRow.completed := completed;
     StepRow.completedAt := StepRow.completedAt ps;
     StepRow.stepOrder := StepRow.stepOrder ps |}.

(** [updateStepSql] of PUT /api/plans/:planId, parameters [$1] to [$5]:
    [... WHERE "planStepId" = $4 AND "userPlanId" = $5]. *)
Definition updateStepSql (stepDescription : string) (dueDate : Z)
    (completed : bool) (planStepId planId : Z) (t : Tables) : Tables :=
  withPlanSteps t
    (fst (sqlUpdate (stepOfPlan planStepId planId)
                    (setStep stepDescription dueDate completed)
                    (PlanSteps t))).

(** [INSERT INTO "PlanSteps" (...) VALUES (...) RETURNING *]: the new row
    takes the next value of the sequence and goes to the end of the
    table; a column the statement does not list is [NULL]. *)
Definition insertStep (planId : Z) (templateId : option Z)
    (stepDescription : string) (dueDate : Z) (completed : bool)
    (stepOrder : option Z) (s : Store) : Store * list StepRow.row :=
  let ps :=
    {| StepRow.planStepId := planStepId_seq s;
       StepRow.userPlanId := planId;
       StepRow.templateId := templateId;
       StepRow.stepDescription := stepDescription;
       StepRow.dueDate := dueDate;
       StepRow.completed := completed;
       StepRow.completedAt := None;
       StepRow.stepOrder := stepOrder |} in
  ({| tables := withPlanSteps (tables s) (PlanSteps (tables s) ++ [ps]);
      planStepId_seq := planStepId_seq s + 1 |}, [ps]).

(** [SET "completed" = $1, "completedAt" = $2] on a step. *)
Definition setCompletion (completed : bool) (completedAt : option Z)
    (ps : StepRow.row) : StepRow.row :=
  {| StepRow.planStepId := StepRow.planStepId ps;
     StepRow.userPlanId := StepRow.userPlanId ps;
     StepRow.templateId := StepRow.templateId ps;
     StepRow.stepDescription := StepRow.stepDescription ps;
     StepRow.dueDate := StepRow.dueDate ps;
     StepRow.completed := completed;
     StepRow.completedAt := completedAt;
     StepRow.stepOrder := StepRow.stepOrder ps |}.

(** [SET "isCompleted" = true] on a plan. *)
Definition setIsCompleted (up : PlanRow.row) : PlanRow.row :=
  {| PlanRow.userPlanId := PlanRow.userPlanId up;
     PlanRow.userId := PlanRow.userId up;
     PlanRow.grassSpeciesId := PlanRow.grassSpeciesId up;
     PlanRow.planType := PlanRow.planType up;
     PlanRow.establishmentType := PlanRow.establishmentType up;
     PlanRow.isCompleted := true;
     PlanRow.isArchived := PlanRow.isArchived up;
     PlanRow.createdAt := PlanRow.createdAt up;
     PlanRow.completedAt := PlanRow.completedAt up |}.

(** [updateStepSql] of PUT /api/plans/:planId/steps/:stepId:
    [SET "completed" = $1, "completedAt" = $2
     WHERE "planStepId" = $3 AND "userPlanId" = $4 RETURNING *]. *)
Definition completeStepSql (completed : bool) (completedAt : option Z)
    (stepId planId : Z) (t : Tables) : Tables * list StepRow.row :=
  let (l, rows) :=
    sqlUpdate (stepOfPlan stepId planId) (setCompletion completed completedAt)
              (PlanSteps t) in
  (withPlanSteps t l, rows).

(** [updatePlanSql] of PUT /api/plans/:planId/complete:
    [SET "isCompleted" = true WHERE "userPlanId" = $1 RETURNING *]. *)
Definition completePlanSql (planId : Z) (t : Tables)
    : Tables * list PlanRow.row :=
  let (l, rows) :=
    sqlUpdate (fun up => PlanRow.userPlanId up =? planId) setIsCompleted
              (UserPlans t) in
  (withUserPlans t l, rows).

(** [WHERE "userPlanId" = $1 AND "completed" = false] on [PlanSteps]. *)
Definition incompleteOfPlan (planId : Z) (ps : StepRow.row) : bool :=
  ofPlan planId ps && Bool.eqb (StepRow.completed ps) false.

(** [updateStepsSql] of PUT /api/plans/:planId/complete:
    [SET "completed" = true, "completedAt" = NOW()
     WHERE "userPlanId" = $1 AND "completed" = false]. *)
Definition updateStepsSql (now planId : Z) (t : Tables) : Tables :=
  withPlanSteps t
    (fst (sqlUpdate (incompleteOfPlan planId) (setCompletion true (Some now))
                    (PlanSteps t))).

(** [deleteStepsSql] of DELETE /api/plans/:planId. *)
Definition deleteStepsSql (planId : Z) (t : Tables) : Tables :=
  withPlanSteps t (fst (sqlDelete (ofPlan planId) (PlanSteps t))).

(** [deletePlanSql] of DELETE /api/plans/:planId. *)
Definition deletePlanSql (planId userId : Z) (t : Tables)
    : Tables * list PlanRow.row :=
  let (l, rows) := sqlDelete (ownedBy planId userId) (UserPlans t) in
  (withUserPlans t l, rows).

(** [deleteStepSql] of DELETE /api/plans/:planId/steps/:stepId. *)
Definition deleteStepSql (stepId planId : Z) (t : Tables)
    : Tables * list StepRow.row :=
  let (l, rows) := sqlDelete (stepOfPlan stepId planId) (PlanSteps t) in
  (withPlanSteps t l, rows).

(** [MAX(x)] over a column that may be [NULL]: [NULL] when no row has a
    value. *)
Fixpoint sqlMax (l : list (option Z)) : option Z :=
  match l with
  | [] => None
  | None :: l' => sqlMax l'
  | Some x :: l' =>
      match sqlMax l' with
      | Some m => Some (Z.max x m)
      | None => Some x
      end
  end.

(** [maxOrderSql] of POST /api/plans/:planId/steps: the one row of
    [SELECT MAX("stepOrder") as "maxOrder" ... WHERE "userPlanId" = $1]. *)
Definition maxOrderSql (planId : Z) (t : Tables) : option Z :=
  sqlMax (map StepRow.stepOrder (filter (ofPlan planId) (PlanSteps t))).

(* ===================================================================== *)
(** ** The connection *)
(* ===================================================================== *)

(** A pooled connection on the store.  [snapshot] is [Some t] inside a
    transaction that began on tables [t]. *)
Record Conn := mkConn {
  store : Store;
  snapshot : option Tables }.

(** An awaited computation on the connection: it leaves the connection
    in some state and either throws or yields a value. *)
Definition Query (A : Type) : Type := Conn -> Conn * (Error + A).

Definition ret {A : Type} (a : A) : Query A := fun c => (c, inr a).

Definition throw {A : Type} (e : Error) : Query A := fun c => (c, inl e).

Definition bind {A B : Type} (m : Query A) (k : A -> Query B) : Query B :=
  fun c =>
    match m c with
    | (c', inr a) => k a c'
    | (c', inl e) => (c', inl e)
    end.

Declare Scope query_scope.
Delimit Scope query_scope with query.
Notation "x <- m ;; k" := (bind m (fun x => k))
  (at level 100, m at next level, right associativity) : query_scope.
Notation "m ;; k" := (bind m (fun _ => k))
  (at level 100, right associativity) : query_scope.
Local Open Scope query_scope.

(** [try { body } catch (err) { handler }]. *)
Definition tryCatch {A : Type} (body : Query A) (handler : Error -> Query A)
    : Query A :=
  fun c =>
    match body c with
    | (c', inr a) => (c', inr a)
    | (c', inl e) => handler e c'
    end.

(** [db.query] of a statement that reads.  The store is taken to answer
    it; a read it fails would be thrown to the [catch] and leave the
    tables as they are.  The one read whose failure is not covered by
    this is the re-read of PUT /api/plans/:planId, which runs after
    COMMIT: it goes through [selectUnless]. *)
Definition select {A : Type} (q : Tables -> A) : Query A :=
  fun c => (c, inr (q (tables (store c)))).

(** [db.query] of a statement that reads, on a store that may fail it
    (the connection is lost, the statement is cancelled). *)
Definition selectUnless {A : Type} (fails : Tables -> bool) (q : Tables -> A)
    : Query A :=
  fun c =>
    if fails (tables (store c)) then (c, inl StoreError) else select q c.

(** [db.query] of a statement that writes the tables. *)
Definition execute {A : Type} (q : Tables -> Tables * A) : Query A :=
  fun c =>
    let (t, a) := q (tables (store c)) in
    ({| store := withTables (store c) t; snapshot := snapshot c |}, inr a).

(** [nextval] of the sequence behind [planStepId]. *)
Definition nextval (c : Conn) : Conn :=
  {| store := {| tables := tables (store c);
                 planStepId_seq := planStepId_seq (store c) + 1 |};
     snapshot := snapshot c |}.

(** [db.query] of a statement that also draws from the sequence. *)
Definition executeSeq {A : Type} (q : Store -> Store * A) : Query A :=
  fun c =>
    let (s, a) := q (store c) in
    ({| store := s; snapshot := snapshot c |}, inr a).

(** BEGIN, COMMIT and ROLLBACK are taken to succeed.  A ROLLBACK the
    store fails would reject inside the [catch], before [next(err)]. *)
Definition BEGIN : Query unit :=
  fun c => ({| store := store c; snapshot := Some (tables (store c)) |}, inr tt).

Definition COMMIT : Query unit :=
  fun c => ({| store := store c; snapshot := None |}, inr tt).

(** Outside a transaction ROLLBACK changes nothing. *)
Definition ROLLBACK : Query unit :=
  fun c =>
    match snapshot c with
    | Some t => ({| store := withTables (store c) t; snapshot := None |}, inr tt)
    | None => (c, inr tt)
    end.

(** [next(err)]. *)
Definition next (err : Error) : Query Response := ret (Next err).

(** One request, from the [try] of its handler on: the connection has
    been acquired ([pool.connect()] succeeded) and the path parameters
    and the body have been read, which the handlers do before [try].
    The handlers catch what they throw, so the last case is never
    taken. *)
Definition serve (handler : Query Response) (s : Store) : Store * Response :=
  match handler {| store := s; snapshot := None |} with
  | (c, inr r) => (store c, r)
  | (c, inl e) => (store c, Next e)
  end.

(* ===================================================================== *)
(** ** The handlers *)
(* ===================================================================== *)

Section Handlers.

(** The value of [NOW()] for the request. *)
Variable NOW : Z.

(** Whether the store rejects a step statement of PUT /api/plans/:planId
    for a constraint of the schema, given the tables the statement runs
    on, the plan and the step of the body.  The schema is not among the
    sources, so this is left open. *)
Variable stepRejected : Tables -> Z -> StepInput.t -> bool.

(** Whether the store fails [updatedPlanSql], the re-read of
    PUT /api/plans/:planId, given the committed tables and the plan.  It
    is the one statement of the file that runs after COMMIT inside
    [try]. *)
Variable updatedPlanFails : Tables -> Z -> bool.

(** In each handler [userId] (or [authenticatedUserId]) is the identity
    the authentication middleware attached to the request. *)

(** GET /api/plans/:planId *)
Definition getPlan (planId userId : Z) : Query Response :=
  tryCatch
    (planResult <- select (planSql planId userId) ;;
     match planResult with
     | [] => throw (ClientError 404 "Plan not found")
     | (plan, grassSpeciesName) :: _ =>
         stepsResult <- select (stepsSql planId) ;;
         ret (Json 200 (PlanBody
           {| PlanWithSteps.plan := plan;
              PlanWithSteps.grassSpeciesName := grassSpeciesName;
              PlanWithSteps.steps :=
                filter (fun step => notNull (Some (StepRow.planStepId step)))
                       stepsResult |}))
     end)
    next.

(** One turn of the loop over [updatedPlan.steps]: an UPDATE when
    [step.planStepId] is truthy, an INSERT otherwise.  A statement the
    store rejects writes no row; the INSERT has by then drawn the
    [planStepId] of its row from the sequence. *)
Definition writeStep (planId : Z) (step : StepInput.t) : Query unit :=
  let insertStepSql : Query unit :=
    fun c =>
      if stepRejected (tables (store c)) planId step
      then (nextval c, inl StoreError)
      else
        executeSeq (fun s =>
          (fst (insertStep planId None (StepInput.stepDescription step)
                  (StepInput.dueDate step) (StepInput.completed step) None s),
           tt)) c in
  match StepInput.planStepId step with
  | Some planStepId =>
      if truthy (Some planStepId) then
        fun c =>
          if stepRejected (tables (store c)) planId step
          then (c, inl StoreError)
          else
            execute (fun t =>
              (updateStepSql (StepInput.stepDescription step)
                 (StepInput.dueDate step) (StepInput.completed step)
                 planStepId planId t, tt)) c
      else insertStepSql
  | None => insertStepSql
  end.

(** [for (const step of updatedPlan.steps) ...] *)
Fixpoint writeSteps (planId : Z) (steps : list StepInput.t) : Query unit :=
  match steps with
  | [] => ret tt
  | step :: rest => writeStep planId step ;; writeSteps planId rest
  end.

(** Iterating over a value that is not iterable throws. *)
Definition iterate {A : Type} (x : option (list A)) : Query (list A) :=
  match x with
  | Some l => ret l
  | None => throw TypeError
  end.

Definition summary (row : Joined.row) : StepSummary.t :=
  {| StepSummary.planStepId := Joined.planStepId row;
     StepSummary.stepDescription := Joined.stepDescription row;
     StepSummary.dueDate := Joined.dueDate row;
     StepSummary.completed := Joined.completed row |}.

(** PUT /api/plans/:planId *)
Definition putPlan (planId userId : Z) (updatedPlan : PlanInput.t)
    : Query Response :=
  tryCatch
    (BEGIN ;;
     planResult <- execute (updatePlanSql
       (PlanInput.grassSpeciesId updatedPlan)
       (PlanInput.planType updatedPlan)
       (orFalse (PlanInput.isCompleted updatedPlan))
       (orFalse (PlanInput.isArchived updatedPlan))
       (PlanInput.establishmentType updatedPlan)
       planId userId) ;;
     match planResult with
     | [] => throw (ClientError 404 "Plan not found")
     | _ :: _ =>
         steps <- iterate (PlanInput.steps updatedPlan) ;;
         writeSteps planId steps ;;
         COMMIT ;;
         updatedPlanResult <-
           selectUnless (fun t => updatedPlanFails t planId)
                        (updatedPlanSql planId) ;;
         ret (Json 200 (FinalPlanBody
           {| FinalPlan.first := hd_error updatedPlanResult;
              FinalPlan.steps := map summary updatedPlanResult |}))
     end)
    (fun err => ROLLBACK ;; next err).

(** The element of [plans] made from the first row of a plan. *)
Definition newPlan (row : Joined.row) : UserPlan.t :=
  {| UserPlan.userPlanId := Joined.userPlanId row;
     UserPlan.userId := Joined.userId row;
     UserPlan.grassSpeciesId := Joined.grassSpeciesId row;
     UserPlan.grassSpeciesName := Joined.grassSpeciesName row;
     UserPlan.establishmentType := Joined.establishmentType row;
     UserPlan.planType := Joined.planType row;
     UserPlan.isCompleted := Joined.isCompleted row;
     UserPlan.isArchived := Joined.isArchived row;
     UserPlan.createdAt := Joined.createdAt row;
     UserPlan.completedAt := Joined.completedAt row;
     UserPlan.steps := [] |}.

Definition stepOfRow (row : Joined.row) : PlanStep.t :=
  {| PlanStep.planStepId := Joined.planStepId row;
     PlanStep.userPlanId := Joined.userPlanId row;
     PlanStep.templateId := Joined.templateId row;
     PlanStep.stepDescription := Joined.stepDescription row;
     PlanStep.dueDate := Joined.dueDate row;
     PlanStep.completed := Joined.completed row;
     PlanStep.completedAt := Joined.completedAt row;
     PlanStep.createdAt := Joined.createdAt row |}.

(** [plan.steps.push(step)] on the object [plans.find] returned: the
    first element of [plans] with that identity is the one that
    changes. *)
Fixpoint pushStep (id : option Z) (step : PlanStep.t) (plans : list UserPlan.t)
    : list UserPlan.t :=
  match plans with
  | [] => []
  | p :: rest =>
      if strictEq (UserPlan.userPlanId p) id then
        {| UserPlan.userPlanId := UserPlan.userPlanId p;
           UserPlan.userId := UserPlan.userId p;
           UserPlan.grassSpeciesId := UserPlan.grassSpeciesId p;
           UserPlan.grassSpeciesName := UserPlan.grassSpeciesName p;
           UserPlan.establishmentType := UserPlan.establishmentType p;
           UserPlan.planType := UserPlan.planType p;
           UserPlan.isCompleted := UserPlan.isCompleted p;
           UserPlan.isArchived := UserPlan.isArchived p;
           UserPlan.createdAt := UserPlan.createdAt p;
           UserPlan.completedAt := UserPlan.completedAt p;
           UserPlan.steps := UserPlan.steps p ++ [step] |} :: rest
      else p :: pushStep id step rest
  end.

(** The body of [plansResult.rows.forEach]. *)
Definition groupRow (plans : list UserPlan.t) (row : Joined.row)
    : list UserPlan.t :=
  let plans :=
    match find (fun p => strictEq (UserPlan.userPlanId p) (Joined.userPlanId row))
               plans with
    | Some _ => plans
    | None => plans ++ [newPlan row]
    end in
  if truthy (Joined.planStepId row)
  then pushStep (Joined.userPlanId row) (stepOfRow row) plans
  else plans.

(** GET /api/users/:userId/plans.  The path segment is a number:
    [userId] stands for it and for [parseInt(userId)]. *)
Definition getUserPlans (userId authenticatedUserId : Z) : Query Response :=
  if negb (userId =? authenticatedUserId) then
    next (ClientError 403 "Unauthorized to access plans for this user")
  else
    tryCatch
      (plansResult <- select (plansSql userId) ;;
       ret (Json 200 (PlansBody (fold_left groupRow plansResult []))))
      next.

(** PUT /api/plans/:planId/steps/:stepId, with the [completed] and
    [completedAt] of the body ([None] when [completedAt] is [null] or
    missing). *)
Definition putStep (planId stepId userId : Z) (completed : bool)
    (completedAt : option Z) : Query Response :=
  tryCatch
    (planResult <- select (checkPlanSql planId userId) ;;
     match planResult with
     | [] => throw (ClientError 404 "Plan not found")
     | _ :: _ =>
         result <- execute (completeStepSql completed completedAt stepId planId) ;;
         match result with
         | [] => throw (ClientError 404 "Step not found")
         | _ :: _ => ret (Json 200 (StepBody (hd_error result)))
         end
     end)
    next.

(** PUT /api/plans/:planId/complete *)
Definition putComplete (planId userId : Z) : Query Response :=
  tryCatch
    (BEGIN ;;
     planResult <- select (checkPlanSql planId userId) ;;
     match planResult with
     | [] => throw (ClientError 404 "Plan not found")
     | _ :: _ =>
         result <- execute (completePlanSql planId) ;;
         execute (fun t => (updateStepsSql NOW planId t, tt)) ;;
         COMMIT ;;
         ret (Json 200 (PlanRowBody (hd_error result)))
     end)
    (fun err => ROLLBACK ;; next err).

(** The [try] block of DELETE /api/plans/:planId. *)
Definition deletePlanTry (planId userId : Z) : Query Response :=
  BEGIN ;;
  execute (fun t => (deleteStepsSql planId t, tt)) ;;
  result <- execute (deletePlanSql planId userId) ;;
  match result with
  | [] => throw (ClientError 404 "Plan not found")
  | _ :: _ =>
      COMMIT ;;
      ret (Json 200 (MessageBody "Plan deleted successfully"))
  end.

(** DELETE /api/plans/:planId *)
Definition deletePlan (planId userId : Z) : Query Response :=
  tryCatch (deletePlanTry planId userId) (fun err => ROLLBACK ;; next err).

(** POST /api/plans/:planId/steps *)
Definition postStep (planId userId : Z) (newStep : NewStep.t) : Query Response :=
  tryCatch
    (planResult <- select (checkPlanSql planId userId) ;;
     match planResult with
     | [] => throw (ClientError 404 "Plan not found")
     | _ :: _ =>
         maxOrder <- select (maxOrderSql planId) ;;
         let newStepOrder := orZero maxOrder + 1 in
         result <- executeSeq (insertStep planId None
           (NewStep.stepDescription newStep) (NewStep.dueDate newStep)
           (orFalse (NewStep.completed newStep)) (Some newStepOrder)) ;;
         ret (Json 201 (StepBody (hd_error result)))
     end)
    next.

(** DELETE /api/plans/:planId/steps/:stepId *)
Definition deleteStep (planId stepId userId : Z) : Query Response :=
  tryCatch
    (planResult <- select (checkPlanSql planId userId) ;;
     match planResult with
     | [] => throw (ClientError 404 "Plan not found")
     | _ :: _ =>
         result <- execute (deleteStepSql stepId planId) ;;
         match result with
         | [] => throw (ClientError 404 "Step not found")
         | _ :: _ => ret (Json 200 (MessageBody "Step deleted successfully"))
         end
     end)
    next.

(** POST /api/users/:userId/plans, with the [planId] of the body. *)
Definition postUserPlan (userId planId authenticatedUserId : Z)
    : Query Response :=
  if negb (userId =? authenticatedUserId) then
    next (ClientError 403 "Unauthorized to save plan for this user")
  else
    tryCatch
      (planResult <- select (checkPlanSql planId userId) ;;
       match planResult with
       | [] => throw (ClientError 404
                  "Plan not found or does not belong to the user")
       | _ :: _ =>
           ret (Json 200 (MessageBody "Plan saved to profile successfully"))
       end)
      next.

(** The routes of [setupPlanRoutes], each with its path parameters and
    the part of the body its handler reads. *)
Inductive Request :=
| GET_plan (planId : Z)
| PUT_plan (planId : Z) (updatedPlan : PlanInput.t)
| GET_user_plans (userId : Z)
| PUT_step (planId stepId : Z) (completed : bool) (completedAt : option Z)
| PUT_complete (planId : Z)
| DELETE_plan (planId : Z)
| POST_step (planId : Z) (newStep : NewStep.t)
| DELETE_step (planId stepId : Z)
| POST_user_plan (userId planId : Z).

(** The router: the handler of a request sent by the authenticated
    [user]. *)
Definition route (user : Z) (r : Request) : Query Response :=
  match r with
  | GET_plan planId => getPlan planId user
  | PUT_plan planId updatedPlan => putPlan planId user updatedPlan
  | GET_user_plans userId => getUserPlans userId user
  | PUT_step planId stepId completed completedAt =>
      putStep planId stepId user completed completedAt
  | PUT_complete planId => putComplete planId user
  | DELETE_plan planId => deletePlan planId user
  | POST_step planId newStep => postStep planId user newStep
  | DELETE_step planId stepId => deleteStep planId stepId user
  | POST_user_plan userId planId => postUserPlan userId planId user
  end.

Definition handle (user : Z) (r : Request) (s : Store) : Store * Response :=
  serve (route user r) s.

End Handlers.

(* ===================================================================== *)
(** ** Vocabulary of the properties *)
(* ===================================================================== *)

(** The connection the loop starts on: inside the transaction, after the
    statement that updates the plan. *)
Definition afterPlanUpdate (planId userId : Z) (updatedPlan : PlanInput.t)
    (s : Store) : Conn :=
  {| store := withTables s (fst (updatePlanSql
       (PlanInput.grassSpeciesId updatedPlan)
       (PlanInput.planType updatedPlan)
       (orFalse (PlanInput.isCompleted updatedPlan))
       (orFalse (PlanInput.isArchived updatedPlan))
       (PlanInput.establishmentType updatedPlan)
       planId userId (tables s)));
     snapshot := Some (tables s) |}.

Definition finalPlan (planId : Z) (t : Tables) : FinalPlan.t :=
  {| FinalPlan.first := hd_error (updatedPlanSql planId t);
     FinalPlan.steps := map summary (updatedPlanSql planId t) |}.

(** The step POST /api/plans/:planId/steps inserts. *)
Definition addedStep (planId : Z) (newStep : NewStep.t) (s : Store) : StepRow.row :=
  {| StepRow.planStepId := planStepId_seq s;
     StepRow.userPlanId := planId;
     StepRow.templateId := None;
     StepRow.stepDescription := NewStep.stepDescription newStep;
     StepRow.dueDate := NewStep.dueDate newStep;
     StepRow.completed := orFalse (NewStep.completed newStep);
     StepRow.completedAt := None;
     StepRow.stepOrder := Some (orZero (maxOrderSql planId (tables s)) + 1) |}.

(** The plan a request is about: every route but the listing of a
    user's plans names one. *)
Definition targetPlan (r : Request) : option Z :=
  match r with
  | GET_plan planId => Some planId
  | PUT_plan planId _ => Some planId
  | GET_user_plans _ => None
  | PUT_step planId _ _ _ => Some planId
  | PUT_complete planId => Some planId
  | DELETE_plan planId => Some planId
  | POST_step planId _ => Some planId
  | DELETE_step planId _ => Some planId
  | POST_user_plan _ planId => Some planId
  end.

(** A step that is completed has a completion timestamp. *)
Definition timestamped (ps : StepRow.row) : Prop :=
  StepRow.completed ps = true -> StepRow.completedAt ps <> None.

(** The step entry made from a joined row whose step columns are all
    [NULL]. *)
Definition nullStep : StepSummary.t :=
  {| StepSummary.planStepId := None;
     StepSummary.stepDescription := None;
     StepSummary.dueDate := None;
     StepSummary.completed := None |}.

(** [up'] is the plan row [up] with the scalar fields of the body of an
    update in place of its own. *)
Definition planWithBody (updatedPlan : PlanInput.t) (up up' : PlanRow.row)
    : Prop :=
  PlanRow.userPlanId up' = PlanRow.userPlanId up /\
  PlanRow.userId up' = PlanRow.userId up /\
  PlanRow.createdAt up' = PlanRow.createdAt up /\
  PlanRow.completedAt up' = PlanRow.completedAt up /\
  PlanRow.grassSpeciesId up' = PlanInput.grassSpeciesId updatedPlan /\
  PlanRow.planType up' = PlanInput.planType updatedPlan /\
  PlanRow.establishmentType up' = PlanInput.establishmentType updatedPlan /\
  PlanRow.isCompleted up' = orFalse (PlanInput.isCompleted updatedPlan) /\
  PlanRow.isArchived up' = orFalse (PlanInput.isArchived updatedPlan).

(** [ps'] has the identity, the plan, the template, the completion
    timestamp and the order of [ps]. *)
Definition sameStep (ps ps' : StepRow.row) : Prop :=
  StepRow.planStepId ps' = StepRow.planStepId ps /\
  StepRow.userPlanId ps' = StepRow.userPlanId ps /\
  StepRow.templateId ps' = StepRow.templateId ps /\
  StepRow.completedAt ps' = StepRow.completedAt ps /\
  StepRow.stepOrder ps' = StepRow.stepOrder ps.

(** [ps] has the description, the due date and the flag of a step of the
    body of an update. *)
Definition carries (step : StepInput.t) (ps : StepRow.row) : Prop :=
  StepRow.stepDescription ps = StepInput.stepDescription step /\
  StepRow.dueDate ps = StepInput.dueDate step /\
  StepRow.completed ps = StepInput.completed step.

(** [ps] is a step of plan [planId] with no template, no completion
    timestamp and no order: what an update inserts. *)
Definition insertedFor (planId : Z) (ps : StepRow.row) : Prop :=
  StepRow.userPlanId ps = planId /\
  StepRow.templateId ps = None /\
  StepRow.completedAt ps = None /\
  StepRow.stepOrder ps = None.

(** The entry of a step in the [steps] of the answer of an update. *)
Definition entryOf (ps : StepRow.row) : StepSummary.t :=
  {| StepSummary.planStepId := Some (StepRow.planStepId ps);
     StepSummary.stepDescription := Some (StepRow.stepDescription ps);
     StepSummary.dueDate := Some (StepRow.dueDate ps);
     StepSummary.completed := Some (StepRow.completed ps) |}.

(** An entry is due no later than another; one without a due date is
    due last. *)
Definition dueNoLater (a b : StepSummary.t) : Prop :=
  match StepSummary.dueDate a, StepSummary.dueDate b with
  | Some x, Some y => x <= y
  | _, None => True
  | None, Some _ => False
  end.

(* ===================================================================== *)
(** ** Stores and bodies of the scenarios *)
(* ===================================================================== *)

(** A store that rejects no step statement. *)
Definition acceptAll : Tables -> Z -> StepInput.t -> bool := fun _ _ _ => false.

(** A store that answers every re-read, and one that fails them all. *)
Definition reliable : Tables -> Z -> bool := fun _ _ => false.

Definition unreliable : Tables -> Z -> bool := fun _ _ => true.

(** A store that rejects a step without a description. *)
Definition rejectBlank : Tables -> Z -> StepInput.t -> bool :=
  fun _ _ step => String.eqb (StepInput.stepDescription step) "".

Definition fescue : SpeciesRow.row :=
  {| SpeciesRow.grassSpeciesId := 1; SpeciesRow.name := "Tall Fescue" |}.

(** A plan with species 1, [new_lawn], [sod_plugs]. *)
Definition lawn (userPlanId userId : Z) (isCompleted : bool) (createdAt : Z)
    : PlanRow.row :=
  {| PlanRow.userPlanId := userPlanId;
     PlanRow.userId := userId;
     PlanRow.grassSpeciesId := 1;
     PlanRow.planType := new_lawn;
     PlanRow.establishmentType := Some "sod_plugs";
     PlanRow.isCompleted := isCompleted;
     PlanRow.isArchived := false;
     PlanRow.createdAt := createdAt;
     PlanRow.completedAt := None |}.

(** An incomplete step. *)
Definition task (planStepId userPlanId : Z) (stepDescription : string)
    (dueDate stepOrder : Z) : StepRow.row :=
  {| StepRow.planStepId := planStepId;
     StepRow.userPlanId := userPlanId;
     StepRow.templateId := None;
     StepRow.stepDescription := stepDescription;
     StepRow.dueDate := dueDate;
     StepRow.completed := false;
     StepRow.completedAt := None;
     StepRow.stepOrder := Some stepOrder |}.

(** User 7 has plan 1 with three incomplete steps; user 8 has plan 2,
    without steps. *)
Definition threeSteps : Store :=
  {| tables :=
       {| UserPlans := [lawn 1 7 false 1000; lawn 2 8 false 1500];
          PlanSteps := [task 10 1 "Mow" 50 1; task 11 1 "Water" 40 2;
                        task 12 1 "Seed" 45 3];
          GrassSpecies := [fescue] |};
     planStepId_seq := 13 |}.

(** The same store without plan 2. *)
Definition threeStepsOnly : Store :=
  {| tables :=
       {| UserPlans := [lawn 1 7 false 1000];
          PlanSteps := PlanSteps (tables threeSteps);
          GrassSpecies := [fescue] |};
     planStepId_seq := 13 |}.

(** User 7 has two plans, created at 1000 and at 2000, neither with a
    step. *)
Definition twoSteplessPlans : Store :=
  {| tables :=
       {| UserPlans := [lawn 1 7 false 1000; lawn 2 7 false 2000];
          PlanSteps := [];
          GrassSpecies := [fescue] |};
     planStepId_seq := 1 |}.

(** User 7 has plan 1, completed, with one completed step. *)
Definition completedPlan : Store :=
  {| tables :=
       {| UserPlans := [lawn 1 7 true 1000];
          PlanSteps := [setCompletion true (Some 1200) (task 10 1 "Mow" 50 1)];
          GrassSpecies := [fescue] |};
     planStepId_seq := 11 |}.

Definition mow : NewStep.t :=
  {| NewStep.stepDescription := "Mow";
     NewStep.dueDate := 20240501;
     NewStep.completed := None |}.

(** A body that repeats the scalar fields of [lawn] and carries
    [steps]. *)
Definition sameLawn (isCompleted : option bool)
    (steps : option (list StepInput.t)) : PlanInput.t :=
  {| PlanInput.grassSpeciesId := 1;
     PlanInput.planType := new_lawn;
     PlanInput.isCompleted := isCompleted;
     PlanInput.isArchived := None;
     PlanInput.establishmentType := Some "sod_plugs";
     PlanInput.steps := steps |}.

(* ===================================================================== *)
(** ** The grouping of joined rows, stated on the rows *)
(* ===================================================================== *)

(** The rows that no earlier row shares its [userPlanId] with, in
    order. *)
Fixpoint firstRows (rows : list Joined.row) : list Joined.row :=
  match rows with
  | [] => []
  | row :: rest =>
      row :: filter (fun r => negb (strictEq (Joined.userPlanId r)
                                             (Joined.userPlanId row)))
                    (firstRows rest)
  end.

(** The step objects of the rows that have the identity [id] and a
    truthy [planStepId], in order. *)
Definition stepsFor (id : option Z) (rows : list Joined.row) : list PlanStep.t :=
  map stepOfRow
      (filter (fun r => strictEq (Joined.userPlanId r) id
                        && truthy (Joined.planStepId r))
              rows).

(** A plan object with other [steps]. *)
Definition withSteps (p : UserPlan.t) (steps : list PlanStep.t) : UserPlan.t :=
  {| UserPlan.userPlanId := UserPlan.userPlanId p;
     UserPlan.userId := UserPlan.userId p;
     UserPlan.grassSpeciesId := UserPlan.grassSpeciesId p;
     UserPlan.grassSpeciesName := UserPlan.grassSpeciesName p;
     UserPlan.establishmentType := UserPlan.establishmentType p;
     UserPlan.planType := UserPlan.planType p;
     UserPlan.isCompleted := UserPlan.isCompleted p;
     UserPlan.isArchived := UserPlan.isArchived p;
     UserPlan.createdAt := UserPlan.createdAt p;
     UserPlan.completedAt := UserPlan.completedAt p;
     UserPlan.steps := steps |}.

(** The nested structure the rows stand for: one plan object for each
    identity, in the order the identities first appear, made from the
    first row of the identity, with the steps of all its rows. *)
Definition grouped (rows : list Joined.row) : list UserPlan.t :=
  map (fun row => withSteps (newPlan row) (stepsFor (Joined.userPlanId row) rows))
      (firstRows rows).

(* ===================================================================== *)
(** ** What the loop of PUT /api/plans/:planId inserts *)
(* ===================================================================== *)

(** The [k] values a sequence standing at [n] gives next. *)
Fixpoint nextValues (n : Z) (k : nat) : list Z :=
  match k with
  | O => []
  | S k' => n :: nextValues (n + 1) k'
  end.

(** The steps of a body that have no truthy [planStepId]: the ones the
    loop inserts. *)
Definition insertedSteps (steps : list StepInput.t) : list StepInput.t :=
  filter (fun step => negb (truthy (StepInput.planStepId step))) steps.

(* ===================================================================== *)
(** ** The client forms: [Registration] and [NewPlan] *)
(* ===================================================================== *)

(** The state of the sign-up form. *)
Module SignUpForm.
Record t := mk {
    username : string;
    password : string;
    confirmPassword : string }.
End SignUpForm.

(** The state of the plan form. *)
Module PlanForm.
Record t := mk {
    grassSpecies : string;
    planType : string;
    establishmentType : string }.
End PlanForm.

(** An element of the answer of
    /api/grass-species/:id/plan-types, as far as the page reads it. *)
Module LawnType.
Record t := mk {
    planType : string;
    establishmentType : option string }.
End LawnType.

(** The body of a request, before [JSON.stringify]. *)
Inductive RequestBody :=
| noBody
| signUpBody (formData : SignUpForm.t)
| newPlanBody (userId : Z) (grassSpeciesId planType establishmentType : string).

(** What a handler of a form does, one effect after the other. *)
Inductive Effect :=
| preventDefault
| setError (error : option string)
| setIsLoading (isLoading : bool)
| setAvailableTypes (availableTypes : list string)
| fetch (url method : string) (authorization : option string) (body : RequestBody)
| navigate (to : string)
| consoleLog
| consoleError.

(** What an [await] gives: a value, or an [Error] thrown with a
    message. *)
Inductive Awaited (J : Type) :=
| threw (message : string)
| gave (value : J).
Arguments threw {J} message.
Arguments gave {J} value.

(** What [await fetch(...)] gives: a rejection, or a response with its
    [ok], its [status] and what [await response.json()] would give. *)
Inductive Fetched (J : Type) :=
| rejected (message : string)
| resolved (ok : bool) (status : Z) (json : Awaited J).
Arguments rejected {J} message.
Arguments resolved {J} ok status json.

(** [x || y] on a string that may be missing: the empty string is
    falsy. *)
Definition orElse (x : option string) (y : string) : string :=
  match x with
  | Some v => if String.eqb v "" then y else v
  | None => y
  end.

(** Truthiness of a string that may be missing. *)
Definition truthyString (x : option string) : bool :=
  match x with
  | Some v => negb (String.eqb v "")
  | None => false
  end.

(** A number in a template literal. *)
Definition decimal (n : Z) : string := NilZero.string_of_int (Z.to_int n).

(** [`Bearer ${token}`]. *)
Definition bearer (token : option string) : string :=
  "Bearer " ++ match token with Some t => t | None => "undefined" end.

(** [handleSubmit] of [Registration], with what the fetch gives; the
    body of an error response is an object whose [error] is a string or
    missing. *)
Definition registrationSubmit (formData : SignUpForm.t)
    (res : Fetched (option string)) : list Effect :=
  preventDefault ::
  if negb (String.eqb (SignUpForm.password formData)
                      (SignUpForm.confirmPassword formData))
  then [setError (Some "Passwords don't match")]
  else
    setIsLoading true ::
    fetch "/api/auth/sign-up" "POST" None (signUpBody formData) ::
    match res with
    | rejected message => [setError (Some message)]
    | resolved ok status json =>
        if negb ok then
          match json with
          | threw message => [setError (Some message)]
          | gave errorData =>
              [setError (Some (orElse errorData
                                 ("Registration failed: " ++ decimal status)))]
          end
        else [navigate "/sign-in"]
    end
    ++ [setIsLoading false].

(** [handleSubmit] of [NewPlan], with the [isLoading], [user] and
    [token] it closes over and what the fetch gives; [json] is the text
    of [data.userPlanId]. *)
Definition newPlanSubmit (isLoading : bool) (user : option Z)
    (token : option string) (formData : PlanForm.t) (response : Fetched string)
    : list Effect :=
  preventDefault ::
  if isLoading then [consoleLog]
  else
    match user with
    | None => [setError (Some "You must be logged in to create a plan")]
    | Some userId =>
        setIsLoading true ::
        setError None ::
        fetch "/api/plans/new" "POST" (Some (bearer token))
          (newPlanBody userId (PlanForm.grassSpecies formData)
             (PlanForm.planType formData) (PlanForm.establishmentType formData)) ::
        match response with
        | resolved true _ (gave userPlanId) =>
            [consoleLog; navigate ("/plan/" ++ userPlanId)]
        | _ =>
            [consoleError;
             setError (Some
               "An error occurred while creating the plan. Please try again.")]
        end
        ++ [setIsLoading false]
    end.

(** The [availableTypes] made from the answer:
    [data.filter(...).map(...).filter(Boolean)]. *)
Definition lawnTypes (data : list LawnType.t) : list string :=
  flat_map (fun establishmentType =>
              match establishmentType with
              | Some type => if truthyString (Some type) then [type] else []
              | None => []
              end)
           (map LawnType.establishmentType
                (filter (fun item => String.eqb (LawnType.planType item) "new_lawn")
                        data)).

(** [fetchAvailableLawnTypes] of [NewPlan]. *)
Definition fetchAvailableLawnTypes (formData : PlanForm.t) (token : option string)
    (response : Fetched (list LawnType.t)) : list Effect :=
  if negb (truthyString (Some (PlanForm.grassSpecies formData)))
     || negb (String.eqb (PlanForm.planType formData) "new_lawn")
     || negb (truthyString token)
  then []
  else
    fetch ("/api/grass-species/" ++ PlanForm.grassSpecies formData ++ "/plan-types")
      "GET" (Some (bearer token)) noBody ::
    match response with
    | resolved true _ (gave data) => [setAvailableTypes (lawnTypes data); consoleLog]
    | _ =>
        [consoleError;
         setError (Some "Failed to load lawn types. Please try again.")]
    end.

(* ===================================================================== *)
(** ** Facts about ORDER BY and the statements *)
(* ===================================================================== *)

Section OrderByFacts.
Variable A : Type.
Variable leb : A -> A -> bool.
Hypothesis leb_total : forall a b, leb a b = false -> leb b a = true.

Lemma insertRow_Permutation (x : A) (l : list A) :
  Permutation (insertRow leb x l) (x :: l).
Proof.
  induction l as [|y l IH]; simpl.
  - apply Permutation_refl.
  - destruct (leb x y).
    + apply Permutation_refl.
    + eapply perm_trans; [apply perm_skip, IH | apply perm_swap].
Qed.

Lemma orderBy_Permutation (l : list A) : Permutation (orderBy leb l) l.
Proof.
  induction l as [|x l IH]; simpl.
  - constructor.
  - eapply perm_trans; [apply insertRow_Permutation | apply perm_skip, IH].
Qed.

Lemma insertRow_HdRel (a x : A) (l : list A) :
  leb a x = true -> HdRel (fun u v => leb u v = true) a l ->
  HdRel (fun u v => leb u v = true) a (insertRow leb x l).
Proof.
  intros Hax Hal. destruct l as [|y l]; simpl.
  - constructor. exact Hax.
  - destruct (leb x y); constructor.
    + exact Hax.
    + inversion Hal; assumption.
Qed.

Lemma insertRow_Sorted (x : A) (l : list A) :
  Sorted (fun u v => leb u v = true) l ->
  Sorted (fun u v => leb u v = true) (insertRow leb x l).
Proof.
  induction l as [|y l IH]; simpl; intros Hs.
  - repeat constructor.
  - destruct (leb x y) eqn:Hxy.
    + constructor; [exact Hs | constructor; exact Hxy].
    + inversion Hs as [|? ? Hs' Hhd]; subst.
      constructor; [apply IH; exact Hs' |].
      apply insertRow_HdRel; [apply leb_total; exact Hxy | exact Hhd].
Qed.

Lemma orderBy_Sorted (l : list A) :
  Sorted (fun u v => leb u v = true) (orderBy leb l).
Proof.
  induction l as [|x l IH]; simpl.
  - constructor.
  - apply insertRow_Sorted, IH.
Qed.
End OrderByFacts.

Lemma Sorted_weaken (A : Type) (R Q : A -> A -> Prop) (l : list A) :
  (forall a b, R a b -> Q a b) -> Sorted R l -> Sorted Q l.
Proof.
  intros HRQ. induction 1 as [|a l Hs IH Hhd]; constructor.
  - exact IH.
  - destruct Hhd; constructor; auto.
Qed.

Lemma filter_all (A : Type) (f : A -> bool) (l : list A) :
  (forall x, f x = true) -> filter f l = l.
Proof.
  intros Hf. induction l as [|x l IH]; simpl; [reflexivity|].
  rewrite Hf, IH. reflexivity.
Qed.

(** The steps [stepsSql] returns are the steps of the plan, each once, in
    ascending order of [dueDate]. *)
Lemma stepsSql_Permutation (planId : Z) (t : Tables) :
  Permutation (stepsSql planId t) (filter (ofPlan planId) (PlanSteps t)).
Proof. apply orderBy_Permutation. Qed.

Lemma stepsSql_Sorted (planId : Z) (t : Tables) :
  Sorted (fun a b => StepRow.dueDate a <= StepRow.dueDate b) (stepsSql planId t).
Proof.
  unfold stepsSql.
  eapply Sorted_weaken; [| apply orderBy_Sorted].
  - intros a b H. apply Z.leb_le. exact H.
  - intros a b H. apply Z.leb_le. apply Z.leb_gt in H. lia.
Qed.

(** [planSql] returns no row exactly when no plan row with the identity
    belongs to the user or the plan's species is missing. *)
Lemma planSql_not_owned (planId userId : Z) (t : Tables) :
  checkPlanSql planId userId t = [] -> planSql planId userId t = [].
Proof. unfold checkPlanSql, planSql. intros ->. reflexivity. Qed.

Lemma planSql_In (planId userId : Z) (t : Tables) (plan : PlanRow.row)
    (grassSpeciesName : string) :
  In (plan, grassSpeciesName) (planSql planId userId t) ->
  In plan (UserPlans t) /\ ownedBy planId userId plan = true /\
  exists gs, In gs (GrassSpecies t) /\
    SpeciesRow.grassSpeciesId gs = PlanRow.grassSpeciesId plan /\
    SpeciesRow.name gs = grassSpeciesName.
Proof.
  unfold planSql, speciesOf. intros H.
  apply in_flat_map in H. destruct H as [up [Hup H]].
  apply filter_In in Hup. destruct Hup as [Hin Hown].
  apply in_map_iff in H. destruct H as [gs [Heq Hgs]].
  inversion Heq; subst.
  apply filter_In in Hgs. destruct Hgs as [Hgs Hid].
  repeat split; try assumption.
  exists gs. repeat split; try assumption. apply Z.eqb_eq. exact Hid.
Qed.

(* ===================================================================== *)
(** ** GET /api/plans/:planId *)
(* ===================================================================== *)

Section Properties.
Variable NOW : Z.
Variable stepRejected : Tables -> Z -> StepInput.t -> bool.
Variable updatedPlanFails : Tables -> Z -> bool.

(** What [getPlan] answers, by cases on the rows of [planSql]. *)
Lemma getPlan_run (planId userId : Z) (s : Store) :
  handle NOW stepRejected updatedPlanFails userId (GET_plan planId) s =
  (s, match planSql planId userId (tables s) with
      | [] => Next (ClientError 404 "Plan not found")
      | (plan, grassSpeciesName) :: _ =>
          Json 200 (PlanBody
            {| PlanWithSteps.plan := plan;
               PlanWithSteps.grassSpeciesName := grassSpeciesName;
               PlanWithSteps.steps := stepsSql planId (tables s) |})
      end).
Proof.
  unfold handle, serve, route, getPlan, tryCatch, bind, select, throw, next, ret.
  simpl. destruct (planSql planId userId (tables s)) as [|[plan nm] rest]; simpl.
  - destruct s; reflexivity.
  - rewrite filter_all by reflexivity. destruct s; reflexivity.
Qed.

(** C8: [get(planId, userId)] changes nothing; it fails with NotFound
    when no plan row matches [(planId, userId)]; it succeeds when the
    plan and its species are there; and what it returns on success is a
    plan row of that user joined with the name of its species, together
    with the steps of the plan, each once, every adjacent pair in
    non-decreasing order of [dueDate]. *)
Theorem getPlan_sorted_steps (planId userId : Z) (s : Store) :
  fst (handle NOW stepRejected updatedPlanFails userId (GET_plan planId) s) = s /\
  (checkPlanSql planId userId (tables s) = [] ->
   snd (handle NOW stepRejected updatedPlanFails userId (GET_plan planId) s)
   = Next (ClientError 404 "Plan not found")) /\
  (planSql planId userId (tables s) <> [] ->
   exists userPlan,
     snd (handle NOW stepRejected updatedPlanFails userId (GET_plan planId) s)
     = Json 200 (PlanBody userPlan)) /\
  (forall status body,
   snd (handle NOW stepRejected updatedPlanFails userId (GET_plan planId) s) = Json status body ->
   exists userPlan,
     status = 200 /\ body = PlanBody userPlan /\
     In (PlanWithSteps.plan userPlan) (UserPlans (tables s)) /\
     ownedBy planId userId (PlanWithSteps.plan userPlan) = true /\
     (exists gs, In gs (GrassSpecies (tables s)) /\
        SpeciesRow.grassSpeciesId gs
        = PlanRow.grassSpeciesId (PlanWithSteps.plan userPlan) /\
        SpeciesRow.name gs = PlanWithSteps.grassSpeciesName userPlan) /\
     Permutation (PlanWithSteps.steps userPlan)
                 (filter (ofPlan planId) (PlanSteps (tables s))) /\
     Sorted (fun a b => StepRow.dueDate a <= StepRow.dueDate b)
            (PlanWithSteps.steps userPlan)).
Proof.
  rewrite getPlan_run. simpl. split; [reflexivity|]. split; [|split].
  - intros H. rewrite (planSql_not_owned _ _ _ H). reflexivity.
  - intros H. destruct (planSql planId userId (tables s)) as [|[plan nm] rest].
    + contradiction.
    + eexists. reflexivity.
  - intros status body H.
    destruct (planSql planId userId (tables s)) as [|[plan nm] rest] eqn:Hq.
    + discriminate.
    + inversion H; subst. eexists. split; [reflexivity|]. split; [reflexivity|].
      simpl. assert (Hin : In (plan, nm) (planSql planId userId (tables s))).
      { rewrite Hq. left. reflexivity. }
      apply planSql_In in Hin. destruct Hin as [Hin [Hown Hgs]].
      repeat split; try assumption.
      * apply stepsSql_Permutation.
      * apply stepsSql_Sorted.
Qed.

(* ===================================================================== *)
(** ** PUT /api/plans/:planId/complete *)
(* ===================================================================== *)

Lemma withTables_same (s : Store) : withTables s (tables s) = s.
Proof. destruct s; reflexivity. Qed.

Lemma withTables_twice (s : Store) (t t' : Tables) :
  withTables (withTables s t) t' = withTables s t'.
Proof. reflexivity. Qed.

(** What [putComplete] does, by cases on the ownership check. *)
Lemma putComplete_run (planId userId : Z) (s : Store) :
  handle NOW stepRejected updatedPlanFails userId (PUT_complete planId) s =
  match checkPlanSql planId userId (tables s) with
  | [] => (s, Next (ClientError 404 "Plan not found"))
  | _ :: _ =>
      (withTables s
         (updateStepsSql NOW planId (fst (completePlanSql planId (tables s)))),
       Json 200 (PlanRowBody (hd_error (snd (completePlanSql planId (tables s))))))
  end.
Proof.
  unfold handle, serve, route, putComplete, tryCatch, bind, select, execute,
    throw, next, ret, BEGIN, COMMIT, ROLLBACK.
  simpl. destruct (checkPlanSql planId userId (tables s)); simpl.
  - rewrite withTables_same. reflexivity.
  - unfold completePlanSql. simpl. reflexivity.
Qed.


(* ===================================================================== *)
(** ** PUT /api/plans/:planId *)
(* ===================================================================== *)

Lemma sqlUpdate_no_hit (A : Type) (hit : A -> bool) (set : A -> A) (l : list A) :
  filter hit l = [] -> fst (sqlUpdate hit set l) = l.
Proof.
  simpl. induction l as [|x l IH]; simpl; intros H; [reflexivity|].
  destruct (hit x); [discriminate|]. rewrite IH by exact H. reflexivity.
Qed.

Lemma withPlanSteps_same (t : Tables) : withPlanSteps t (PlanSteps t) = t.
Proof. destruct t; reflexivity. Qed.

(** A turn of the loop leaves the snapshot of the transaction, the plan
    rows and the species rows as they are. *)
Lemma writeStep_frame (planId : Z) (step : StepInput.t) (c c' : Conn)
    (r : Error + unit) :
  writeStep stepRejected planId step c = (c', r) ->
  snapshot c' = snapshot c /\
  UserPlans (tables (store c')) = UserPlans (tables (store c)) /\
  GrassSpecies (tables (store c')) = GrassSpecies (tables (store c)) /\
  (forall e, r = inl e ->
     e = StoreError /\ tables (store c') = tables (store c)).
Proof.
  unfold writeStep, execute, executeSeq, nextval. intros H.
  destruct (StepInput.planStepId step) as [planStepId|];
    [destruct (truthy (Some planStepId))|];
    destruct (stepRejected (tables (store c)) planId step);
    simpl in H; inversion H; subst; simpl; repeat split;
    solve [discriminate | congruence].
Qed.

Lemma writeSteps_frame (planId : Z) (steps : list StepInput.t) :
  forall (c c' : Conn) (r : Error + unit),
  writeSteps stepRejected planId steps c = (c', r) ->
  snapshot c' = snapshot c /\
  UserPlans (tables (store c')) = UserPlans (tables (store c)) /\
  GrassSpecies (tables (store c')) = GrassSpecies (tables (store c)) /\
  (forall e, r = inl e -> e = StoreError).
Proof.
  induction steps as [|step rest IH]; simpl; intros c c' r H.
  - unfold ret in H. inversion H; subst. repeat split; discriminate.
  - unfold bind in H.
    destruct (writeStep stepRejected planId step c) as [c1 [e|[]]] eqn:H1.
    + inversion H; subst.
      destruct (writeStep_frame _ _ _ H1) as [Hs [Hu [Hg He]]].
      repeat split; try assumption.
      intros e' Heq. inversion Heq; subst. apply (He e'). reflexivity.
    + destruct (writeStep_frame _ _ _ H1) as [Hs [Hu [Hg _]]].
      destruct (IH _ _ _ H) as [Hs' [Hu' [Hg' He']]].
      repeat split; try congruence. exact He'.
Qed.

(** A step the store rejects whatever the tables are makes the loop
    throw. *)
Lemma writeSteps_rejected (planId : Z) (steps : list StepInput.t)
    (step : StepInput.t) :
  In step steps ->
  (forall t, stepRejected t planId step = true) ->
  forall c, exists c', writeSteps stepRejected planId steps c = (c', inl StoreError).
Proof.
  intros Hin Hrej. induction steps as [|x rest IH]; [destruct Hin|].
  intros c. simpl. unfold bind.
  destruct (writeStep stepRejected planId x c) as [c1 [e|[]]] eqn:H1.
  - destruct (writeStep_frame _ _ _ H1) as [_ [_ [_ He]]].
    destruct (He e eq_refl) as [-> _]. eexists. reflexivity.
  - destruct Hin as [->|Hin].
    + unfold writeStep in H1.
      destruct (StepInput.planStepId step) as [planStepId|];
        [destruct (truthy (Some planStepId))|];
        rewrite Hrej in H1; discriminate.
    + apply IH. exact Hin.
Qed.

(** What [putPlan] does, by cases on the rows the plan statement wrote,
    on the body and on the outcome of the loop. *)
Lemma putPlan_run (planId userId : Z) (updatedPlan : PlanInput.t) (s : Store) :
  handle NOW stepRejected updatedPlanFails userId (PUT_plan planId updatedPlan) s =
  match checkPlanSql planId userId (tables s) with
  | [] => (s, Next (ClientError 404 "Plan not found"))
  | _ :: _ =>
      match PlanInput.steps updatedPlan with
      | None => (s, Next TypeError)
      | Some steps =>
          match writeSteps stepRejected planId steps
                  (afterPlanUpdate planId userId updatedPlan s) with
          | (c, inl e) => (withTables (store c) (tables s), Next e)
          | (c, inr _) =>
              if updatedPlanFails (tables (store c)) planId
              then (store c, Next StoreError)
              else (store c,
                    Json 200 (FinalPlanBody (finalPlan planId (tables (store c)))))
          end
      end
  end.
Proof.
  unfold handle, serve, route, putPlan, tryCatch, bind, selectUnless, select,
    execute, throw, next, ret, BEGIN, COMMIT, ROLLBACK, iterate, updatePlanSql,
    checkPlanSql.
  simpl.
  destruct (filter (ownedBy planId userId) (UserPlans (tables s))) eqn:Hq; simpl.
  - rewrite withTables_twice, withTables_same. reflexivity.
  - destruct (PlanInput.steps updatedPlan) as [steps|]; simpl.
    + unfold afterPlanUpdate, updatePlanSql. simpl.
      match goal with |- context [writeSteps _ _ _ ?c] =>
        destruct (writeSteps stepRejected planId steps c) as [c1 [e|[]]] eqn:Hw
      end.
      * apply writeSteps_frame in Hw. destruct Hw as [Hs _].
        simpl in Hs. rewrite Hs. simpl. reflexivity.
      * simpl. destruct (updatedPlanFails (tables (store c1)) planId);
          simpl; [destruct (store c1)|]; reflexivity.
    + rewrite withTables_twice, withTables_same. reflexivity.
Qed.

(** When the store rejects none of the steps the loop runs to its end. *)
Lemma writeSteps_accepted (planId : Z) (steps : list StepInput.t) :
  (forall t step, In step steps -> stepRejected t planId step = false) ->
  forall c, exists c', writeSteps stepRejected planId steps c = (c', inr tt).
Proof.
  induction steps as [|x rest IH]; intros Hacc c; simpl.
  - eexists. reflexivity.
  - unfold bind.
    assert (H1 : exists c1, writeStep stepRejected planId x c = (c1, inr tt)).
    { unfold writeStep.
      destruct (StepInput.planStepId x) as [planStepId|];
        [destruct (truthy (Some planStepId))|];
        rewrite Hacc by (left; reflexivity); eexists; reflexivity. }
    destruct H1 as [c1 ->]. apply IH. intros t step Hin. apply Hacc. right. exact Hin.
Qed.

(* ===================================================================== *)
(** ** The other handlers, by cases *)
(* ===================================================================== *)

Lemma sqlDelete_no_hit (A : Type) (hit : A -> bool) (l : list A) :
  filter hit l = [] -> fst (sqlDelete hit l) = l.
Proof.
  simpl. induction l as [|x l IH]; simpl; intros H; [reflexivity|].
  destruct (hit x); [discriminate|]. simpl. rewrite IH by exact H. reflexivity.
Qed.

Lemma putStep_run (planId stepId userId : Z) (completed : bool)
    (completedAt : option Z) (s : Store) :
  handle NOW stepRejected updatedPlanFails userId (PUT_step planId stepId completed completedAt) s =
  match checkPlanSql planId userId (tables s) with
  | [] => (s, Next (ClientError 404 "Plan not found"))
  | _ :: _ =>
      match filter (stepOfPlan stepId planId) (PlanSteps (tables s)) with
      | [] => (s, Next (ClientError 404 "Step not found"))
      | ps :: _ =>
          (withTables s
             (fst (completeStepSql completed completedAt stepId planId (tables s))),
           Json 200 (StepBody (Some (setCompletion completed completedAt ps))))
      end
  end.
Proof.
  unfold handle, serve, route, putStep, tryCatch, bind, select, execute,
    throw, next, ret, completeStepSql.
  simpl. destruct (checkPlanSql planId userId (tables s)); simpl.
  - reflexivity.
  - destruct (filter (stepOfPlan stepId planId) (PlanSteps (tables s))) eqn:Hf;
      simpl; [|reflexivity].
    pose proof (sqlUpdate_no_hit (stepOfPlan stepId planId)
                  (setCompletion completed completedAt) _ Hf) as Hl.
    simpl in Hl. rewrite Hl, withPlanSteps_same, withTables_same. reflexivity.
Qed.

Lemma deleteStep_run (planId stepId userId : Z) (s : Store) :
  handle NOW stepRejected updatedPlanFails userId (DELETE_step planId stepId) s =
  match checkPlanSql planId userId (tables s) with
  | [] => (s, Next (ClientError 404 "Plan not found"))
  | _ :: _ =>
      match filter (stepOfPlan stepId planId) (PlanSteps (tables s)) with
      | [] => (s, Next (ClientError 404 "Step not found"))
      | _ :: _ =>
          (withTables s (fst (deleteStepSql stepId planId (tables s))),
           Json 200 (MessageBody "Step deleted successfully"))
      end
  end.
Proof.
  unfold handle, serve, route, deleteStep, tryCatch, bind, select, execute,
    throw, next, ret, deleteStepSql.
  simpl. destruct (checkPlanSql planId userId (tables s)); simpl.
  - reflexivity.
  - destruct (filter (stepOfPlan stepId planId) (PlanSteps (tables s))) eqn:Hf;
      simpl; [|reflexivity].
    pose proof (sqlDelete_no_hit (stepOfPlan stepId planId) _ Hf) as Hl.
    simpl in Hl. rewrite Hl, withPlanSteps_same, withTables_same. reflexivity.
Qed.

Lemma postStep_run (planId userId : Z) (newStep : NewStep.t) (s : Store) :
  handle NOW stepRejected updatedPlanFails userId (POST_step planId newStep) s =
  match checkPlanSql planId userId (tables s) with
  | [] => (s, Next (ClientError 404 "Plan not found"))
  | _ :: _ =>
      ({| tables := withPlanSteps (tables s)
                      (PlanSteps (tables s) ++ [addedStep planId newStep s]);
          planStepId_seq := planStepId_seq s + 1 |},
       Json 201 (StepBody (Some (addedStep planId newStep s))))
  end.
Proof.
  unfold handle, serve, route, postStep, tryCatch, bind, select, executeSeq,
    throw, next, ret, insertStep.
  simpl. destruct (checkPlanSql planId userId (tables s)); reflexivity.
Qed.

Lemma deletePlan_run (planId userId : Z) (s : Store) :
  handle NOW stepRejected updatedPlanFails userId (DELETE_plan planId) s =
  match checkPlanSql planId userId (tables s) with
  | [] => (s, Next (ClientError 404 "Plan not found"))
  | _ :: _ =>
      (withTables s
         (fst (deletePlanSql planId userId (deleteStepsSql planId (tables s)))),
       Json 200 (MessageBody "Plan deleted successfully"))
  end.
Proof.
  unfold handle, serve, route, deletePlan, deletePlanTry, tryCatch, bind,
    select, execute, throw, next, ret, BEGIN, COMMIT, ROLLBACK, deletePlanSql,
    deleteStepsSql, checkPlanSql.
  simpl. destruct (filter (ownedBy planId userId) (UserPlans (tables s))); simpl.
  - rewrite !withTables_twice, withTables_same. reflexivity.
  - reflexivity.
Qed.

Lemma postUserPlan_run (userId planId authenticatedUserId : Z) (s : Store) :
  handle NOW stepRejected updatedPlanFails authenticatedUserId (POST_user_plan userId planId) s =
  (s, if negb (userId =? authenticatedUserId)
      then Next (ClientError 403 "Unauthorized to save plan for this user")
      else match checkPlanSql planId userId (tables s) with
           | [] => Next (ClientError 404
                     "Plan not found or does not belong to the user")
           | _ :: _ => Json 200 (MessageBody "Plan saved to profile successfully")
           end).
Proof.
  unfold handle, serve, route, postUserPlan, tryCatch, bind, select,
    throw, next, ret.
  destruct (negb (userId =? authenticatedUserId)); simpl; [reflexivity|].
  destruct (checkPlanSql planId userId (tables s)); reflexivity.
Qed.

Lemma getUserPlans_run (userId authenticatedUserId : Z) (s : Store) :
  handle NOW stepRejected updatedPlanFails authenticatedUserId (GET_user_plans userId) s =
  (s, if negb (userId =? authenticatedUserId)
      then Next (ClientError 403 "Unauthorized to access plans for this user")
      else Json 200 (PlansBody (fold_left groupRow (plansSql userId (tables s)) []))).
Proof.
  unfold handle, serve, route, getUserPlans, tryCatch, bind, select, next, ret.
  destruct (negb (userId =? authenticatedUserId)); reflexivity.
Qed.

(* ===================================================================== *)
(** ** DELETE /api/plans/:planId *)
(* ===================================================================== *)

(** When the plan is not the user's, the [try] block throws after the
    steps of the plan have been deleted on the connection; the snapshot
    of the transaction still holds the tables of the start. *)
Lemma deletePlanTry_not_owned (planId userId : Z) (s : Store) :
  checkPlanSql planId userId (tables s) = [] ->
  exists c,
    deletePlanTry planId userId {| store := s; snapshot := None |}
    = (c, inl (ClientError 404 "Plan not found")) /\
    PlanSteps (tables (store c))
    = filter (fun ps => negb (ofPlan planId ps)) (PlanSteps (tables s)) /\
    snapshot c = Some (tables s).
Proof.
  unfold checkPlanSql. intros Hq.
  unfold deletePlanTry, bind, execute, throw, BEGIN, deletePlanSql,
    deleteStepsSql. simpl. rewrite Hq. simpl.
  eexists. split; [reflexivity|]. split; reflexivity.
Qed.


(* ===================================================================== *)
(** ** POST /api/plans/:planId/steps *)
(* ===================================================================== *)

Lemma sqlMax_None (l : list (option Z)) :
  sqlMax l = None -> forall k, ~ In (Some k) l.
Proof.
  induction l as [|[x|] l IH]; simpl; intros H k Hin.
  - exact Hin.
  - destruct (sqlMax l); discriminate.
  - destruct Hin as [Hd|Hin]; [discriminate | exact (IH H k Hin)].
Qed.

Lemma sqlMax_Some (l : list (option Z)) (m : Z) :
  sqlMax l = Some m -> In (Some m) l /\ forall k, In (Some k) l -> k <= m.
Proof.
  revert m. induction l as [|[x|] l IH]; simpl; intros m H.
  - discriminate.
  - destruct (sqlMax l) as [m'|] eqn:Hm.
    + inversion H; subst. destruct (IH m' eq_refl) as [Hin Hle]. split.
      * destruct (Z.max_spec x m') as [[_ ->]|[_ ->]]; [right; exact Hin | left; reflexivity].
      * intros k [Hk|Hk]; [inversion Hk; lia | specialize (Hle k Hk); lia].
    + inversion H; subst. split; [left; reflexivity|].
      intros k [Hk|Hk]; [inversion Hk; lia | exfalso; exact (@sqlMax_None l Hm k Hk)].
  - destruct (IH m H) as [Hin Hle]. split; [right; exact Hin|].
    intros k [Hk|Hk]; [discriminate | exact (Hle k Hk)].
Qed.

Lemma sqlMax_snoc (l : list (option Z)) (x : Z) :
  sqlMax (l ++ [Some x])
  = Some (match sqlMax l with Some m => Z.max m x | None => x end).
Proof.
  induction l as [|[y|] l IH]; simpl.
  - reflexivity.
  - rewrite IH. destruct (sqlMax l) as [m|]; f_equal; lia.
  - exact IH.
Qed.

Lemma orZero_Some (n : Z) : orZero (Some n) = n.
Proof. simpl. destruct (n =? 0) eqn:E; [apply Z.eqb_eq in E; lia | reflexivity]. Qed.

(** The order value [addStep] computes: one more than the greatest
    [stepOrder] among the steps of the plan, and 1 when there is none. *)
Lemma newStepOrder_spec (planId : Z) (t : Tables) :
  orZero (maxOrderSql planId t) + 1
  = match maxOrderSql planId t with Some m => m + 1 | None => 1 end.
Proof. destruct (maxOrderSql planId t) as [m|]; [rewrite orZero_Some|]; reflexivity. Qed.

Lemma maxOrderSql_after_insert (planId : Z) (t : Tables) (ps : StepRow.row)
    (n : Z) :
  StepRow.userPlanId ps = planId -> StepRow.stepOrder ps = Some n ->
  maxOrderSql planId (withPlanSteps t (PlanSteps t ++ [ps]))
  = Some (match maxOrderSql planId t with Some m => Z.max m n | None => n end).
Proof.
  intros Hid Hord. unfold maxOrderSql. simpl.
  rewrite filter_app. simpl. unfold ofPlan at 2. rewrite Hid, Z.eqb_refl.
  rewrite map_app. simpl. rewrite Hord. apply sqlMax_snoc.
Qed.

(** C6: for a plan of the user, [addStep] answers 201 with the row it
    inserted: the identity is the next value of the sequence, the
    template is null, and [stepOrder] is one more than the greatest
    [stepOrder] among the steps of the plan, 1 when the plan has no step
    (or none with an order); the next [addStep] on the plan is given the
    following order value. *)
Theorem postStep_assigns_next_order (planId userId : Z) (newStep : NewStep.t)
    (s : Store) :
  checkPlanSql planId userId (tables s) <> [] ->
  exists step n,
    handle NOW stepRejected updatedPlanFails userId (POST_step planId newStep) s
    = ({| tables := withPlanSteps (tables s) (PlanSteps (tables s) ++ [step]);
          planStepId_seq := planStepId_seq s + 1 |},
       Json 201 (StepBody (Some step))) /\
    StepRow.planStepId step = planStepId_seq s /\
    StepRow.userPlanId step = planId /\
    StepRow.templateId step = None /\
    StepRow.stepDescription step = NewStep.stepDescription newStep /\
    StepRow.dueDate step = NewStep.dueDate newStep /\
    StepRow.stepOrder step = Some n /\
    n = match maxOrderSql planId (tables s) with Some m => m + 1 | None => 1 end /\
    (forall ps k, In ps (PlanSteps (tables s)) -> StepRow.userPlanId ps = planId ->
       StepRow.stepOrder ps = Some k -> k < n) /\
    ((exists ps, In ps (PlanSteps (tables s)) /\ StepRow.userPlanId ps = planId /\
        StepRow.stepOrder ps = Some (n - 1))
     \/ (n = 1 /\ forall ps, In ps (PlanSteps (tables s)) ->
           StepRow.userPlanId ps = planId -> StepRow.stepOrder ps = None)) /\
    (filter (ofPlan planId) (PlanSteps (tables s)) = [] -> n = 1) /\
    forall newStep', exists step',
      snd (handle NOW stepRejected updatedPlanFails userId (POST_step planId newStep')
             (fst (handle NOW stepRejected updatedPlanFails userId (POST_step planId newStep) s)))
      = Json 201 (StepBody (Some step')) /\
      StepRow.stepOrder step' = Some (n + 1).
Proof.
  intros Hown. rewrite postStep_run.
  destruct (checkPlanSql planId userId (tables s)) as [|p0 rest] eqn:Hq;
    [contradiction Hown; reflexivity|].
  exists (addedStep planId newStep s), (orZero (maxOrderSql planId (tables s)) + 1).
  split; [reflexivity|]. do 6 (split; [reflexivity|]).
  split; [apply newStepOrder_spec|].
  rewrite newStepOrder_spec.
  assert (Hmem : forall ps, In ps (PlanSteps (tables s)) ->
            StepRow.userPlanId ps = planId ->
            In (StepRow.stepOrder ps)
               (map StepRow.stepOrder (filter (ofPlan planId) (PlanSteps (tables s))))).
  { intros ps Hin Hid. apply in_map. apply filter_In. split; [exact Hin|].
    unfold ofPlan. rewrite Hid. apply Z.eqb_refl. }
  split; [|split; [|split]].
  - intros ps k Hin Hid Hk. specialize (Hmem ps Hin Hid). rewrite Hk in Hmem.
    unfold maxOrderSql. destruct (sqlMax _) as [m|] eqn:Hm.
    + apply sqlMax_Some in Hm. destruct Hm as [_ Hle]. specialize (Hle k Hmem). lia.
    + exfalso. exact (@sqlMax_None _ Hm k Hmem).
  - unfold maxOrderSql. destruct (sqlMax _) as [m|] eqn:Hm.
    + left. apply sqlMax_Some in Hm. destruct Hm as [Hin _].
      apply in_map_iff in Hin. destruct Hin as [ps [Hord Hin]].
      apply filter_In in Hin. destruct Hin as [Hin Hid].
      exists ps. split; [exact Hin|]. split; [apply Z.eqb_eq; exact Hid|].
      rewrite Hord. f_equal. lia.
    + right. split; [reflexivity|]. intros ps Hin Hid.
      specialize (Hmem ps Hin Hid).
      destruct (StepRow.stepOrder ps) as [k|] eqn:Hk; [|reflexivity].
      exfalso. exact (@sqlMax_None _ Hm k Hmem).
  - intros Hnone. unfold maxOrderSql. rewrite Hnone. reflexivity.
  - intros newStep'. simpl fst. rewrite postStep_run. simpl tables.
    replace (checkPlanSql planId userId
               (withPlanSteps (tables s)
                  (PlanSteps (tables s) ++ [addedStep planId newStep s])))
      with (checkPlanSql planId userId (tables s)) by reflexivity.
    rewrite Hq. eexists. split; [reflexivity|]. simpl.
    rewrite (@maxOrderSql_after_insert planId (tables s) _
               (orZero (maxOrderSql planId (tables s)) + 1)) by reflexivity.
    rewrite orZero_Some, newStepOrder_spec.
    destruct (maxOrderSql planId (tables s)) as [m|]; f_equal; lia.
Qed.

(* ===================================================================== *)
(** ** Ownership *)
(* ===================================================================== *)

(** What a request about a plan is answered when no plan row matches the
    plan and the user: the store is left as it was and the answer does
    not depend on the store. *)
Lemma not_owned_run (user : Z) (r : Request) (planId : Z) (s : Store) :
  targetPlan r = Some planId ->
  checkPlanSql planId user (tables s) = [] ->
  handle NOW stepRejected updatedPlanFails user r s =
  (s, match r with
      | POST_user_plan userId _ =>
          if negb (userId =? user)
          then Next (ClientError 403 "Unauthorized to save plan for this user")
          else Next (ClientError 404 "Plan not found or does not belong to the user")
      | _ => Next (ClientError 404 "Plan not found")
      end).
Proof.
  intros Ht Hq. destruct r; simpl in Ht; inversion Ht; subst.
  - rewrite getPlan_run, (planSql_not_owned _ _ _ Hq). reflexivity.
  - rewrite putPlan_run, Hq. reflexivity.
  - rewrite putStep_run, Hq. reflexivity.
  - rewrite putComplete_run, Hq. reflexivity.
  - rewrite deletePlan_run, Hq. reflexivity.
  - rewrite postStep_run, Hq. reflexivity.
  - rewrite deleteStep_run, Hq. reflexivity.
  - rewrite postUserPlan_run.
    destruct (userId =? user) eqn:E; simpl; [|reflexivity].
    apply Z.eqb_eq in E. subst userId. rewrite Hq. reflexivity.
Qed.

(** C5: a request about a plan, sent by a user no plan row matches with
    that plan, changes nothing and is answered the same whether the plan
    belongs to somebody else or is not there at all: on two stores
    where the user does not own the plan the answers are equal.  The
    answer is NotFound; the one exception is [saveExisting] with a path
    user that is not the authenticated one, which is Forbidden before
    the plan is looked at. *)
Theorem not_owned_indistinguishable_from_absent (user : Z) (r : Request)
    (planId : Z) (s1 s2 : Store) :
  targetPlan r = Some planId ->
  checkPlanSql planId user (tables s1) = [] ->
  checkPlanSql planId user (tables s2) = [] ->
  fst (handle NOW stepRejected updatedPlanFails user r s1) = s1 /\
  fst (handle NOW stepRejected updatedPlanFails user r s2) = s2 /\
  snd (handle NOW stepRejected updatedPlanFails user r s1) = snd (handle NOW stepRejected updatedPlanFails user r s2) /\
  ((exists message,
      snd (handle NOW stepRejected updatedPlanFails user r s1) = Next (ClientError 404 message))
   \/ (exists userId message,
         r = POST_user_plan userId planId /\ userId <> user /\
         snd (handle NOW stepRejected updatedPlanFails user r s1) = Next (ClientError 403 message))).
Proof.
  intros Ht H1 H2.
  rewrite (@not_owned_run user r planId s1 Ht H1),
    (@not_owned_run user r planId s2 Ht H2). simpl.
  repeat split.
  destruct r; simpl in Ht; inversion Ht; subst;
    try (left; eexists; reflexivity).
  destruct (userId =? user) eqn:E; simpl.
  - left. eexists. reflexivity.
  - right. apply Z.eqb_neq in E. do 2 eexists.
    split; [reflexivity|]. split; [exact E | reflexivity].
Qed.

(* ===================================================================== *)
(** ** Completion timestamps *)
(* ===================================================================== *)

(** The steps after PUT /api/plans/:planId/steps/:stepId. *)
Lemma putStep_PlanSteps (planId stepId userId : Z) (completed : bool)
    (completedAt : option Z) (s : Store) :
  PlanSteps (tables (fst (handle NOW stepRejected updatedPlanFails userId
     (PUT_step planId stepId completed completedAt) s)))
  = PlanSteps (tables s)
  \/ PlanSteps (tables (fst (handle NOW stepRejected updatedPlanFails userId
       (PUT_step planId stepId completed completedAt) s)))
     = map (fun ps => if stepOfPlan stepId planId ps
                      then setCompletion completed completedAt ps else ps)
           (PlanSteps (tables s)).
Proof.
  rewrite putStep_run.
  destruct (checkPlanSql planId userId (tables s)); [left; reflexivity|].
  destruct (filter (stepOfPlan stepId planId) (PlanSteps (tables s)));
    [left; reflexivity | right; reflexivity].
Qed.

(** The steps after PUT /api/plans/:planId/complete. *)
Lemma putComplete_PlanSteps (planId userId : Z) (s : Store) :
  PlanSteps (tables (fst (handle NOW stepRejected updatedPlanFails userId (PUT_complete planId) s)))
  = PlanSteps (tables s)
  \/ PlanSteps (tables (fst (handle NOW stepRejected updatedPlanFails userId (PUT_complete planId) s)))
     = map (fun ps => if incompleteOfPlan planId ps
                      then setCompletion true (Some NOW) ps else ps)
           (PlanSteps (tables s)).
Proof.
  rewrite putComplete_run.
  destruct (checkPlanSql planId userId (tables s));
    [left; reflexivity | right; reflexivity].
Qed.

(** C1, as the code has it: [complete] gives every step it writes the
    time of the request as [completedAt], so after it every completed
    step has a completion timestamp if that was so before.
    [completeStep] writes the [completed] and the [completedAt] of the
    request as they are: the step it answers with carries exactly these,
    so it keeps every completed step timestamped when the request has
    [completed] false or a [completedAt] that is not null.  After a
    successful [completeStep] every completed step is timestamped
    exactly when the request is so formed and every step it did not
    write was timestamped before. *)
Theorem completion_timestamp_kept (planId stepId userId : Z) (completed : bool)
    (completedAt : option Z) (s : Store) :
  (Forall timestamped (PlanSteps (tables s)) ->
   Forall timestamped (PlanSteps (tables (fst
     (handle NOW stepRejected updatedPlanFails userId (PUT_complete planId) s))))) /\
  (forall ps,
   In ps (PlanSteps (tables (fst
     (handle NOW stepRejected updatedPlanFails userId (PUT_complete planId) s)))) ->
   ~ In ps (PlanSteps (tables s)) ->
   StepRow.completed ps = true /\ StepRow.completedAt ps = Some NOW) /\
  (forall status body,
   snd (handle NOW stepRejected updatedPlanFails userId
          (PUT_step planId stepId completed completedAt) s) = Json status body ->
   exists ps,
     body = StepBody (Some ps) /\
     In ps (PlanSteps (tables (fst (handle NOW stepRejected updatedPlanFails userId
       (PUT_step planId stepId completed completedAt) s)))) /\
     StepRow.planStepId ps = stepId /\ StepRow.userPlanId ps = planId /\
     StepRow.completed ps = completed /\ StepRow.completedAt ps = completedAt) /\
  ((completed = true -> completedAt <> None) ->
   Forall timestamped (PlanSteps (tables s)) ->
   Forall timestamped (PlanSteps (tables (fst (handle NOW stepRejected updatedPlanFails userId
     (PUT_step planId stepId completed completedAt) s))))) /\
  (forall status body,
   snd (handle NOW stepRejected updatedPlanFails userId
          (PUT_step planId stepId completed completedAt) s) = Json status body ->
   (Forall timestamped (PlanSteps (tables (fst (handle NOW stepRejected updatedPlanFails userId
      (PUT_step planId stepId completed completedAt) s))))
    <-> (completed = true -> completedAt <> None) /\
        forall ps, In ps (PlanSteps (tables s)) ->
          (StepRow.planStepId ps <> stepId \/ StepRow.userPlanId ps <> planId) ->
          timestamped ps)).
Proof.
  split; [|split; [|split; [|split]]].
  - intros Hpre.
    destruct (putComplete_PlanSteps planId userId s) as [-> | ->]; [exact Hpre|].
    rewrite Forall_forall in *. intros ps Hin. apply in_map_iff in Hin.
    destruct Hin as [ps0 [Heq Hin0]].
    destruct (incompleteOfPlan planId ps0); subst ps.
    + intros _. discriminate.
    + apply Hpre. exact Hin0.
  - intros ps Hin Hnew.
    destruct (putComplete_PlanSteps planId userId s) as [Heq | Heq];
      rewrite Heq in Hin; [contradiction|].
    apply in_map_iff in Hin. destruct Hin as [ps0 [Hps Hin0]].
    destruct (incompleteOfPlan planId ps0); subst ps.
    + split; reflexivity.
    + contradiction.
  - intros status body. rewrite putStep_run.
    destruct (checkPlanSql planId userId (tables s)); [discriminate|].
    destruct (filter (stepOfPlan stepId planId) (PlanSteps (tables s)))
      as [|ps0 more] eqn:Hf; [discriminate|].
    intros H. inversion H; subst.
    assert (Hin : In ps0 (filter (stepOfPlan stepId planId) (PlanSteps (tables s))))
      by (rewrite Hf; left; reflexivity).
    apply filter_In in Hin. destruct Hin as [Hin Hhit].
    exists (setCompletion completed completedAt ps0).
    split; [reflexivity|]. split.
    + simpl. apply in_map_iff. exists ps0. rewrite Hhit. split; [reflexivity | exact Hin].
    + unfold stepOfPlan in Hhit. apply andb_true_iff in Hhit.
      destruct Hhit as [H1 H2]. apply Z.eqb_eq in H1, H2. simpl. auto.
  - intros Hreq Hpre.
    destruct (putStep_PlanSteps planId stepId userId completed completedAt s)
      as [-> | ->]; [exact Hpre|].
    rewrite Forall_forall in *. intros ps Hin. apply in_map_iff in Hin.
    destruct Hin as [ps0 [Heq Hin0]].
    destruct (stepOfPlan stepId planId ps0); subst ps.
    + exact Hreq.
    + apply Hpre. exact Hin0.
  - intros status body. rewrite putStep_run.
    destruct (checkPlanSql planId userId (tables s)); [discriminate|].
    destruct (filter (stepOfPlan stepId planId) (PlanSteps (tables s)))
      as [|ps0 more] eqn:Hf; [discriminate|].
    intros _. simpl fst. simpl.
    assert (Hin0 : In ps0 (filter (stepOfPlan stepId planId) (PlanSteps (tables s))))
      by (rewrite Hf; left; reflexivity).
    apply filter_In in Hin0. destruct Hin0 as [Hin0 Hhit0].
    assert (Hmiss : forall ps, stepOfPlan stepId planId ps = false <->
              (StepRow.planStepId ps <> stepId \/ StepRow.userPlanId ps <> planId)).
    { intros ps. unfold stepOfPlan. rewrite andb_false_iff, !Z.eqb_neq. tauto. }
    rewrite Forall_forall. split.
    + intros Hall. split.
      * apply (Hall (setCompletion completed completedAt ps0)).
        apply in_map_iff. exists ps0. rewrite Hhit0. split; [reflexivity | exact Hin0].
      * intros ps Hin Hnot. apply Hall. apply in_map_iff. exists ps.
        apply Hmiss in Hnot. rewrite Hnot. split; [reflexivity | exact Hin].
    + intros [Hreq Hrest] ps Hin. apply in_map_iff in Hin.
      destruct Hin as [ps1 [Heq Hin1]].
      destruct (stepOfPlan stepId planId ps1) eqn:E; subst ps.
      * exact Hreq.
      * apply Hrest; [exact Hin1 | apply Hmiss; exact E].
Qed.

(* ===================================================================== *)
(** ** Completed plans *)
(* ===================================================================== *)

(** The plan rows after PUT /api/plans/:planId: unchanged when it fails
    before COMMIT, rewritten with the scalar fields of the body when it
    succeeds or fails at the re-read. *)
Lemma putPlan_UserPlans (planId userId : Z) (updatedPlan : PlanInput.t)
    (s : Store) :
  ((exists err,
      snd (handle NOW stepRejected updatedPlanFails userId (PUT_plan planId updatedPlan) s)
      = Next err) /\
   UserPlans (tables (fst
     (handle NOW stepRejected updatedPlanFails userId (PUT_plan planId updatedPlan) s)))
   = UserPlans (tables s))
  \/ (((exists body,
          snd (handle NOW stepRejected updatedPlanFails userId (PUT_plan planId updatedPlan) s)
          = Json 200 body)
       \/ snd (handle NOW stepRejected updatedPlanFails userId (PUT_plan planId updatedPlan) s)
          = Next StoreError) /\
      checkPlanSql planId userId (tables s) <> [] /\
      GrassSpecies (tables (fst
        (handle NOW stepRejected updatedPlanFails userId (PUT_plan planId updatedPlan) s)))
      = GrassSpecies (tables s) /\
      UserPlans (tables (fst
        (handle NOW stepRejected updatedPlanFails userId (PUT_plan planId updatedPlan) s)))
      = map (fun up => if ownedBy planId userId up
                       then setPlan (PlanInput.grassSpeciesId updatedPlan)
                              (PlanInput.planType updatedPlan)
                              (orFalse (PlanInput.isCompleted updatedPlan))
                              (orFalse (PlanInput.isArchived updatedPlan))
                              (PlanInput.establishmentType updatedPlan) up
                       else up)
            (UserPlans (tables s))).
Proof.
  rewrite putPlan_run.
  destruct (checkPlanSql planId userId (tables s)) eqn:Hq;
    [left; split; [eexists|]; reflexivity|].
  destruct (PlanInput.steps updatedPlan) as [steps|];
    [|left; split; [eexists|]; reflexivity].
  destruct (writeSteps stepRejected planId steps
              (afterPlanUpdate planId userId updatedPlan s))
    as [c [e|[]]] eqn:Hw.
  - left. split; [eexists|]; reflexivity.
  - right. apply writeSteps_frame in Hw. destruct Hw as [_ [Hu [Hg _]]].
    destruct (updatedPlanFails (tables (store c)) planId); simpl;
      (split; [first [left; eexists; reflexivity | right; reflexivity]|]);
      (split; [discriminate|]);
      (split; [rewrite Hg | rewrite Hu]; reflexivity).
Qed.

Lemma setIsCompleted_completed (up : PlanRow.row) :
  PlanRow.isCompleted up = true -> setIsCompleted up = up.
Proof. destruct up; simpl. intros ->. reflexivity. Qed.

(** C2, as the code has it: [complete], [completeStep], [addStep],
    [deleteStep] and [saveExisting] (and the two reads) leave a
    completed plan completed.  [update] writes [isCompleted || false] of
    its body into the plan: it leaves a completed plan completed when
    the body has [isCompleted] true, and a successful [update] gives
    every plan row it matches the flag of the body, whatever the flag
    was. *)
Theorem completed_plan_stays_completed (user : Z) (r : Request) (s : Store) :
  (match r with
   | DELETE_plan _ => False
   | PUT_plan _ updatedPlan => orFalse (PlanInput.isCompleted updatedPlan) = true
   | _ => True
   end ->
   forall up, In up (UserPlans (tables s)) -> PlanRow.isCompleted up = true ->
   exists up',
     In up' (UserPlans (tables (fst (handle NOW stepRejected updatedPlanFails user r s)))) /\
     PlanRow.userPlanId up' = PlanRow.userPlanId up /\
     PlanRow.userId up' = PlanRow.userId up /\
     PlanRow.isCompleted up' = true) /\
  (forall planId updatedPlan status body,
   r = PUT_plan planId updatedPlan ->
   snd (handle NOW stepRejected updatedPlanFails user r s) = Json status body ->
   forall up',
   In up' (UserPlans (tables (fst (handle NOW stepRejected updatedPlanFails user r s)))) ->
   ownedBy planId user up' = true ->
   PlanRow.isCompleted up' = orFalse (PlanInput.isCompleted updatedPlan)).
Proof.
  split.
  - intros Hr up Hin Hc.
    assert (Hsame : UserPlans (tables (fst (handle NOW stepRejected updatedPlanFails user r s)))
                    = UserPlans (tables s) ->
            exists up',
              In up' (UserPlans (tables (fst (handle NOW stepRejected updatedPlanFails user r s)))) /\
              PlanRow.userPlanId up' = PlanRow.userPlanId up /\
              PlanRow.userId up' = PlanRow.userId up /\
              PlanRow.isCompleted up' = true).
    { intros ->. exists up. auto. }
    destruct r; try contradiction.
    + apply Hsame. rewrite getPlan_run. reflexivity.
    + destruct (putPlan_UserPlans planId user updatedPlan s)
        as [[_ Heq] | [_ [_ [_ Heq]]]]; [apply Hsame; exact Heq|].
      rewrite Heq. eexists. split; [apply in_map; exact Hin|].
      destruct (ownedBy planId user up); simpl; auto.
    + apply Hsame. rewrite getUserPlans_run. reflexivity.
    + apply Hsame. rewrite putStep_run.
      destruct (checkPlanSql planId user (tables s)); [reflexivity|].
      destruct (filter (stepOfPlan stepId planId) (PlanSteps (tables s)));
        reflexivity.
    + rewrite putComplete_run.
      destruct (checkPlanSql planId user (tables s)); [exists up; auto|].
      exists up. split; [|auto]. simpl.
      apply in_map_iff. exists up. split; [|exact Hin].
      destruct (PlanRow.userPlanId up =? planId); [|reflexivity].
      apply setIsCompleted_completed. exact Hc.
    + apply Hsame. rewrite postStep_run.
      destruct (checkPlanSql planId user (tables s)); reflexivity.
    + apply Hsame. rewrite deleteStep_run.
      destruct (checkPlanSql planId user (tables s)); [reflexivity|].
      destruct (filter (stepOfPlan stepId planId) (PlanSteps (tables s)));
        reflexivity.
    + apply Hsame. rewrite postUserPlan_run. reflexivity.
  - intros planId updatedPlan status body -> Hok up' Hin Hown.
    destruct (putPlan_UserPlans planId user updatedPlan s)
      as [[[err Herr] _] | [_ [_ [_ Heq]]]]; [congruence|].
    rewrite Heq in Hin. apply in_map_iff in Hin. destruct Hin as [up [Hup _]].
    destruct (ownedBy planId user up) eqn:E; subst up'; [reflexivity|].
    congruence.
Qed.

(* ===================================================================== *)
(** ** The re-read of PUT /api/plans/:planId on a plan without steps *)
(* ===================================================================== *)

Lemma filter_none (A : Type) (f : A -> bool) (l : list A) :
  (forall x, In x l -> f x = false) -> filter f l = [].
Proof.
  induction l as [|a l IH]; simpl; intros H; [reflexivity|].
  rewrite (H a) by (left; reflexivity). apply IH. intros x Hx. apply H. right. exact Hx.
Qed.

(** In a table with a key, a condition that implies the key of a row [x]
    of the table, and that [x] meets, selects [x] alone. *)
Lemma filter_unique (A : Type) (key : A -> Z) (f : A -> bool) (l : list A) (x : A) :
  NoDup (map key l) -> In x l -> f x = true ->
  (forall y, In y l -> f y = true -> key y = key x) ->
  filter f l = [x].
Proof.
  induction l as [|a l IH]; simpl; intros Hnd Hin Hfx Hkey; [destruct Hin|].
  inversion Hnd as [|? ? Hnotin Hnd']; subst.
  destruct Hin as [->|Hin].
  - rewrite Hfx. f_equal. apply filter_none. intros y Hy.
    destruct (f y) eqn:Hfy; [|reflexivity].
    exfalso. apply Hnotin. rewrite <- (Hkey y (or_intror Hy) Hfy).
    apply in_map. exact Hy.
  - destruct (f a) eqn:Hfa.
    + exfalso. apply Hnotin. rewrite (Hkey a (or_introl eq_refl) Hfa).
      apply in_map. exact Hin.
    + apply IH; try assumption. intros y Hy. apply Hkey. right. exact Hy.
Qed.

(** C10: let [userPlanId] be a key of [UserPlans] and [grassSpeciesId] a
    key of [GrassSpecies], and let the species of the body exist.  When
    [update] succeeds and the plan has no step in the tables it
    committed, the [steps] it answers with has exactly one entry, whose
    [planStepId], [stepDescription], [dueDate] and [completed] are all
    null, whereas [get] on the same plan, in the same tables, answers
    with an empty [steps]. *)
Theorem putPlan_stepless_plan_has_null_step (planId userId : Z)
    (updatedPlan : PlanInput.t) (s : Store) (status : Z) (body : Body) :
  NoDup (map PlanRow.userPlanId (UserPlans (tables s))) ->
  NoDup (map SpeciesRow.grassSpeciesId (GrassSpecies (tables s))) ->
  In (PlanInput.grassSpeciesId updatedPlan)
     (map SpeciesRow.grassSpeciesId (GrassSpecies (tables s))) ->
  snd (handle NOW stepRejected updatedPlanFails userId (PUT_plan planId updatedPlan) s)
  = Json status body ->
  filter (ofPlan planId) (PlanSteps (tables (fst
    (handle NOW stepRejected updatedPlanFails userId (PUT_plan planId updatedPlan) s)))) = [] ->
  (exists finalPlan,
     body = FinalPlanBody finalPlan /\ FinalPlan.steps finalPlan = [nullStep]) /\
  (exists userPlan,
     handle NOW stepRejected updatedPlanFails userId (GET_plan planId)
       (fst (handle NOW stepRejected updatedPlanFails userId (PUT_plan planId updatedPlan) s))
     = (fst (handle NOW stepRejected updatedPlanFails userId (PUT_plan planId updatedPlan) s),
        Json 200 (PlanBody userPlan)) /\
     PlanWithSteps.steps userPlan = []).
Proof.
  intros Hplans Hspecies Hgs Hok Hnone.
  destruct (putPlan_UserPlans planId userId updatedPlan s)
    as [[[err Herr] _] | [_ [Hown [Hg Hu]]]]; [congruence|].
  set (F := fun up => if ownedBy planId userId up
                      then setPlan (PlanInput.grassSpeciesId updatedPlan)
                             (PlanInput.planType updatedPlan)
                             (orFalse (PlanInput.isCompleted updatedPlan))
                             (orFalse (PlanInput.isArchived updatedPlan))
                             (PlanInput.establishmentType updatedPlan) up
                      else up) in *.
  (* the plan row of the user, before and after *)
  destruct (checkPlanSql planId userId (tables s)) as [|p0 rest] eqn:Hq;
    [contradiction Hown; reflexivity|].
  assert (Hp0 : In p0 (UserPlans (tables s)) /\ ownedBy planId userId p0 = true).
  { assert (H : In p0 (checkPlanSql planId userId (tables s)))
      by (rewrite Hq; left; reflexivity).
    apply filter_In in H. exact H. }
  destruct Hp0 as [Hp0 Hown0].
  assert (Hid0 : PlanRow.userPlanId p0 = planId /\ PlanRow.userId p0 = userId).
  { unfold ownedBy in Hown0. apply andb_true_iff in Hown0.
    destruct Hown0 as [H1 H2]. apply Z.eqb_eq in H1, H2. auto. }
  destruct Hid0 as [Hid0 Huid0].
  assert (HFkey : forall up, PlanRow.userPlanId (F up) = PlanRow.userPlanId up).
  { intros up. unfold F. destruct (ownedBy planId userId up); reflexivity. }
  assert (HFp0 : F p0 = setPlan (PlanInput.grassSpeciesId updatedPlan)
                          (PlanInput.planType updatedPlan)
                          (orFalse (PlanInput.isCompleted updatedPlan))
                          (orFalse (PlanInput.isArchived updatedPlan))
                          (PlanInput.establishmentType updatedPlan) p0).
  { unfold F. rewrite Hown0. reflexivity. }
  assert (Hnd : NoDup (map PlanRow.userPlanId (map F (UserPlans (tables s))))).
  { rewrite map_map. erewrite map_ext; [exact Hplans|]. intros a. apply HFkey. }
  assert (HinF : In (F p0) (map F (UserPlans (tables s)))) by (apply in_map; exact Hp0).
  assert (Hone : filter (fun up => PlanRow.userPlanId up =? planId)
                        (map F (UserPlans (tables s))) = [F p0]).
  { apply (@filter_unique _ PlanRow.userPlanId); try assumption.
    - rewrite HFkey, Hid0. apply Z.eqb_refl.
    - intros y _ Hy. apply Z.eqb_eq in Hy. rewrite Hy, HFkey, Hid0. reflexivity. }
  assert (Hmine : filter (ownedBy planId userId) (map F (UserPlans (tables s)))
                  = [F p0]).
  { apply (@filter_unique _ PlanRow.userPlanId); try assumption.
    - rewrite HFp0. unfold ownedBy. simpl. rewrite Hid0, Huid0, !Z.eqb_refl. reflexivity.
    - intros y _ Hy. unfold ownedBy in Hy. apply andb_true_iff in Hy.
      destruct Hy as [Hy _]. apply Z.eqb_eq in Hy. rewrite Hy, HFkey, Hid0. reflexivity. }
  (* its species *)
  apply in_map_iff in Hgs. destruct Hgs as [gs [Hgsid Hgsin]].
  assert (Hsp : filter (fun g => SpeciesRow.grassSpeciesId g
                                 =? PlanRow.grassSpeciesId (F p0))
                       (GrassSpecies (tables s)) = [gs]).
  { rewrite HFp0. simpl.
    apply (@filter_unique _ SpeciesRow.grassSpeciesId); try assumption.
    - rewrite Hgsid. apply Z.eqb_refl.
    - intros y _ Hy. apply Z.eqb_eq in Hy. congruence. }
  split.
  - rewrite putPlan_run in Hok, Hnone. rewrite Hq in Hok, Hnone.
    rewrite putPlan_run, Hq in Hu, Hg.
    destruct (PlanInput.steps updatedPlan) as [steps|]; [|discriminate].
    destruct (writeSteps stepRejected planId steps
                (afterPlanUpdate planId userId updatedPlan s))
      as [c [e|[]]] eqn:Hw; [discriminate|].
    destruct (updatedPlanFails (tables (store c)) planId); [discriminate|].
    simpl in Hok, Hnone, Hu, Hg. injection Hok as _ Hbody.
    eexists. split; [symmetry; exact Hbody|].
    unfold finalPlan, updatedPlanSql, joinedRows. simpl.
    rewrite Hu, Hone. simpl. unfold speciesOf. rewrite Hg, Hsp. simpl.
    unfold leftJoinSteps. rewrite HFkey, Hid0, Hnone. simpl. reflexivity.
  - rewrite getPlan_run. eexists. split.
    + f_equal. unfold planSql. rewrite Hu, Hmine. simpl.
      unfold speciesOf. rewrite Hg, Hsp. simpl. reflexivity.
    + simpl. unfold stepsSql. rewrite Hnone. reflexivity.
Qed.

(* ===================================================================== *)
(** ** GET /api/users/:userId/plans *)
(* ===================================================================== *)

Lemma strictEq_true (a b : option Z) : strictEq a b = true <-> a = b.
Proof.
  destruct a as [x|], b as [y|]; simpl; split; intros H;
    try discriminate; try reflexivity.
  - apply Z.eqb_eq in H. subst. reflexivity.
  - inversion H. apply Z.eqb_refl.
Qed.

(** [plan.steps.push] changes no identity. *)
Lemma pushStep_keys (id : option Z) (step : PlanStep.t) (plans : list UserPlan.t) :
  map UserPlan.userPlanId (pushStep id step plans) = map UserPlan.userPlanId plans.
Proof.
  induction plans as [|p rest IH]; simpl; [reflexivity|].
  destruct (strictEq (UserPlan.userPlanId p) id); simpl; [reflexivity|].
  rewrite IH. reflexivity.
Qed.

(** [plans.find] finds an element exactly when the identity is among
    those of [plans]. *)
Lemma find_key (id : option Z) (plans : list UserPlan.t) :
  find (fun p => strictEq (UserPlan.userPlanId p) id) plans = None
  <-> ~ In id (map UserPlan.userPlanId plans).
Proof.
  induction plans as [|p rest IH]; simpl.
  - split; [intros _ H; exact H | reflexivity].
  - destruct (strictEq (UserPlan.userPlanId p) id) eqn:E.
    + apply strictEq_true in E. split; [discriminate|].
      intros H. exfalso. apply H. left. exact E.
    + split.
      * intros H [Heq|Hin]; [apply strictEq_true in Heq; congruence|].
        apply IH in H. contradiction.
      * intros H. apply IH. intros Hin. apply H. right. exact Hin.
Qed.

(** One row adds at most its own identity, and only when it is new. *)
Lemma groupRow_keys (plans : list UserPlan.t) (row : Joined.row) :
  (In (Joined.userPlanId row) (map UserPlan.userPlanId plans) /\
   map UserPlan.userPlanId (groupRow plans row) = map UserPlan.userPlanId plans)
  \/ (~ In (Joined.userPlanId row) (map UserPlan.userPlanId plans) /\
      map UserPlan.userPlanId (groupRow plans row)
      = map UserPlan.userPlanId plans ++ [Joined.userPlanId row]).
Proof.
  unfold groupRow.
  destruct (find (fun p => strictEq (UserPlan.userPlanId p) (Joined.userPlanId row))
                 plans) as [p|] eqn:Hf.
  - left. split.
    + apply find_some in Hf. destruct Hf as [Hin Heq].
      apply strictEq_true in Heq. rewrite <- Heq. apply in_map. exact Hin.
    + destruct (truthy (Joined.planStepId row)); [apply pushStep_keys | reflexivity].
  - right. split; [apply find_key; exact Hf|].
    destruct (truthy (Joined.planStepId row));
      [rewrite pushStep_keys|]; rewrite map_app; reflexivity.
Qed.

(** The identities of the answer are distinct, and each is the identity
    of some row. *)
Lemma fold_groupRow_keys (rows : list Joined.row) :
  forall acc, NoDup (map UserPlan.userPlanId acc) ->
  NoDup (map UserPlan.userPlanId (fold_left groupRow rows acc)) /\
  forall id, In id (map UserPlan.userPlanId (fold_left groupRow rows acc)) ->
    In id (map UserPlan.userPlanId acc) \/ In id (map Joined.userPlanId rows).
Proof.
  induction rows as [|row rest IH]; simpl; intros acc Hnd.
  - split; [exact Hnd | intros id H; left; exact H].
  - assert (Hstep : NoDup (map UserPlan.userPlanId (groupRow acc row)) /\
                    forall id, In id (map UserPlan.userPlanId (groupRow acc row)) ->
                      In id (map UserPlan.userPlanId acc) \/ id = Joined.userPlanId row).
    { destruct (groupRow_keys acc row) as [[_ ->] | [Hnew ->]].
      - split; [exact Hnd | intros id H; left; exact H].
      - split.
        + apply NoDup_app; [exact Hnd | repeat constructor; intros [] |].
          intros a Ha [<-|[]]. contradiction.
        + intros id H. apply in_app_or in H. destruct H as [H|[<-|[]]]; auto. }
    destruct Hstep as [Hnd' Hsub].
    destruct (IH _ Hnd') as [Hnd'' Hsub'']. split; [exact Hnd''|].
    intros id H. destruct (Hsub'' id H) as [H1|H1]; [|right; right; exact H1].
    destruct (Hsub id H1) as [H2|H2]; [left; exact H2 | right; left; symmetry; exact H2].
Qed.

(** The identity of a joined row is null or that of a step. *)
Lemma joinedRows_key (keep : PlanRow.row -> bool) (t : Tables) (row : Joined.row) :
  In row (joinedRows keep t) ->
  Joined.userPlanId row = None \/
  exists ps, In ps (PlanSteps t) /\ Joined.userPlanId row = Some (StepRow.userPlanId ps).
Proof.
  unfold joinedRows. intros H.
  apply in_flat_map in H. destruct H as [up [_ H]].
  apply in_flat_map in H. destruct H as [gs [_ H]].
  unfold leftJoinSteps in H.
  destruct (filter (ofPlan (PlanRow.userPlanId up)) (PlanSteps t)) as [|ps more] eqn:Hf.
  - destruct H as [<-|[]]. left. reflexivity.
  - apply in_map_iff in H. destruct H as [ps' [<- Hin]]. right. exists ps'.
    split; [|reflexivity].
    assert (Hin' : In ps' (filter (ofPlan (PlanRow.userPlanId up)) (PlanSteps t)))
      by (rewrite Hf; exact Hin).
    apply filter_In in Hin'. tauto.
Qed.

(** C9, what the code does in general: the answer to the user's own
    listing is 200 with elements of distinct identities, and an element
    has a non-null identity only if some step carries it.  So a plan
    without steps is never listed under its identity, and all the plans
    without steps of a user share the one element whose identity is
    null. *)
Theorem getUserPlans_stepless_plans_share_null (userId : Z) (s : Store) :
  exists plans,
    handle NOW stepRejected updatedPlanFails userId (GET_user_plans userId) s
    = (s, Json 200 (PlansBody plans)) /\
    NoDup (map UserPlan.userPlanId plans) /\
    (forall plan planId,
       In plan plans -> UserPlan.userPlanId plan = Some planId ->
       exists ps, In ps (PlanSteps (tables s)) /\ StepRow.userPlanId ps = planId) /\
    (forall planId,
       filter (ofPlan planId) (PlanSteps (tables s)) = [] ->
       ~ In (Some planId) (map UserPlan.userPlanId plans)).
Proof.
  rewrite getUserPlans_run, Z.eqb_refl. simpl.
  eexists. split; [reflexivity|].
  destruct (@fold_groupRow_keys (plansSql userId (tables s)) [] (NoDup_nil _))
    as [Hnd Hsub].
  assert (Hkey : forall planId,
            In (Some planId)
               (map UserPlan.userPlanId
                  (fold_left groupRow (plansSql userId (tables s)) [])) ->
            exists ps, In ps (PlanSteps (tables s)) /\ StepRow.userPlanId ps = planId).
  { intros planId H. destruct (Hsub _ H) as [[]|Hrow].
    apply in_map_iff in Hrow. destruct Hrow as [row [Hid Hrow]].
    unfold plansSql in Hrow.
    apply (Permutation_in _ (orderBy_Permutation _ _)) in Hrow.
    apply joinedRows_key in Hrow. destruct Hrow as [Hnull | [ps [Hps Hsome]]].
    - congruence.
    - exists ps. split; [exact Hps | congruence]. }
  split; [exact Hnd|]. split.
  - intros plan planId Hin Hid. apply Hkey. rewrite <- Hid.
    apply in_map. exact Hin.
  - intros planId Hnone Hin. destruct (Hkey planId Hin) as [ps [Hps Hid]].
    assert (Hf : In ps (filter (ofPlan planId) (PlanSteps (tables s)))).
    { apply filter_In. split; [exact Hps|]. unfold ofPlan. rewrite Hid.
      apply Z.eqb_refl. }
    rewrite Hnone in Hf. exact Hf.
Qed.

End Properties.

(* ===================================================================== *)
(** ** Scenarios *)
(* ===================================================================== *)

(** GET on plan 1 returns its three steps by due date: 40, 45, 50. *)
Lemma getPlan_three_steps :
  exists userPlan,
    snd (handle 2000 acceptAll reliable 7 (GET_plan 1) threeSteps)
    = Json 200 (PlanBody userPlan) /\
    map StepRow.dueDate (PlanWithSteps.steps userPlan) = [40; 45; 50].
Proof.
  destruct (getPlan_sorted_steps 2000 acceptAll reliable 1 7 threeSteps)
    as [_ [_ [Hsome _]]].
  destruct Hsome as [userPlan Hok]; [vm_compute; discriminate|].
  exists userPlan. split; [exact Hok|].
  vm_compute in Hok. injection Hok as <-. reflexivity.
Defined.



(** User 7 asks for plan 2 in a store where it is the plan of user 8 and
    in a store where it does not exist: the same answer, nothing
    changed. *)
Lemma not_owned_witness :
  fst (handle 2000 acceptAll reliable 7 (DELETE_plan 2) threeSteps) = threeSteps /\
  fst (handle 2000 acceptAll reliable 7 (DELETE_plan 2) threeStepsOnly) = threeStepsOnly /\
  snd (handle 2000 acceptAll reliable 7 (DELETE_plan 2) threeSteps)
  = snd (handle 2000 acceptAll reliable 7 (DELETE_plan 2) threeStepsOnly).
Proof.
  destruct (@not_owned_indistinguishable_from_absent 2000 acceptAll reliable 7
              (DELETE_plan 2) 2 threeSteps threeStepsOnly)
    as [H1 [H2 [H3 _]]]; try reflexivity.
  repeat split; assumption.
Defined.

(** POST of "Mow" to the plan of user 8, which has no step: the step
    returned has [stepOrder] 1, and the next one 2. *)
Lemma postStep_on_empty_plan :
  exists step,
    snd (handle 2000 acceptAll reliable 8 (POST_step 2 mow) threeSteps)
    = Json 201 (StepBody (Some step)) /\
    StepRow.stepOrder step = Some 1 /\
    exists step',
      snd (handle 2000 acceptAll reliable 8 (POST_step 2 mow)
             (fst (handle 2000 acceptAll reliable 8 (POST_step 2 mow) threeSteps)))
      = Json 201 (StepBody (Some step')) /\
      StepRow.stepOrder step' = Some 2.
Proof.
  destruct (@postStep_assigns_next_order 2000 acceptAll reliable 2 8 mow threeSteps)
    as [step [n [Hrun [_ [_ [_ [_ [_ [Hord [_ [_ [_ [Hone Hnext]]]]]]]]]]]]].
  { vm_compute. discriminate. }
  assert (Hn : n = 1) by (apply Hone; reflexivity).
  exists step. rewrite Hrun. split; [reflexivity|].
  split; [rewrite Hord, Hn; reflexivity|].
  destruct (Hnext mow) as [step' [Hrun' Hord']].
  exists step'. rewrite Hrun in Hrun'. split; [exact Hrun'|].
  rewrite Hord', Hn. reflexivity.
Defined.

(** User 8 updates plan 2, which has no step, with a body without
    steps: the answer has one step entry, all null, and GET on the plan
    has none. *)
Lemma putPlan_stepless_witness :
  (exists finalPlan,
     snd (handle 2000 acceptAll reliable 8 (PUT_plan 2 (sameLawn None (Some []))) threeSteps)
     = Json 200 (FinalPlanBody finalPlan) /\
     FinalPlan.steps finalPlan = [nullStep]) /\
  (exists userPlan,
     snd (handle 2000 acceptAll reliable 8 (GET_plan 2)
            (fst (handle 2000 acceptAll reliable 8 (PUT_plan 2 (sameLawn None (Some [])))
                    threeSteps)))
     = Json 200 (PlanBody userPlan) /\
     PlanWithSteps.steps userPlan = []).
Proof.
  assert (Hok : exists body,
            snd (handle 2000 acceptAll reliable 8 (PUT_plan 2 (sameLawn None (Some [])))
                   threeSteps) = Json 200 body)
    by (eexists; vm_compute; reflexivity).
  destruct Hok as [body Hok].
  destruct (@putPlan_stepless_plan_has_null_step 2000 acceptAll reliable 2 8
              (sameLawn None (Some [])) threeSteps 200 body)
    as [[finalPlan [Hbody Hsteps]] [userPlan [Hget Hnone]]].
  - simpl. repeat constructor; simpl; intuition discriminate.
  - simpl. repeat constructor; simpl; intuition discriminate.
  - simpl. left. reflexivity.
  - exact Hok.
  - reflexivity.
  - split.
    + exists finalPlan. rewrite Hok, Hbody. split; [reflexivity | exact Hsteps].
    + exists userPlan. rewrite Hget. split; [reflexivity | exact Hnone].
Defined.

(** C1 fails for [completeStep]: in a store where no step is completed,
    the request [{completed: true}] for step 10 of plan 1, without a
    [completedAt], is answered 200 and leaves the step completed with a
    null [completedAt]. *)
Lemma putStep_completed_without_timestamp :
  Forall timestamped (PlanSteps (tables threeSteps)) /\
  statusOf (snd (handle 2000 acceptAll reliable 7 (PUT_step 1 10 true None) threeSteps))
  = 200 /\
  exists ps,
    In ps (PlanSteps (tables (fst
      (handle 2000 acceptAll reliable 7 (PUT_step 1 10 true None) threeSteps)))) /\
    StepRow.planStepId ps = 10 /\
    StepRow.completed ps = true /\
    StepRow.completedAt ps = None.
Proof.
  split; [|split].
  - repeat constructor; intros H; discriminate H.
  - reflexivity.
  - exists (setCompletion true None (task 10 1 "Mow" 50 1)).
    split; [left; reflexivity|]. repeat split.
Qed.

(** With a [completedAt] in the request, or through [complete], the
    steps of the same store stay timestamped; and in the store where
    step 10 is completed without a timestamp, the request
    [{completed: false}] for step 10 leaves every completed step
    timestamped, the other steps being so. *)
Lemma completion_timestamp_witness :
  Forall timestamped (PlanSteps (tables (fst
    (handle 2000 acceptAll reliable 7 (PUT_complete 1) threeSteps)))) /\
  Forall timestamped (PlanSteps (tables (fst
    (handle 2000 acceptAll reliable 7 (PUT_step 1 10 true (Some 1900)) threeSteps)))) /\
  Forall timestamped (PlanSteps (tables (fst
    (handle 2000 acceptAll reliable 7 (PUT_step 1 10 false None)
       (fst (handle 2000 acceptAll reliable 7 (PUT_step 1 10 true None)
               threeSteps)))))).
Proof.
  assert (Hpre : Forall timestamped (PlanSteps (tables threeSteps)))
    by (repeat constructor; intros H; discriminate H).
  destruct (completion_timestamp_kept 2000 acceptAll reliable 1 10 7 true (Some 1900)
              threeSteps) as [Hall [_ [_ [Hone _]]]].
  split; [apply Hall; exact Hpre|].
  split; [apply Hone; [intros _; discriminate | exact Hpre]|].
  destruct (completion_timestamp_kept 2000 acceptAll reliable 1 10 7 false None
              (fst (handle 2000 acceptAll reliable 7 (PUT_step 1 10 true None)
                      threeSteps))) as [_ [_ [_ [_ Hexact]]]].
  apply (Hexact 200 (StepBody (Some (task 10 1 "Mow" 50 1)))); [reflexivity|].
  split; [intros H; discriminate H|].
  intros ps Hin Hother. simpl in Hin.
  destruct Hin as [<-|[<-|[<-|[]]]]; intros H; try discriminate H.
  destruct Hother as [Hne|Hne]; contradiction Hne; reflexivity.
Defined.

(** C2 fails for [update]: plan 1 is completed; an update whose body has
    no [isCompleted] is answered 200 and leaves the plan with
    [isCompleted] false. *)
Lemma putPlan_reopens_completed_plan :
  UserPlans (tables completedPlan) = [lawn 1 7 true 1000] /\
  statusOf (snd (handle 2000 acceptAll reliable 7
                   (PUT_plan 1 (sameLawn None (Some []))) completedPlan)) = 200 /\
  UserPlans (tables (fst (handle 2000 acceptAll reliable 7
                   (PUT_plan 1 (sameLawn None (Some []))) completedPlan)))
  = [lawn 1 7 false 1000].
Proof. repeat split. Qed.

(** The same plan stays completed through [completeStep], and through
    an update whose body says [isCompleted: true]. *)
Lemma completed_plan_witness :
  (exists up,
     In up (UserPlans (tables (fst (handle 2000 acceptAll reliable 7
        (PUT_step 1 10 false None) completedPlan)))) /\
     PlanRow.userPlanId up = 1 /\ PlanRow.isCompleted up = true) /\
  (exists up,
     In up (UserPlans (tables (fst (handle 2000 acceptAll reliable 7
        (PUT_plan 1 (sameLawn (Some true) (Some []))) completedPlan)))) /\
     PlanRow.userPlanId up = 1 /\ PlanRow.isCompleted up = true).
Proof.
  destruct (completed_plan_stays_completed 2000 acceptAll reliable 7
              (PUT_step 1 10 false None) completedPlan) as [H1 _].
  destruct (completed_plan_stays_completed 2000 acceptAll reliable 7
              (PUT_plan 1 (sameLawn (Some true) (Some []))) completedPlan)
    as [H2 _].
  split.
  - destruct (H1 I (lawn 1 7 true 1000)) as [up [Hin [Hid [_ Hc]]]];
      [left; reflexivity | reflexivity |].
    exists up. auto.
  - destruct (H2 eq_refl (lawn 1 7 true 1000)) as [up [Hin [Hid [_ Hc]]]];
      [left; reflexivity | reflexivity |].
    exists up. auto.
Defined.

(** User 7 has two plans, both without steps: [listForUser] answers
    with one element, made from the row of the plan created last; its
    [userPlanId] is null and the plan created at 1000 is not in the
    answer. *)
Lemma getUserPlans_two_stepless_plans :
  map PlanRow.userPlanId
      (filter (fun up => PlanRow.userId up =? 7) (UserPlans (tables twoSteplessPlans)))
  = [1; 2] /\
  exists plan,
    snd (handle 2000 acceptAll reliable 7 (GET_user_plans 7) twoSteplessPlans)
    = Json 200 (PlansBody [plan]) /\
    UserPlan.userPlanId plan = None /\
    UserPlan.createdAt plan = 2000 /\
    UserPlan.steps plan = [].
Proof.
  split; [reflexivity|].
  destruct (getUserPlans_stepless_plans_share_null 2000 acceptAll reliable 7 twoSteplessPlans)
    as [plans [Hrun _]].
  rewrite Hrun. vm_compute in Hrun. injection Hrun as <-.
  eexists. split; [reflexivity|]. repeat split.
Defined.

(** A plan with steps is listed under its identity, with its steps by
    due date. *)
Lemma getUserPlans_plan_with_steps :
  exists plan,
    snd (handle 2000 acceptAll reliable 7 (GET_user_plans 7) threeSteps)
    = Json 200 (PlansBody [plan]) /\
    UserPlan.userPlanId plan = Some 1 /\
    map PlanStep.dueDate (UserPlan.steps plan) = [Some 40; Some 45; Some 50].
Proof.
  eexists. split; [vm_compute; reflexivity|]. repeat split.
Qed.

(** [listForUser] for another user's path is Forbidden. *)
Lemma getUserPlans_forbidden (now : Z)
    (stepRejected : Tables -> Z -> StepInput.t -> bool)
    (updatedPlanFails : Tables -> Z -> bool)
    (userId authenticatedUserId : Z) (s : Store) :
  userId <> authenticatedUserId ->
  handle now stepRejected updatedPlanFails authenticatedUserId (GET_user_plans userId) s
  = (s, Next (ClientError 403 "Unauthorized to access plans for this user")).
Proof.
  intros Hne. rewrite getUserPlans_run.
  apply Z.eqb_neq in Hne. rewrite Hne. reflexivity.
Qed.

(* ===================================================================== *)
(** ** The grouping loop of GET /api/users/:userId/plans *)
(* ===================================================================== *)

Lemma strictEq_sym (a b : option Z) : strictEq a b = strictEq b a.
Proof.
  destruct a as [x|], b as [y|]; simpl; try reflexivity. apply Z.eqb_sym.
Qed.

Lemma strictEq_false (a b : option Z) : strictEq a b = false <-> a <> b.
Proof.
  split.
  - intros H Heq. apply strictEq_true in Heq. congruence.
  - intros H. destruct (strictEq a b) eqn:E; [|reflexivity].
    apply strictEq_true in E. contradiction.
Qed.

Lemma firstRows_incl (rows : list Joined.row) (row : Joined.row) :
  In row (firstRows rows) -> In row rows.
Proof.
  revert row. induction rows as [|a rest IH]; simpl; intros row H; [exact H|].
  destruct H as [H|H]; [left; exact H|].
  apply filter_In in H. right. apply IH. tauto.
Qed.

(** Every identity of the rows is the identity of a first row. *)
Lemma firstRows_ids (rows : list Joined.row) (id : option Z) :
  In id (map Joined.userPlanId (firstRows rows))
  <-> In id (map Joined.userPlanId rows).
Proof.
  induction rows as [|a rest IH]; simpl; [reflexivity|]. split.
  - intros [H|H]; [left; exact H|]. right. apply IH.
    apply in_map_iff in H. destruct H as [r [Hid Hr]].
    apply filter_In in Hr. apply in_map_iff. exists r. tauto.
  - intros [H|H]; [left; exact H|].
    destruct (strictEq id (Joined.userPlanId a)) eqn:E.
    + left. apply strictEq_true in E. symmetry. exact E.
    + right. apply IH in H. apply in_map_iff in H. destruct H as [r [Hid Hr]].
      apply in_map_iff. exists r. split; [exact Hid|].
      apply filter_In. split; [exact Hr|]. rewrite Hid, E. reflexivity.
Qed.

Lemma firstRows_snoc (rows : list Joined.row) (row : Joined.row) :
  firstRows (rows ++ [row])
  = firstRows rows
    ++ (if existsb (fun r => strictEq (Joined.userPlanId r) (Joined.userPlanId row))
                   rows
        then [] else [row]).
Proof.
  induction rows as [|a rest IH]; simpl; [reflexivity|].
  rewrite IH, filter_app. f_equal. f_equal.
  destruct (existsb (fun r => strictEq (Joined.userPlanId r) (Joined.userPlanId row))
                    rest); simpl.
  - rewrite orb_true_r. reflexivity.
  - rewrite orb_false_r, (strictEq_sym (Joined.userPlanId row)).
    destruct (strictEq (Joined.userPlanId a) (Joined.userPlanId row)); reflexivity.
Qed.

Lemma existsb_identity (rows : list Joined.row) (id : option Z) :
  existsb (fun r => strictEq (Joined.userPlanId r) id) rows = true
  <-> In id (map Joined.userPlanId rows).
Proof.
  rewrite existsb_exists, in_map_iff. split; intros [r H]; exists r.
  - destruct H as [Hin Heq]. apply strictEq_true in Heq. tauto.
  - destruct H as [Heq Hin]. split; [exact Hin | apply strictEq_true; exact Heq].
Qed.

Lemma stepsFor_snoc (id : option Z) (rows : list Joined.row) (row : Joined.row) :
  stepsFor id (rows ++ [row])
  = stepsFor id rows
    ++ (if strictEq (Joined.userPlanId row) id && truthy (Joined.planStepId row)
        then [stepOfRow row] else []).
Proof.
  unfold stepsFor. rewrite filter_app, map_app. f_equal. simpl.
  destruct (strictEq (Joined.userPlanId row) id && truthy (Joined.planStepId row));
    reflexivity.
Qed.

Lemma stepsFor_absent (id : option Z) (rows : list Joined.row) :
  ~ In id (map Joined.userPlanId rows) -> stepsFor id rows = [].
Proof.
  intros H. unfold stepsFor. rewrite filter_none; [reflexivity|].
  intros r Hr. destruct (strictEq (Joined.userPlanId r) id) eqn:E; [|reflexivity].
  exfalso. apply H. apply strictEq_true in E. rewrite <- E. apply in_map. exact Hr.
Qed.

(** With distinct identities, [plan.steps.push] on the plan that [find]
    returns changes the one plan of that identity. *)
Lemma pushStep_distinct (id : option Z) (step : PlanStep.t)
    (plans : list UserPlan.t) :
  NoDup (map UserPlan.userPlanId plans) ->
  pushStep id step plans
  = map (fun p => if strictEq (UserPlan.userPlanId p) id
                  then withSteps p (UserPlan.steps p ++ [step]) else p)
        plans.
Proof.
  induction plans as [|p rest IH]; simpl; intros Hnd; [reflexivity|].
  inversion Hnd as [|? ? Hnotin Hnd']; subst.
  destruct (strictEq (UserPlan.userPlanId p) id) eqn:E.
  - f_equal. symmetry. erewrite map_ext_in; [apply map_id|].
    intros q Hq. simpl.
    destruct (strictEq (UserPlan.userPlanId q) id) eqn:Eq; [|reflexivity].
    exfalso. apply Hnotin. apply strictEq_true in E, Eq. rewrite E, <- Eq.
    apply in_map. exact Hq.
  - rewrite IH by exact Hnd'. reflexivity.
Qed.

Lemma grouped_ids (rows : list Joined.row) :
  map UserPlan.userPlanId (grouped rows) = map Joined.userPlanId (firstRows rows).
Proof. unfold grouped. rewrite map_map. reflexivity. Qed.

(** One turn of the loop takes the grouping of the rows read so far to
    the grouping with the next row. *)
Lemma groupRow_grouped (rows : list Joined.row) (row : Joined.row) :
  NoDup (map UserPlan.userPlanId (grouped rows)) ->
  groupRow (grouped rows) row = grouped (rows ++ [row]).
Proof.
  intros Hnd. unfold groupRow.
  assert (Hold : forall r0, In r0 (firstRows rows) ->
            withSteps (newPlan r0) (stepsFor (Joined.userPlanId r0) (rows ++ [row]))
            = (if strictEq (Joined.userPlanId r0) (Joined.userPlanId row)
                  && truthy (Joined.planStepId row)
               then withSteps (newPlan r0)
                      (stepsFor (Joined.userPlanId r0) rows ++ [stepOfRow row])
               else withSteps (newPlan r0) (stepsFor (Joined.userPlanId r0) rows))).
  { intros r0 _. rewrite stepsFor_snoc, (strictEq_sym (Joined.userPlanId row)).
    destruct (strictEq (Joined.userPlanId r0) (Joined.userPlanId row)
              && truthy (Joined.planStepId row)); [reflexivity|].
    rewrite app_nil_r. reflexivity. }
  destruct (find (fun p => strictEq (UserPlan.userPlanId p) (Joined.userPlanId row))
                 (grouped rows)) as [p|] eqn:Hf.
  - (* the identity has been seen *)
    assert (Hseen : existsb (fun r => strictEq (Joined.userPlanId r)
                                        (Joined.userPlanId row)) rows = true).
    { apply existsb_identity. apply firstRows_ids. rewrite <- grouped_ids.
      apply find_some in Hf. destruct Hf as [Hin Heq].
      apply strictEq_true in Heq. rewrite <- Heq. apply in_map. exact Hin. }
    unfold grouped at 3. rewrite firstRows_snoc, Hseen, app_nil_r.
    destruct (truthy (Joined.planStepId row)) eqn:Ht.
    + rewrite pushStep_distinct by exact Hnd. unfold grouped. rewrite map_map.
      apply map_ext_in. intros r0 Hr0. simpl.
      rewrite (Hold r0 Hr0), andb_true_r.
      destruct (strictEq (Joined.userPlanId r0) (Joined.userPlanId row)); reflexivity.
    + unfold grouped. apply map_ext_in. intros r0 Hr0.
      rewrite (Hold r0 Hr0), andb_false_r. reflexivity.
  - (* a new identity *)
    assert (Hnew : ~ In (Joined.userPlanId row) (map Joined.userPlanId rows)).
    { intros H. apply firstRows_ids in H. rewrite <- grouped_ids in H.
      apply find_key in Hf. contradiction. }
    assert (Hseen : existsb (fun r => strictEq (Joined.userPlanId r)
                                        (Joined.userPlanId row)) rows = false).
    { destruct (existsb _ rows) eqn:E; [|reflexivity].
      apply existsb_identity in E. contradiction. }
    assert (Hrest : map (fun r0 => withSteps (newPlan r0)
                           (stepsFor (Joined.userPlanId r0) (rows ++ [row])))
                        (firstRows rows)
                    = grouped rows).
    { unfold grouped. apply map_ext_in. intros r0 Hr0. rewrite (Hold r0 Hr0).
      assert (Hne : strictEq (Joined.userPlanId r0) (Joined.userPlanId row) = false).
      { apply strictEq_false. intros Heq. apply Hnew. rewrite <- Heq.
        apply in_map. apply firstRows_incl. exact Hr0. }
      rewrite Hne. reflexivity. }
    assert (Hrhs : grouped (rows ++ [row])
                   = grouped rows
                     ++ [withSteps (newPlan row)
                           (if truthy (Joined.planStepId row)
                            then [stepOfRow row] else [])]).
    { unfold grouped at 1. rewrite firstRows_snoc, Hseen, map_app, Hrest. simpl.
      rewrite stepsFor_snoc, (@stepsFor_absent _ _ Hnew).
      rewrite (proj2 (strictEq_true _ _) eq_refl). reflexivity. }
    rewrite Hrhs.
    destruct (truthy (Joined.planStepId row)) eqn:Ht.
    + rewrite pushStep_distinct.
      * rewrite map_app. simpl.
        rewrite (proj2 (strictEq_true _ _) eq_refl). f_equal.
        erewrite map_ext_in; [apply map_id|].
        intros q Hq. simpl.
        destruct (strictEq (UserPlan.userPlanId q) (Joined.userPlanId row)) eqn:E;
          [|reflexivity].
        exfalso. apply strictEq_true in E. apply Hnew. apply firstRows_ids.
        rewrite <- grouped_ids, <- E. apply in_map. exact Hq.
      * rewrite map_app. simpl. apply NoDup_app; [exact Hnd | |].
        -- repeat constructor. intros [].
        -- intros a Ha [<-|[]]. apply Hnew. apply firstRows_ids.
           rewrite <- grouped_ids. exact Ha.
    + reflexivity.
Qed.

(** The loop computes the grouping. *)
Lemma fold_groupRow_grouped (rows : list Joined.row) :
  fold_left groupRow rows [] = grouped rows.
Proof.
  induction rows as [|row rows IH] using rev_ind; [reflexivity|].
  rewrite fold_left_app. simpl. rewrite IH. apply groupRow_grouped.
  rewrite <- IH. apply (@fold_groupRow_keys rows [] (NoDup_nil _)).
Qed.

(* ===================================================================== *)
(** ** The order of the listing *)
(* ===================================================================== *)

Lemma ascNullsLast_trans (a b c : option Z) :
  ascNullsLast a b = true -> ascNullsLast b c = true -> ascNullsLast a c = true.
Proof.
  destruct a as [x|], b as [y|], c as [z|]; simpl; intros H1 H2;
    try reflexivity; try discriminate.
  apply Z.leb_le in H1, H2. apply Z.leb_le. lia.
Qed.

Lemma ascNullsLast_total (a b : option Z) :
  ascNullsLast a b = false -> ascNullsLast b a = true.
Proof.
  destruct a as [x|], b as [y|]; simpl; intros H; try reflexivity; try discriminate.
  apply Z.leb_gt in H. apply Z.leb_le. lia.
Qed.

Lemma createdDescDueAsc_cases (a b : Joined.row) :
  createdDescDueAsc a b = true <->
  Joined.createdAt b < Joined.createdAt a
  \/ (Joined.createdAt a = Joined.createdAt b
      /\ ascNullsLast (Joined.dueDate a) (Joined.dueDate b) = true).
Proof.
  unfold createdDescDueAsc.
  rewrite orb_true_iff, andb_true_iff, Z.ltb_lt, Z.eqb_eq. reflexivity.
Qed.

Lemma createdDescDueAsc_trans (a b c : Joined.row) :
  createdDescDueAsc a b = true -> createdDescDueAsc b c = true ->
  createdDescDueAsc a c = true.
Proof.
  rewrite !createdDescDueAsc_cases.
  intros [H1|[H1 D1]] [H2|[H2 D2]]; try (left; lia).
  right. split; [lia|]. eapply ascNullsLast_trans; eassumption.
Qed.

Lemma createdDescDueAsc_total (a b : Joined.row) :
  createdDescDueAsc a b = false -> createdDescDueAsc b a = true.
Proof.
  intros H. apply createdDescDueAsc_cases.
  unfold createdDescDueAsc in H. apply orb_false_iff in H. destruct H as [H1 H2].
  apply Z.ltb_ge in H1. apply andb_false_iff in H2.
  destruct (Z.eq_dec (Joined.createdAt a) (Joined.createdAt b)) as [E|E].
  - right. split; [congruence|]. destruct H2 as [H2|H2].
    + apply Z.eqb_neq in H2. contradiction.
    + apply ascNullsLast_total. exact H2.
  - left. lia.
Qed.

(** The rows of [plansSql] are in the order of the key, any two of
    them. *)
Lemma plansSql_StronglySorted (userId : Z) (t : Tables) :
  StronglySorted (fun a b => createdDescDueAsc a b = true) (plansSql userId t).
Proof.
  apply Sorted_StronglySorted.
  - intros a b c. apply createdDescDueAsc_trans.
  - apply orderBy_Sorted. apply createdDescDueAsc_total.
Qed.

Lemma StronglySorted_filter (A : Type) (R : A -> A -> Prop) (f : A -> bool)
    (l : list A) :
  StronglySorted R l -> StronglySorted R (filter f l).
Proof.
  induction 1 as [|a l Hs IH Hall]; simpl; [constructor|].
  destruct (f a); [|exact IH]. constructor; [exact IH|].
  rewrite Forall_forall in *. intros x Hx. apply Hall.
  apply filter_In in Hx. tauto.
Qed.

Lemma StronglySorted_In_impl (A : Type) (R Q : A -> A -> Prop) (l : list A) :
  (forall a b, In a l -> In b l -> R a b -> Q a b) ->
  StronglySorted R l -> StronglySorted Q l.
Proof.
  intros HRQ Hs. induction Hs as [|a l Hs IH Hall]; [constructor|].
  constructor.
  - apply IH. intros x y Hx Hy. apply HRQ; right; assumption.
  - rewrite Forall_forall in *. intros x Hx.
    apply HRQ; [left; reflexivity | right; exact Hx | apply Hall; exact Hx].
Qed.

Lemma StronglySorted_map (A B : Type) (R : B -> B -> Prop) (f : A -> B)
    (l : list A) :
  StronglySorted (fun a b => R (f a) (f b)) l -> StronglySorted R (map f l).
Proof.
  induction 1 as [|a l Hs IH Hall]; simpl; constructor; [exact IH|].
  rewrite Forall_forall in *. intros y Hy. apply in_map_iff in Hy.
  destruct Hy as [x [<- Hx]]. apply Hall. exact Hx.
Qed.

Lemma firstRows_StronglySorted (R : Joined.row -> Joined.row -> Prop)
    (rows : list Joined.row) :
  StronglySorted R rows -> StronglySorted R (firstRows rows).
Proof.
  induction 1 as [|a l Hs IH Hall]; simpl; constructor.
  - apply StronglySorted_filter. exact IH.
  - rewrite Forall_forall in *. intros x Hx. apply filter_In in Hx.
    apply Hall. apply firstRows_incl. tauto.
Qed.

(** Where a joined row comes from: a plan row the statement keeps, a
    species row of that plan, and either no step or a step of the
    plan. *)
Lemma joinedRows_inv (keep : PlanRow.row -> bool) (t : Tables) (row : Joined.row) :
  In row (joinedRows keep t) ->
  exists up gs,
    In up (UserPlans t) /\ keep up = true /\ In gs (speciesOf t up) /\
    ((row = unmatched up gs /\
      filter (ofPlan (PlanRow.userPlanId up)) (PlanSteps t) = [])
     \/ exists ps, In ps (PlanSteps t) /\
          StepRow.userPlanId ps = PlanRow.userPlanId up /\ row = matched up gs ps).
Proof.
  unfold joinedRows. intros H.
  apply in_flat_map in H. destruct H as [up [Hup H]].
  apply in_flat_map in H. destruct H as [gs [Hgs H]].
  apply filter_In in Hup. destruct Hup as [Hup Hkeep].
  exists up, gs. repeat split; try assumption.
  unfold leftJoinSteps in H.
  destruct (filter (ofPlan (PlanRow.userPlanId up)) (PlanSteps t)) as [|ps more] eqn:Hf.
  - destruct H as [<-|[]]. left. split; reflexivity.
  - apply in_map_iff in H. destruct H as [ps' [<- Hin]]. right. exists ps'.
    assert (Hin' : In ps' (filter (ofPlan (PlanRow.userPlanId up)) (PlanSteps t)))
      by (rewrite Hf; exact Hin).
    apply filter_In in Hin'. destruct Hin' as [Hps Hof].
    repeat split; [exact Hps | apply Z.eqb_eq; exact Hof].
Qed.

Lemma NoDup_map_eq (A : Type) (key : A -> Z) (l : list A) (x y : A) :
  NoDup (map key l) -> In x l -> In y l -> key x = key y -> x = y.
Proof.
  induction l as [|a l IH]; simpl; intros Hnd Hx Hy Hk; [destruct Hx|].
  inversion Hnd as [|? ? Hnotin Hnd']; subst.
  destruct Hx as [->|Hx], Hy as [->|Hy].
  - reflexivity.
  - exfalso. apply Hnotin. rewrite Hk. apply in_map. exact Hy.
  - exfalso. apply Hnotin. rewrite <- Hk. apply in_map. exact Hx.
  - apply IH; assumption.
Qed.

Section Listing.
Variable NOW : Z.
Variable stepRejected : Tables -> Z -> StepInput.t -> bool.
Variable updatedPlanFails : Tables -> Z -> bool.

(** What the listing answers to the user's own request. *)
Lemma getUserPlans_grouped (userId : Z) (s : Store) :
  handle NOW stepRejected updatedPlanFails userId (GET_user_plans userId) s
  = (s, Json 200 (PlansBody (grouped (plansSql userId (tables s))))).
Proof.
  rewrite getUserPlans_run, Z.eqb_refl. simpl.
  rewrite fold_groupRow_grouped. reflexivity.
Qed.

(** X1: the listing groups the joined rows by the [userPlanId] of the
    row object.  The answer has one element for each identity among the
    rows, in the order the identities first appear; its scalar fields
    are those of the first row with the identity; its steps are made
    from the rows with the identity and a truthy [planStepId], in the
    order of the rows. *)
Theorem getUserPlans_groups_rows (userId : Z) (s : Store) :
  exists plans,
    handle NOW stepRejected updatedPlanFails userId (GET_user_plans userId) s
    = (s, Json 200 (PlansBody plans)) /\
    map UserPlan.userPlanId plans
    = map Joined.userPlanId (firstRows (plansSql userId (tables s))) /\
    (forall id, In id (map UserPlan.userPlanId plans)
                <-> In id (map Joined.userPlanId (plansSql userId (tables s)))) /\
    (forall plan, In plan plans ->
       exists row,
         In row (firstRows (plansSql userId (tables s))) /\
         Joined.userPlanId row = UserPlan.userPlanId plan /\
         withSteps plan [] = newPlan row /\
         UserPlan.steps plan
         = map stepOfRow
             (filter (fun r => strictEq (Joined.userPlanId r) (UserPlan.userPlanId plan)
                               && truthy (Joined.planStepId r))
                     (plansSql userId (tables s)))).
Proof.
  exists (grouped (plansSql userId (tables s))).
  split; [apply getUserPlans_grouped|]. split; [apply grouped_ids|]. split.
  - intros id. rewrite grouped_ids. apply firstRows_ids.
  - intros plan Hin. unfold grouped in Hin. apply in_map_iff in Hin.
    destruct Hin as [row [<- Hrow]]. exists row. repeat split. exact Hrow.
Qed.

(** X2: the elements of the listing are in descending order of
    [createdAt], any two of them. *)
Theorem getUserPlans_newest_first (userId : Z) (s : Store) :
  exists plans,
    handle NOW stepRejected updatedPlanFails userId (GET_user_plans userId) s
    = (s, Json 200 (PlansBody plans)) /\
    StronglySorted (fun p q => UserPlan.createdAt q <= UserPlan.createdAt p) plans.
Proof.
  exists (grouped (plansSql userId (tables s))).
  split; [apply getUserPlans_grouped|].
  unfold grouped. apply StronglySorted_map. simpl.
  apply firstRows_StronglySorted.
  eapply StronglySorted_In_impl; [|apply plansSql_StronglySorted].
  intros a b _ _ H. apply createdDescDueAsc_cases in H. lia.
Qed.
End Listing.

Lemma Permutation_filter_same (A : Type) (f : A -> bool) (l l' : list A) :
  Permutation l l' -> Permutation (filter f l) (filter f l').
Proof.
  induction 1 as [|x l l' _ IH|x y l|l l' l'' _ IH1 _ IH2]; simpl.
  - constructor.
  - destruct (f x); [apply perm_skip|]; exact IH.
  - destruct (f x), (f y); try apply Permutation_refl. apply perm_swap.
  - eapply perm_trans; eassumption.
Qed.

Lemma filter_flat_map (A B : Type) (f : B -> bool) (h : A -> list B) (l : list A) :
  filter f (flat_map h l) = flat_map (fun x => filter f (h x)) l.
Proof.
  induction l as [|a l IH]; simpl; [reflexivity|].
  rewrite filter_app, IH. reflexivity.
Qed.

Lemma flat_map_nil (A B : Type) (h : A -> list B) (l : list A) :
  (forall y, In y l -> h y = []) -> flat_map h l = [].
Proof.
  induction l as [|a l IH]; simpl; intros H; [reflexivity|].
  rewrite (H a) by (left; reflexivity). apply IH.
  intros y Hy. apply H. right. exact Hy.
Qed.

(** In a table with a key, when the rows of every key but that of [x]
    give nothing, what the table gives is what [x] gives. *)
Lemma flat_map_one (A B : Type) (key : A -> Z) (h : A -> list B) (l : list A)
    (x : A) :
  NoDup (map key l) -> In x l ->
  (forall y, In y l -> key y <> key x -> h y = []) ->
  flat_map h l = h x.
Proof.
  induction l as [|a l IH]; simpl; intros Hnd Hin Hno; [destruct Hin|].
  inversion Hnd as [|? ? Hnotin Hnd']; subst.
  destruct Hin as [->|Hin].
  - rewrite (@flat_map_nil _ _ h l); [apply app_nil_r|].
    intros y Hy. apply Hno; [right; exact Hy|].
    intros Hk. apply Hnotin. rewrite <- Hk. apply in_map. exact Hy.
  - rewrite (Hno a); [| left; reflexivity |].
    + simpl. apply IH; try assumption. intros y Hy. apply Hno. right. exact Hy.
    + intros Hk. apply Hnotin. rewrite Hk. apply in_map. exact Hin.
Qed.

(** A row with a truthy [planStepId] carries the identity of the plan
    row it was joined from. *)
Lemma joined_step_row (keep : PlanRow.row -> bool) (t : Tables) (row : Joined.row) :
  In row (joinedRows keep t) -> truthy (Joined.planStepId row) = true ->
  exists up gs ps,
    In up (UserPlans t) /\ keep up = true /\ In gs (speciesOf t up) /\
    In ps (PlanSteps t) /\ StepRow.userPlanId ps = PlanRow.userPlanId up /\
    row = matched up gs ps /\
    Joined.userPlanId row = Some (PlanRow.userPlanId up).
Proof.
  intros Hin Ht. apply joinedRows_inv in Hin.
  destruct Hin as [up [gs [Hup [Hkeep [Hgs [[-> _] | [ps [Hps [Hid ->]]]]]]]]].
  - discriminate.
  - exists up, gs, ps. repeat split; try assumption. simpl. rewrite Hid. reflexivity.
Qed.

Section ListingOrder.
Variable NOW : Z.
Variable stepRejected : Tables -> Z -> StepInput.t -> bool.
Variable updatedPlanFails : Tables -> Z -> bool.

(** X3: when [userPlanId] is a key of [UserPlans], the steps of every
    element of the listing are in ascending order of [dueDate], any two
    of them. *)
Theorem getUserPlans_steps_by_due_date (userId : Z) (s : Store) :
  NoDup (map PlanRow.userPlanId (UserPlans (tables s))) ->
  exists plans,
    handle NOW stepRejected updatedPlanFails userId (GET_user_plans userId) s
    = (s, Json 200 (PlansBody plans)) /\
    forall plan, In plan plans ->
      StronglySorted
        (fun a b => ascNullsLast (PlanStep.dueDate a) (PlanStep.dueDate b) = true)
        (UserPlan.steps plan).
Proof.
  intros Hkey. exists (grouped (plansSql userId (tables s))).
  split; [apply getUserPlans_grouped|].
  intros plan Hin. unfold grouped in Hin. apply in_map_iff in Hin.
  destruct Hin as [row0 [<- _]]. simpl. unfold stepsFor.
  apply StronglySorted_map. simpl.
  eapply StronglySorted_In_impl;
    [| apply StronglySorted_filter; apply plansSql_StronglySorted].
  intros a b Ha Hb Hab. simpl in Hab.
  apply filter_In in Ha, Hb. destruct Ha as [Ha Hga], Hb as [Hb Hgb].
  apply andb_true_iff in Hga, Hgb. destruct Hga as [Hia Hta], Hgb as [Hib Htb].
  apply strictEq_true in Hia, Hib.
  unfold plansSql in Ha, Hb.
  apply (Permutation_in _ (orderBy_Permutation _ _)) in Ha, Hb.
  destruct (joined_step_row _ _ _ Ha Hta)
    as [upa [gsa [psa [Hupa [_ [_ [_ [_ [Hrowa Hida]]]]]]]]].
  destruct (joined_step_row _ _ _ Hb Htb)
    as [upb [gsb [psb [Hupb [_ [_ [_ [_ [Hrowb Hidb]]]]]]]]].
  assert (Hsame : upa = upb).
  { apply (@NoDup_map_eq _ PlanRow.userPlanId (UserPlans (tables s)));
      try assumption. congruence. }
  apply createdDescDueAsc_cases in Hab. destruct Hab as [Hlt | [_ Hd]]; [|exact Hd].
  exfalso. rewrite Hrowa, Hrowb, Hsame in Hlt. simpl in Hlt. lia.
Qed.

(** X4: let [userPlanId] be a key of [UserPlans].  A plan of the user
    that has at least one step, all its steps with a non-zero
    [planStepId], and exactly one species row, is in the listing under
    its identity, with the scalar fields of its row and the name of its
    species, and its steps are the steps of the plan, each once. *)
Theorem getUserPlans_lists_plan_with_steps (userId : Z) (s : Store)
    (up : PlanRow.row) (gs : SpeciesRow.row) :
  NoDup (map PlanRow.userPlanId (UserPlans (tables s))) ->
  In up (UserPlans (tables s)) ->
  PlanRow.userId up = userId ->
  speciesOf (tables s) up = [gs] ->
  filter (ofPlan (PlanRow.userPlanId up)) (PlanSteps (tables s)) <> [] ->
  (forall ps, In ps (PlanSteps (tables s)) ->
     StepRow.userPlanId ps = PlanRow.userPlanId up -> StepRow.planStepId ps <> 0) ->
  exists plans plan,
    handle NOW stepRejected updatedPlanFails userId (GET_user_plans userId) s
    = (s, Json 200 (PlansBody plans)) /\
    In plan plans /\
    UserPlan.userPlanId plan = Some (PlanRow.userPlanId up) /\
    UserPlan.userId plan = userId /\
    UserPlan.grassSpeciesId plan = PlanRow.grassSpeciesId up /\
    UserPlan.grassSpeciesName plan = SpeciesRow.name gs /\
    UserPlan.planType plan = PlanRow.planType up /\
    UserPlan.establishmentType plan = PlanRow.establishmentType up /\
    UserPlan.isCompleted plan = PlanRow.isCompleted up /\
    UserPlan.isArchived plan = PlanRow.isArchived up /\
    UserPlan.createdAt plan = PlanRow.createdAt up /\
    Permutation (UserPlan.steps plan)
      (map (fun ps => stepOfRow (matched up gs ps))
           (filter (ofPlan (PlanRow.userPlanId up)) (PlanSteps (tables s)))).
Proof.
  intros Hkey Hup Huser Hgs Hsteps Hnz.
  set (k := PlanRow.userPlanId up) in *.
  set (g := fun r => strictEq (Joined.userPlanId r) (Some k)
                     && truthy (Joined.planStepId r)).
  set (keep := fun up' => PlanRow.userId up' =? userId).
  (* the rows of the plan among the joined rows *)
  assert (Hrows : filter g (joinedRows keep (tables s))
                  = map (matched up gs) (filter (ofPlan k) (PlanSteps (tables s)))).
  { unfold joinedRows. rewrite filter_flat_map.
    rewrite (@flat_map_one _ _ PlanRow.userPlanId _ _ up).
    - rewrite Hgs. simpl. rewrite app_nil_r. unfold leftJoinSteps. fold k.
      assert (Hall : forall ps, In ps (filter (ofPlan k) (PlanSteps (tables s))) ->
                g (matched up gs ps) = true).
      { intros ps Hps. apply filter_In in Hps.
        destruct Hps as [Hps Hof]. unfold ofPlan in Hof. apply Z.eqb_eq in Hof.
        unfold g. simpl. rewrite Hof, Z.eqb_refl. simpl.
        specialize (Hnz ps Hps Hof). apply Z.eqb_neq in Hnz. rewrite Hnz.
        reflexivity. }
      destruct (filter (ofPlan k) (PlanSteps (tables s))) as [|ps0 more];
        [contradiction Hsteps; reflexivity|].
      apply forallb_filter_id. apply forallb_forall.
      intros r Hr. apply in_map_iff in Hr. destruct Hr as [ps [<- Hps]].
      apply Hall. exact Hps.
    - apply NoDup_map_inv in Hkey as Hnd.
      clear - Hkey. induction (UserPlans (tables s)) as [|a l IH]; simpl; [constructor|].
      simpl in Hkey. inversion Hkey as [|? ? Hnotin Hkey']; subst.
      destruct (keep a); [|apply IH; exact Hkey'].
      simpl. constructor; [|apply IH; exact Hkey'].
      intros Hin. apply Hnotin. apply in_map_iff in Hin. destruct Hin as [x [Hx Hin]].
      apply filter_In in Hin. rewrite <- Hx. apply in_map. tauto.
    - apply filter_In. split; [exact Hup|]. unfold keep. apply Z.eqb_eq. exact Huser.
    - intros y Hy Hne. apply filter_none. intros r Hr.
      apply in_flat_map in Hr. destruct Hr as [gs' [_ Hr]]. unfold leftJoinSteps in Hr.
      destruct (filter (ofPlan (PlanRow.userPlanId y)) (PlanSteps (tables s)))
        as [|ps0 more] eqn:Hf.
      + destruct Hr as [<-|[]]. reflexivity.
      + apply in_map_iff in Hr. destruct Hr as [ps [<- Hps]].
        assert (Hps' : In ps (filter (ofPlan (PlanRow.userPlanId y))
                                     (PlanSteps (tables s))))
          by (rewrite Hf; exact Hps).
        apply filter_In in Hps'. destruct Hps' as [_ Hof].
        unfold ofPlan in Hof. apply Z.eqb_eq in Hof.
        unfold g. simpl. rewrite Hof.
        apply Z.eqb_neq in Hne. fold k in Hne. rewrite Hne. reflexivity. }
  assert (Hperm : Permutation (filter g (plansSql userId (tables s)))
                              (map (matched up gs)
                                   (filter (ofPlan k) (PlanSteps (tables s))))).
  { rewrite <- Hrows. apply Permutation_filter_same. apply orderBy_Permutation. }
  (* the identity is among the rows, so it has a first row *)
  assert (Hid : In (Some k) (map Joined.userPlanId
                               (firstRows (plansSql userId (tables s))))).
  { apply firstRows_ids.
    destruct (filter (ofPlan k) (PlanSteps (tables s))) as [|ps0 more];
      [contradiction Hsteps; reflexivity|].
    assert (Hin : In (matched up gs ps0) (filter g (plansSql userId (tables s)))).
    { apply (Permutation_in _ (Permutation_sym Hperm)). left. reflexivity. }
    apply filter_In in Hin. destruct Hin as [Hin Hg].
    unfold g in Hg. apply andb_true_iff in Hg. destruct Hg as [Hg _].
    apply strictEq_true in Hg. rewrite <- Hg. apply in_map. exact Hin. }
  apply in_map_iff in Hid. destruct Hid as [row0 [Hid0 Hrow0]].
  exists (grouped (plansSql userId (tables s))),
         (withSteps (newPlan row0)
            (stepsFor (Joined.userPlanId row0) (plansSql userId (tables s)))).
  split; [apply getUserPlans_grouped|].
  split; [unfold grouped; apply in_map_iff; exists row0; split;
          [reflexivity | exact Hrow0]|].
  (* the first row is a row of this plan *)
  assert (Hfrom : exists ps, row0 = matched up gs ps \/ False).
  { apply firstRows_incl in Hrow0. unfold plansSql in Hrow0.
    apply (Permutation_in _ (orderBy_Permutation _ _)) in Hrow0.
    apply joinedRows_inv in Hrow0.
    destruct Hrow0 as [up' [gs' [Hup' [_ [Hgs' [[-> _] | [ps [_ [Hps ->]]]]]]]]].
    - discriminate.
    - simpl in Hid0. assert (Heq : up' = up).
      { apply (@NoDup_map_eq _ PlanRow.userPlanId (UserPlans (tables s)));
          try assumption. fold k. congruence. }
      subst up'. rewrite Hgs in Hgs'. destruct Hgs' as [<-|[]].
      exists ps. left. reflexivity. }
  destruct Hfrom as [ps0 [-> | []]]. simpl.
  repeat split; try assumption.
  simpl in Hid0. unfold stepsFor. simpl. rewrite Hid0.
  apply (Permutation_map stepOfRow) in Hperm. rewrite map_map in Hperm.
  exact Hperm.
Qed.
End ListingOrder.

(* ===================================================================== *)
(** ** Steps: DELETE and PUT /api/plans/:planId/steps/:stepId *)
(* ===================================================================== *)

Lemma filter_all_In (A : Type) (f : A -> bool) (l : list A) :
  (forall x, In x l -> f x = true) -> filter f l = l.
Proof.
  intros H. apply forallb_filter_id. apply forallb_forall. exact H.
Qed.

Lemma setCompletion_back (completed : bool) (completedAt : option Z)
    (ps : StepRow.row) :
  setCompletion (StepRow.completed ps) (StepRow.completedAt ps)
    (setCompletion completed completedAt ps) = ps.
Proof. destruct ps; reflexivity. Qed.

Section StepRoutes.
Variable NOW : Z.
Variable stepRejected : Tables -> Z -> StepInput.t -> bool.
Variable updatedPlanFails : Tables -> Z -> bool.

(** X5: on a plan of the user, [deleteStep] answers "Step not found"
    and changes nothing when no step has both the identity and the plan
    of the path, also when the step exists in another plan; otherwise it
    answers 200 and removes the steps with that identity and plan and
    nothing else. *)
Theorem deleteStep_removes_only_that_step (planId stepId userId : Z) (s : Store) :
  checkPlanSql planId userId (tables s) <> [] ->
  ((forall ps, In ps (PlanSteps (tables s)) ->
      StepRow.planStepId ps = stepId -> StepRow.userPlanId ps <> planId) ->
   handle NOW stepRejected updatedPlanFails userId (DELETE_step planId stepId) s
   = (s, Next (ClientError 404 "Step not found"))) /\
  (forall ps0, In ps0 (PlanSteps (tables s)) ->
   StepRow.planStepId ps0 = stepId -> StepRow.userPlanId ps0 = planId ->
   handle NOW stepRejected updatedPlanFails userId (DELETE_step planId stepId) s
   = ({| tables := withPlanSteps (tables s)
                     (filter (fun ps => negb (stepOfPlan stepId planId ps))
                             (PlanSteps (tables s)));
         planStepId_seq := planStepId_seq s |},
      Json 200 (MessageBody "Step deleted successfully")) /\
   ~ In ps0 (PlanSteps (tables (fst
       (handle NOW stepRejected updatedPlanFails userId (DELETE_step planId stepId) s)))) /\
   forall ps, In ps (PlanSteps (tables s)) ->
     (StepRow.planStepId ps <> stepId \/ StepRow.userPlanId ps <> planId) ->
     In ps (PlanSteps (tables (fst
       (handle NOW stepRejected updatedPlanFails userId (DELETE_step planId stepId) s))))).
Proof.
  intros Hown. rewrite deleteStep_run.
  destruct (checkPlanSql planId userId (tables s)) as [|p0 rest];
    [contradiction Hown; reflexivity|].
  split.
  - intros Hnone. rewrite filter_none; [reflexivity|].
    intros ps Hps. unfold stepOfPlan.
    destruct (StepRow.planStepId ps =? stepId) eqn:E; [|reflexivity].
    apply Z.eqb_eq in E. specialize (Hnone ps Hps E).
    apply Z.eqb_neq in Hnone. rewrite Hnone. reflexivity.
  - intros ps0 Hin Hid Hplan.
    assert (Hhit : stepOfPlan stepId planId ps0 = true).
    { unfold stepOfPlan. rewrite Hid, Hplan, !Z.eqb_refl. reflexivity. }
    destruct (filter (stepOfPlan stepId planId) (PlanSteps (tables s)))
      as [|ps1 more] eqn:Hf.
    + exfalso. assert (H : In ps0 (filter (stepOfPlan stepId planId)
                                     (PlanSteps (tables s))))
        by (apply filter_In; split; assumption).
      rewrite Hf in H. exact H.
    + simpl. split; [reflexivity|]. split.
      * intros H. apply filter_In in H. rewrite Hhit in H. destruct H; discriminate.
      * intros ps Hps Hother. apply filter_In. split; [exact Hps|].
        unfold stepOfPlan. destruct Hother as [H|H]; apply Z.eqb_neq in H; rewrite H;
          [reflexivity | rewrite andb_false_r; reflexivity].
Qed.

(** X6: on a plan of the user, [completeStep] answers "Step not found"
    and changes nothing when no step has both the identity and the plan
    of the path; in every case it leaves the plans, the number and the
    order of the steps, and of each step everything but [completed] and
    [completedAt], as they were, and a step with another identity or
    plan entirely as it was. *)
Theorem putStep_writes_only_completion (planId stepId userId : Z)
    (completed : bool) (completedAt : option Z) (s : Store) :
  (checkPlanSql planId userId (tables s) <> [] ->
   (forall ps, In ps (PlanSteps (tables s)) ->
      StepRow.planStepId ps = stepId -> StepRow.userPlanId ps <> planId) ->
   handle NOW stepRejected updatedPlanFails userId (PUT_step planId stepId completed completedAt) s
   = (s, Next (ClientError 404 "Step not found"))) /\
  UserPlans (tables (fst (handle NOW stepRejected updatedPlanFails userId
     (PUT_step planId stepId completed completedAt) s))) = UserPlans (tables s) /\
  map (fun ps => (StepRow.planStepId ps, StepRow.userPlanId ps, StepRow.templateId ps,
                  StepRow.stepDescription ps, StepRow.dueDate ps, StepRow.stepOrder ps))
      (PlanSteps (tables (fst (handle NOW stepRejected updatedPlanFails userId
         (PUT_step planId stepId completed completedAt) s))))
  = map (fun ps => (StepRow.planStepId ps, StepRow.userPlanId ps, StepRow.templateId ps,
                    StepRow.stepDescription ps, StepRow.dueDate ps, StepRow.stepOrder ps))
        (PlanSteps (tables s)) /\
  (forall ps, In ps (PlanSteps (tables s)) ->
     (StepRow.planStepId ps <> stepId \/ StepRow.userPlanId ps <> planId) ->
     In ps (PlanSteps (tables (fst (handle NOW stepRejected updatedPlanFails userId
       (PUT_step planId stepId completed completedAt) s))))).
Proof.
  split; [|split; [|split]].
  - intros Hown Hnone. rewrite putStep_run.
    destruct (checkPlanSql planId userId (tables s)) as [|p0 rest];
      [contradiction Hown; reflexivity|].
    rewrite filter_none; [reflexivity|].
    intros ps Hps. unfold stepOfPlan.
    destruct (StepRow.planStepId ps =? stepId) eqn:E; [|reflexivity].
    apply Z.eqb_eq in E. specialize (Hnone ps Hps E).
    apply Z.eqb_neq in Hnone. rewrite Hnone. reflexivity.
  - rewrite putStep_run.
    destruct (checkPlanSql planId userId (tables s)); [reflexivity|].
    destruct (filter (stepOfPlan stepId planId) (PlanSteps (tables s))); reflexivity.
  - destruct (putStep_PlanSteps NOW stepRejected updatedPlanFails planId stepId userId completed
                completedAt s) as [-> | ->]; [reflexivity|].
    rewrite map_map. apply map_ext. intros ps.
    destruct (stepOfPlan stepId planId ps); reflexivity.
  - intros ps Hps Hother.
    destruct (putStep_PlanSteps NOW stepRejected updatedPlanFails planId stepId userId completed
                completedAt s) as [-> | ->]; [exact Hps|].
    apply in_map_iff. exists ps. split; [|exact Hps].
    unfold stepOfPlan. destruct Hother as [H|H]; apply Z.eqb_neq in H; rewrite H;
      [reflexivity | rewrite andb_false_r; reflexivity].
Qed.

(** X7: when [planStepId] is a key of [PlanSteps], setting the
    completion of a step of the user's plan and then setting it back to
    what it was restores the store, and the second answer is the step as
    it was. *)
Theorem putStep_round_trip (planId stepId userId : Z) (completed : bool)
    (completedAt : option Z) (s : Store) (ps : StepRow.row) :
  NoDup (map StepRow.planStepId (PlanSteps (tables s))) ->
  checkPlanSql planId userId (tables s) <> [] ->
  In ps (PlanSteps (tables s)) ->
  StepRow.planStepId ps = stepId -> StepRow.userPlanId ps = planId ->
  handle NOW stepRejected updatedPlanFails userId
    (PUT_step planId stepId (StepRow.completed ps) (StepRow.completedAt ps))
    (fst (handle NOW stepRejected updatedPlanFails userId
            (PUT_step planId stepId completed completedAt) s))
  = (s, Json 200 (StepBody (Some ps))).
Proof.
  intros Hkey Hown Hps Hid Hplan.
  assert (Hhit : stepOfPlan stepId planId ps = true).
  { unfold stepOfPlan. rewrite Hid, Hplan, !Z.eqb_refl. reflexivity. }
  assert (Honly : forall x, In x (PlanSteps (tables s)) ->
            stepOfPlan stepId planId x = true -> x = ps).
  { intros x Hx Hhx. apply (@NoDup_map_eq _ StepRow.planStepId (PlanSteps (tables s)));
      try assumption.
    unfold stepOfPlan in Hhx. apply andb_true_iff in Hhx. destruct Hhx as [Hhx _].
    apply Z.eqb_eq in Hhx. congruence. }
  assert (Hf : filter (stepOfPlan stepId planId) (PlanSteps (tables s)) = [ps]).
  { apply (@filter_unique _ StepRow.planStepId); try assumption.
    intros y Hy Hhy. rewrite (Honly y Hy Hhy). reflexivity. }
  rewrite (putStep_run NOW stepRejected updatedPlanFails planId stepId userId completed completedAt s).
  destruct (checkPlanSql planId userId (tables s)) as [|p0 rest] eqn:Hq;
    [contradiction Hown; reflexivity|].
  rewrite Hf. simpl fst. rewrite putStep_run. simpl tables.
  set (F := fun r => if stepOfPlan stepId planId r
                     then setCompletion completed completedAt r else r).
  change (checkPlanSql planId userId
            (withPlanSteps (tables s) (map F (PlanSteps (tables s)))))
    with (checkPlanSql planId userId (tables s)).
  rewrite Hq.
  change (PlanSteps (withPlanSteps (tables s) (map F (PlanSteps (tables s)))))
    with (map F (PlanSteps (tables s))).
  assert (Hback : forall x, In x (PlanSteps (tables s)) ->
            (if stepOfPlan stepId planId (F x)
             then setCompletion (StepRow.completed ps) (StepRow.completedAt ps) (F x)
             else F x) = x).
  { intros x Hx. unfold F. destruct (stepOfPlan stepId planId x) eqn:Ex.
    - change (stepOfPlan stepId planId (setCompletion completed completedAt x))
        with (stepOfPlan stepId planId x). rewrite Ex.
      rewrite (Honly x Hx Ex). apply setCompletion_back.
    - rewrite Ex. reflexivity. }
  assert (Hf' : filter (stepOfPlan stepId planId) (map F (PlanSteps (tables s)))
                = map F (filter (stepOfPlan stepId planId) (PlanSteps (tables s)))).
  { clear. induction (PlanSteps (tables s)) as [|a l IH]; [reflexivity|].
    simpl. unfold F at 1.
    destruct (stepOfPlan stepId planId a) eqn:Ea.
    - change (stepOfPlan stepId planId (setCompletion completed completedAt a))
        with (stepOfPlan stepId planId a). rewrite Ea. simpl. rewrite IH.
      f_equal. all: unfold F; rewrite Ea; reflexivity.
    - rewrite Ea. exact IH. }
  rewrite Hf', Hf. simpl map. unfold F at 1. rewrite Hhit.
  rewrite setCompletion_back. f_equal.
  unfold completeStepSql, sqlUpdate, withTables, withPlanSteps. simpl.
  rewrite map_map. rewrite (@map_ext_in _ _ _ (fun x => x) _ Hback), map_id.
  destruct s as [[ups pss gss] sq]; reflexivity.
Qed.
End StepRoutes.

(* ===================================================================== *)
(** ** Completing twice *)
(* ===================================================================== *)

Lemma setIsCompleted_twice (up : PlanRow.row) :
  setIsCompleted (setIsCompleted up) = setIsCompleted up.
Proof. reflexivity. Qed.

(** X8: [complete] a second time, at whatever later time, changes
    nothing: the store is the one the first call left, so the steps keep
    the completion timestamp of the first call. *)
Theorem putComplete_twice (now now' : Z)
    (stepRejected : Tables -> Z -> StepInput.t -> bool)
    (updatedPlanFails : Tables -> Z -> bool)
    (planId userId : Z) (s : Store) :
  fst (handle now' stepRejected updatedPlanFails userId (PUT_complete planId)
         (fst (handle now stepRejected updatedPlanFails userId (PUT_complete planId) s)))
  = fst (handle now stepRejected updatedPlanFails userId (PUT_complete planId) s).
Proof.
  rewrite (putComplete_run now stepRejected updatedPlanFails planId userId s).
  destruct (checkPlanSql planId userId (tables s)) as [|p0 rest] eqn:Hq.
  - simpl fst. rewrite putComplete_run, Hq. reflexivity.
  - simpl fst. rewrite putComplete_run.
    match goal with
    | |- fst (match ?q with _ => _ end) = _ => destruct q; [reflexivity|]
    end.
    simpl fst. unfold withTables. simpl. f_equal.
    unfold updateStepsSql, completePlanSql, withPlanSteps, withUserPlans. simpl.
    f_equal.
    + rewrite map_map. apply map_ext. intros up.
      destruct (PlanRow.userPlanId up =? planId) eqn:E; simpl; rewrite E; reflexivity.
    + rewrite map_map. apply map_ext. intros ps. unfold incompleteOfPlan, ofPlan.
      destruct (StepRow.userPlanId ps =? planId) eqn:E; simpl.
      * destruct (StepRow.completed ps) eqn:Ec; simpl; rewrite E; simpl;
          [rewrite Ec|]; reflexivity.
      * rewrite E. reflexivity.
Qed.

(* ===================================================================== *)
(** ** Adding a step, then deleting or reading it *)
(* ===================================================================== *)

Section AddStep.
Variable NOW : Z.
Variable stepRejected : Tables -> Z -> StepInput.t -> bool.
Variable updatedPlanFails : Tables -> Z -> bool.

(** X9: when no step has the identity the sequence gives next,
    deleting the step that [addStep] returned restores the tables; the
    sequence stays advanced. *)
Theorem postStep_then_deleteStep (planId userId : Z) (newStep : NewStep.t)
    (s : Store) :
  checkPlanSql planId userId (tables s) <> [] ->
  (forall ps, In ps (PlanSteps (tables s)) ->
     StepRow.planStepId ps <> planStepId_seq s) ->
  exists step,
    snd (handle NOW stepRejected updatedPlanFails userId (POST_step planId newStep) s)
    = Json 201 (StepBody (Some step)) /\
    handle NOW stepRejected updatedPlanFails userId (DELETE_step planId (StepRow.planStepId step))
      (fst (handle NOW stepRejected updatedPlanFails userId (POST_step planId newStep) s))
    = ({| tables := tables s; planStepId_seq := planStepId_seq s + 1 |},
       Json 200 (MessageBody "Step deleted successfully")).
Proof.
  intros Hown Hfresh. rewrite postStep_run.
  destruct (checkPlanSql planId userId (tables s)) as [|p0 rest] eqn:Hq;
    [contradiction Hown; reflexivity|].
  exists (addedStep planId newStep s). split; [reflexivity|].
  simpl fst. rewrite deleteStep_run. simpl tables.
  change (checkPlanSql planId userId
            (withPlanSteps (tables s)
               (PlanSteps (tables s) ++ [addedStep planId newStep s])))
    with (checkPlanSql planId userId (tables s)).
  rewrite Hq.
  change (PlanSteps (withPlanSteps (tables s)
            (PlanSteps (tables s) ++ [addedStep planId newStep s])))
    with (PlanSteps (tables s) ++ [addedStep planId newStep s]).
  assert (Hold : forall ps, In ps (PlanSteps (tables s)) ->
            stepOfPlan (planStepId_seq s) planId ps = false).
  { intros ps Hps. unfold stepOfPlan. specialize (Hfresh ps Hps).
    apply Z.eqb_neq in Hfresh. rewrite Hfresh. reflexivity. }
  assert (Hnew : stepOfPlan (planStepId_seq s) planId (addedStep planId newStep s)
                 = true).
  { unfold stepOfPlan. simpl. rewrite !Z.eqb_refl. reflexivity. }
  change (StepRow.planStepId (addedStep planId newStep s)) with (planStepId_seq s).
  rewrite filter_app, (filter_none _ _ Hold). simpl. rewrite Hnew.
  unfold deleteStepSql, sqlDelete, withTables, withPlanSteps. simpl.
  rewrite filter_app. simpl. rewrite Hnew. simpl. rewrite app_nil_r.
  rewrite filter_all_In.
  - destruct s as [[ups pss gss] sq]; reflexivity.
  - intros ps Hps. rewrite (Hold ps Hps). reflexivity.
Qed.

(** X10: when [get] answers 200 for the plan, it does so after an
    [addStep] too, with the same plan and species name, and its steps
    are then the steps it had and the step that [addStep] returned, each
    once, still in ascending order of [dueDate]. *)
Theorem postStep_then_getPlan (planId userId : Z) (newStep : NewStep.t)
    (s : Store) (userPlan : PlanWithSteps.t) :
  snd (handle NOW stepRejected updatedPlanFails userId (GET_plan planId) s)
  = Json 200 (PlanBody userPlan) ->
  exists step userPlan',
    snd (handle NOW stepRejected updatedPlanFails userId (POST_step planId newStep) s)
    = Json 201 (StepBody (Some step)) /\
    snd (handle NOW stepRejected updatedPlanFails userId (GET_plan planId)
           (fst (handle NOW stepRejected updatedPlanFails userId (POST_step planId newStep) s)))
    = Json 200 (PlanBody userPlan') /\
    PlanWithSteps.plan userPlan' = PlanWithSteps.plan userPlan /\
    PlanWithSteps.grassSpeciesName userPlan'
    = PlanWithSteps.grassSpeciesName userPlan /\
    Permutation (PlanWithSteps.steps userPlan')
                (step :: PlanWithSteps.steps userPlan) /\
    Sorted (fun a b => StepRow.dueDate a <= StepRow.dueDate b)
           (PlanWithSteps.steps userPlan').
Proof.
  rewrite getPlan_run. simpl snd. intros Hget.
  destruct (planSql planId userId (tables s)) as [|[plan nm] more] eqn:Hp;
    [discriminate|].
  injection Hget as <-.
  assert (Hown : checkPlanSql planId userId (tables s) <> []).
  { intros H. rewrite (planSql_not_owned _ _ _ H) in Hp. discriminate. }
  rewrite postStep_run.
  destruct (checkPlanSql planId userId (tables s)) as [|p0 rest];
    [contradiction Hown; reflexivity|].
  exists (addedStep planId newStep s). eexists. split; [reflexivity|].
  simpl fst. rewrite getPlan_run. simpl tables.
  change (planSql planId userId
            (withPlanSteps (tables s)
               (PlanSteps (tables s) ++ [addedStep planId newStep s])))
    with (planSql planId userId (tables s)).
  rewrite Hp. simpl. split; [reflexivity|]. split; [reflexivity|].
  split; [reflexivity|]. split.
  - eapply perm_trans; [apply stepsSql_Permutation|]. simpl.
    rewrite filter_app. simpl. unfold ofPlan at 2. simpl. rewrite Z.eqb_refl.
    eapply perm_trans; [apply Permutation_sym, Permutation_cons_append|].
    apply perm_skip. apply Permutation_sym. apply stepsSql_Permutation.
  - apply stepsSql_Sorted.
Qed.
End AddStep.

(* ===================================================================== *)
(** ** The steps an update writes *)
(* ===================================================================== *)

Section UpdateSteps.
Variable NOW : Z.
Variable stepRejected : Tables -> Z -> StepInput.t -> bool.
Variable updatedPlanFails : Tables -> Z -> bool.

(** What one turn of the loop that does not throw does to the steps. *)
Lemma writeStep_effect (planId : Z) (step : StepInput.t) (c c' : Conn) :
  writeStep stepRejected planId step c = (c', inr tt) ->
  (truthy (StepInput.planStepId step) = true /\
   (exists planStepId,
      StepInput.planStepId step = Some planStepId /\
      PlanSteps (tables (store c'))
      = map (fun ps => if stepOfPlan planStepId planId ps
                       then setStep (StepInput.stepDescription step)
                              (StepInput.dueDate step) (StepInput.completed step) ps
                       else ps)
            (PlanSteps (tables (store c)))) /\
   planStepId_seq (store c') = planStepId_seq (store c))
  \/ (truthy (StepInput.planStepId step) = false /\
      (exists ps,
         PlanSteps (tables (store c')) = PlanSteps (tables (store c)) ++ [ps] /\
         StepRow.planStepId ps = planStepId_seq (store c) /\
         StepRow.userPlanId ps = planId /\
         StepRow.templateId ps = None /\
         StepRow.stepDescription ps = StepInput.stepDescription step /\
         StepRow.dueDate ps = StepInput.dueDate step /\
         StepRow.completed ps = StepInput.completed step /\
         StepRow.completedAt ps = None /\
         StepRow.stepOrder ps = None) /\
      planStepId_seq (store c') = planStepId_seq (store c) + 1).
Proof.
  unfold writeStep, execute, executeSeq. intros H.
  destruct (StepInput.planStepId step) as [planStepId|] eqn:Hid.
  - destruct (truthy (Some planStepId)) eqn:Ht;
      (destruct (stepRejected (tables (store c)) planId step); [discriminate|]);
      simpl in H; inversion H; subst; simpl.
    + left. split; [reflexivity|]. split; [|reflexivity].
      exists planStepId. split; reflexivity.
    + right. split; [reflexivity|]. split; [|reflexivity].
      eexists. split; [reflexivity|]. repeat split.
  - destruct (stepRejected (tables (store c)) planId step); [discriminate|].
    simpl in H. inversion H; subst; simpl.
    right. split; [reflexivity|]. split; [|reflexivity].
    eexists. split; [reflexivity|]. repeat split.
Qed.

(** What a loop that runs to its end does to the steps: identities are
    kept in place, the inserted steps come last with the next values of
    the sequence, and a step of another plan, or one no step of the body
    names, is as it was. *)
Lemma writeSteps_effect (planId : Z) (steps : list StepInput.t) :
  forall c c',
  writeSteps stepRejected planId steps c = (c', inr tt) ->
  map StepRow.planStepId (PlanSteps (tables (store c')))
  = map StepRow.planStepId (PlanSteps (tables (store c)))
    ++ nextValues (planStepId_seq (store c)) (List.length (insertedSteps steps)) /\
  planStepId_seq (store c')
  = planStepId_seq (store c) + Z.of_nat (List.length (insertedSteps steps)) /\
  (forall ps, In ps (PlanSteps (tables (store c))) ->
     (StepRow.userPlanId ps <> planId \/
      forall step, In step steps ->
        StepInput.planStepId step <> Some (StepRow.planStepId ps)) ->
     In ps (PlanSteps (tables (store c')))) /\
  (forall other, other <> planId ->
     filter (ofPlan other) (PlanSteps (tables (store c')))
     = filter (ofPlan other) (PlanSteps (tables (store c)))).
Proof.
  induction steps as [|step rest IH]; intros c c' H.
  - simpl in H. unfold ret in H. inversion H; subst. simpl.
    rewrite app_nil_r, Z.add_0_r. repeat split; auto.
  - simpl in H. unfold bind in H.
    destruct (writeStep stepRejected planId step c) as [c1 [e|[]]] eqn:H1;
      [discriminate|].
    destruct (IH _ _ H) as [Hids [Hseq [Hkeep Hother]]].
    destruct (writeStep_effect _ _ _ H1)
      as [[Ht [[id [Hid Hps]] Hs]] | [Ht [[ps0 [Hps [Hps0 [Hplan0 _]]]] Hs]]].
    + (* an UPDATE *)
      assert (Hins : insertedSteps (step :: rest) = insertedSteps rest).
      { unfold insertedSteps. simpl. rewrite Ht. reflexivity. }
      rewrite Hins. rewrite Hids, Hseq, Hs, Hps. split; [|split; [reflexivity|split]].
      * f_equal. rewrite map_map. apply map_ext. intros ps.
        destruct (stepOfPlan id planId ps); reflexivity.
      * intros ps Hin Hwhy. apply Hkeep.
        -- rewrite Hps. apply in_map_iff. exists ps. split; [|exact Hin].
           unfold stepOfPlan.
           destruct (StepRow.planStepId ps =? id) eqn:E1; [|reflexivity].
           destruct (StepRow.userPlanId ps =? planId) eqn:E2; [|reflexivity].
           exfalso. apply Z.eqb_eq in E1, E2. destruct Hwhy as [Hw|Hw];
             [contradiction|].
           apply (Hw step); [left; reflexivity | congruence].
        -- destruct Hwhy as [Hw|Hw]; [left; exact Hw|].
           right. intros st Hst. apply Hw. right. exact Hst.
      * intros other Hne. rewrite (Hother other Hne), Hps.
        clear - Hne. induction (PlanSteps (tables (store c))) as [|a l IHl];
          [reflexivity|].
        simpl. destruct (stepOfPlan id planId a) eqn:E.
        -- assert (Ha : ofPlan other a = false).
           { unfold stepOfPlan in E. apply andb_true_iff in E. destruct E as [_ E].
             apply Z.eqb_eq in E. unfold ofPlan. rewrite E. apply Z.eqb_neq.
             congruence. }
           change (ofPlan other (setStep (StepInput.stepDescription step)
                     (StepInput.dueDate step) (StepInput.completed step) a))
             with (ofPlan other a).
           rewrite Ha. exact IHl.
        -- destruct (ofPlan other a); [f_equal|]; exact IHl.
    + (* an INSERT *)
      assert (Hins : List.length (insertedSteps (step :: rest))
                     = S (List.length (insertedSteps rest))).
      { unfold insertedSteps. simpl. rewrite Ht. reflexivity. }
      rewrite Hins. rewrite Hids, Hseq, Hs, Hps. split; [|split; [|split]].
      * rewrite map_app, <- app_assoc. simpl. rewrite Hps0. reflexivity.
      * lia.
      * intros ps Hin Hwhy. apply Hkeep.
        -- rewrite Hps. apply in_or_app. left. exact Hin.
        -- destruct Hwhy as [Hw|Hw]; [left; exact Hw|].
           right. intros st Hst. apply Hw. right. exact Hst.
      * intros other Hne. rewrite (Hother other Hne), Hps, filter_app. simpl.
        unfold ofPlan at 2. rewrite Hplan0.
        destruct (planId =? other) eqn:E2;
          [apply Z.eqb_eq in E2; congruence | apply app_nil_r].
Qed.

(** X11: a successful update removes no step and renumbers none: the
    identities of the steps are what they were, in place, followed by
    one new identity for each step of the body without a truthy
    [planStepId], the next values of the sequence; and a step that no
    step of the body names by its identity is exactly as it was, so
    leaving a step out of the body does not delete it. *)
Theorem putPlan_keeps_unlisted_steps (planId userId : Z)
    (updatedPlan : PlanInput.t) (s : Store) (status : Z) (body : Body) :
  snd (handle NOW stepRejected updatedPlanFails userId (PUT_plan planId updatedPlan) s)
  = Json status body ->
  exists steps,
    PlanInput.steps updatedPlan = Some steps /\
    map StepRow.planStepId (PlanSteps (tables (fst
      (handle NOW stepRejected updatedPlanFails userId (PUT_plan planId updatedPlan) s))))
    = map StepRow.planStepId (PlanSteps (tables s))
      ++ nextValues (planStepId_seq s) (List.length (insertedSteps steps)) /\
    planStepId_seq (fst
      (handle NOW stepRejected updatedPlanFails userId (PUT_plan planId updatedPlan) s))
    = planStepId_seq s + Z.of_nat (List.length (insertedSteps steps)) /\
    forall ps, In ps (PlanSteps (tables s)) ->
      (forall step, In step steps ->
         StepInput.planStepId step <> Some (StepRow.planStepId ps)) ->
      In ps (PlanSteps (tables (fst
        (handle NOW stepRejected updatedPlanFails userId (PUT_plan planId updatedPlan) s)))).
Proof.
  rewrite putPlan_run.
  destruct (checkPlanSql planId userId (tables s)); [discriminate|].
  destruct (PlanInput.steps updatedPlan) as [steps|]; [|discriminate].
  destruct (writeSteps stepRejected planId steps
              (afterPlanUpdate planId userId updatedPlan s))
    as [c [e|[]]] eqn:Hw; [discriminate|].
  destruct (updatedPlanFails (tables (store c)) planId); [discriminate|].
  intros _. exists steps. split; [reflexivity|]. simpl fst.
  destruct (writeSteps_effect _ _ _ Hw) as [Hids [Hseq [Hkeep _]]].
  split; [exact Hids|]. split; [exact Hseq|].
  intros ps Hin Hno. apply Hkeep; [exact Hin | right; exact Hno].
Qed.
End UpdateSteps.

(* ===================================================================== *)
(** ** PUT /api/plans/:planId, from BEGIN to the answer *)
(* ===================================================================== *)

Lemma Sorted_map (A B : Type) (R : B -> B -> Prop) (f : A -> B) (l : list A) :
  Sorted (fun a b => R (f a) (f b)) l -> Sorted R (map f l).
Proof.
  induction 1 as [|a l Hs IH Hhd]; simpl; constructor; [exact IH|].
  destruct Hhd; simpl; constructor. assumption.
Qed.

Lemma Forall2_map_self (A : Type) (R : A -> A -> Prop) (F : A -> A) (l : list A) :
  (forall x, R x (F x)) -> Forall2 R l (map F l).
Proof.
  intros H. induction l as [|a l IH]; simpl; constructor; auto.
Qed.

Lemma ownedBy_spec (planId userId : Z) (up : PlanRow.row) :
  ownedBy planId userId up = true <->
  PlanRow.userPlanId up = planId /\ PlanRow.userId up = userId.
Proof.
  unfold ownedBy. rewrite andb_true_iff, !Z.eqb_eq. tauto.
Qed.

(** The entries of the re-read come from the steps of the plan; the one
    entry that does not is the null entry of a plan without steps. *)
Lemma finalPlan_entries (planId : Z) (t : Tables) (e : StepSummary.t) :
  In e (FinalPlan.steps (finalPlan planId t)) ->
  (exists ps, In ps (PlanSteps t) /\ StepRow.userPlanId ps = planId /\
              e = entryOf ps)
  \/ (e = nullStep /\
      forall ps, In ps (PlanSteps t) -> StepRow.userPlanId ps <> planId).
Proof.
  simpl. intros Hin. apply in_map_iff in Hin. destruct Hin as [row [<- Hrow]].
  unfold updatedPlanSql in Hrow.
  apply (Permutation_in _ (orderBy_Permutation _ _)) in Hrow.
  apply joinedRows_inv in Hrow.
  destruct Hrow as [up [gs [_ [Hkeep [_ [[-> Hnone] | [ps [Hps [Hid ->]]]]]]]]];
    apply Z.eqb_eq in Hkeep.
  - right. split; [reflexivity|]. intros ps Hps Hid.
    assert (H : In ps (filter (ofPlan (PlanRow.userPlanId up)) (PlanSteps t))).
    { apply filter_In. split; [exact Hps|]. unfold ofPlan.
      rewrite Hid, Hkeep. apply Z.eqb_refl. }
    rewrite Hnone in H. destruct H.
  - left. exists ps. split; [exact Hps|]. split; [congruence | reflexivity].
Qed.

(** A row of the join is in the re-read. *)
Lemma updatedPlanSql_In (planId : Z) (t : Tables) (up : PlanRow.row)
    (gs : SpeciesRow.row) (row : Joined.row) :
  In up (UserPlans t) -> PlanRow.userPlanId up = planId ->
  In gs (speciesOf t up) -> In row (leftJoinSteps t up gs) ->
  In row (updatedPlanSql planId t).
Proof.
  intros Hup Hid Hgs Hrow. unfold updatedPlanSql.
  apply (Permutation_in _ (Permutation_sym (orderBy_Permutation _ _))).
  unfold joinedRows. apply in_flat_map. exists up. split.
  - apply filter_In. split; [exact Hup|]. apply Z.eqb_eq. exact Hid.
  - apply in_flat_map. exists gs. split; assumption.
Qed.

(** Every step of the plan has its entry in the re-read, when a plan row
    and a species row join. *)
Lemma finalPlan_complete (planId : Z) (t : Tables) (up : PlanRow.row)
    (gs : SpeciesRow.row) (ps : StepRow.row) :
  In up (UserPlans t) -> PlanRow.userPlanId up = planId ->
  In gs (speciesOf t up) ->
  In ps (PlanSteps t) -> StepRow.userPlanId ps = planId ->
  In (entryOf ps) (FinalPlan.steps (finalPlan planId t)).
Proof.
  intros Hup Hid Hgs Hps Hplan. simpl. apply in_map_iff.
  exists (matched up gs ps). split; [reflexivity|].
  apply (@updatedPlanSql_In planId t up gs _ Hup Hid Hgs). unfold leftJoinSteps.
  assert (H : In ps (filter (ofPlan (PlanRow.userPlanId up)) (PlanSteps t))).
  { apply filter_In. split; [exact Hps|]. unfold ofPlan.
    rewrite Hplan, Hid. apply Z.eqb_refl. }
  destruct (filter (ofPlan (PlanRow.userPlanId up)) (PlanSteps t));
    [destruct H|].
  apply in_map. exact H.
Qed.

Lemma finalPlan_first_some (planId : Z) (t : Tables) (up : PlanRow.row)
    (gs : SpeciesRow.row) :
  In up (UserPlans t) -> PlanRow.userPlanId up = planId ->
  In gs (speciesOf t up) ->
  FinalPlan.first (finalPlan planId t) <> None.
Proof.
  intros Hup Hid Hgs. simpl.
  assert (H : exists row, In row (updatedPlanSql planId t)).
  { unfold leftJoinSteps.
    destruct (filter (ofPlan (PlanRow.userPlanId up)) (PlanSteps t))
      as [|ps more] eqn:Hf.
    - exists (unmatched up gs). apply (@updatedPlanSql_In planId t up gs _ Hup Hid Hgs).
      unfold leftJoinSteps. rewrite Hf. left. reflexivity.
    - exists (matched up gs ps). apply (@updatedPlanSql_In planId t up gs _ Hup Hid Hgs).
      unfold leftJoinSteps. rewrite Hf. left. reflexivity. }
  destruct H as [row H].
  destruct (updatedPlanSql planId t); [destruct H | discriminate].
Qed.

(** The first row of the re-read carries the columns of a plan row with
    the identity of the path and the name of its species. *)
Lemma finalPlan_first (planId : Z) (t : Tables) (row : Joined.row) :
  FinalPlan.first (finalPlan planId t) = Some row ->
  exists up gs,
    In up (UserPlans t) /\ PlanRow.userPlanId up = planId /\
    In gs (GrassSpecies t) /\
    SpeciesRow.grassSpeciesId gs = PlanRow.grassSpeciesId up /\
    Joined.userId row = PlanRow.userId up /\
    Joined.grassSpeciesId row = PlanRow.grassSpeciesId up /\
    Joined.planType row = PlanRow.planType up /\
    Joined.establishmentType row = PlanRow.establishmentType up /\
    Joined.isCompleted row = PlanRow.isCompleted up /\
    Joined.isArchived row = PlanRow.isArchived up /\
    Joined.createdAt row = PlanRow.createdAt up /\
    Joined.grassSpeciesName row = SpeciesRow.name gs.
Proof.
  simpl. intros H.
  assert (Hin : In row (updatedPlanSql planId t)).
  { destruct (updatedPlanSql planId t); [discriminate|].
    injection H as ->. left. reflexivity. }
  unfold updatedPlanSql in Hin.
  apply (Permutation_in _ (orderBy_Permutation _ _)) in Hin.
  apply joinedRows_inv in Hin.
  destruct Hin as [up [gs [Hup [Hkeep [Hgs Hrow]]]]].
  apply Z.eqb_eq in Hkeep. apply filter_In in Hgs. destruct Hgs as [Hgs Hsp].
  apply Z.eqb_eq in Hsp.
  exists up, gs.
  destruct Hrow as [[-> _] | [ps [_ [_ ->]]]]; simpl; repeat split; assumption.
Qed.

(** The entries of the re-read are in the order of their due dates. *)
Lemma finalPlan_Sorted (planId : Z) (t : Tables) :
  Sorted dueNoLater (FinalPlan.steps (finalPlan planId t)).
Proof.
  simpl. apply Sorted_map. unfold updatedPlanSql.
  eapply Sorted_weaken; [|apply orderBy_Sorted].
  - intros a b. unfold dueNoLater, ascNullsLast. simpl.
    destruct (Joined.dueDate a), (Joined.dueDate b); intros H;
      try exact I; try discriminate H.
    apply Z.leb_le. exact H.
  - intros a b. apply ascNullsLast_total.
Qed.

(** With one plan row of the identity of the path and one species row
    for it, the entries of the re-read are those of the steps of the
    plan, each once. *)
Lemma finalPlan_steps_keyed (planId : Z) (t : Tables) (up : PlanRow.row)
    (gs : SpeciesRow.row) :
  filter (fun up => PlanRow.userPlanId up =? planId) (UserPlans t) = [up] ->
  speciesOf t up = [gs] ->
  PlanRow.userPlanId up = planId ->
  filter (ofPlan planId) (PlanSteps t) <> [] ->
  Permutation (FinalPlan.steps (finalPlan planId t))
              (map entryOf (filter (ofPlan planId) (PlanSteps t))).
Proof.
  intros Hone Hsp Hid Hsome. simpl. unfold updatedPlanSql.
  eapply perm_trans; [apply Permutation_map, orderBy_Permutation|].
  unfold joinedRows. rewrite Hone. simpl. rewrite Hsp. simpl.
  rewrite !app_nil_r. unfold leftJoinSteps. rewrite Hid.
  destruct (filter (ofPlan planId) (PlanSteps t)) as [|ps more];
    [contradiction Hsome; reflexivity|].
  rewrite map_map. apply Permutation_refl.
Qed.

Section Update.
Variable NOW : Z.
Variable stepRejected : Tables -> Z -> StepInput.t -> bool.
Variable updatedPlanFails : Tables -> Z -> bool.

(** What one turn of the loop that does not throw does to a step of the
    table: it writes the step when [step] names it, and leaves it as it
    is otherwise. *)
Lemma writeStep_step (planId : Z) (step : StepInput.t) (c c' : Conn) :
  writeStep stepRejected planId step c = (c', inr tt) ->
  forall ps, In ps (PlanSteps (tables (store c))) ->
  (StepInput.planStepId step = Some (StepRow.planStepId ps) /\
   StepRow.planStepId ps <> 0 /\ StepRow.userPlanId ps = planId /\
   In (setStep (StepInput.stepDescription step) (StepInput.dueDate step)
               (StepInput.completed step) ps)
      (PlanSteps (tables (store c'))))
  \/ ((StepInput.planStepId step <> Some (StepRow.planStepId ps) \/
       StepRow.planStepId ps = 0 \/ StepRow.userPlanId ps <> planId) /\
      In ps (PlanSteps (tables (store c')))).
Proof.
  intros H ps Hin.
  destruct (writeStep_effect _ _ _ _ H)
    as [[Ht [[id [Hid Hps]] _]] | [Ht [[p0 [Hps _]] _]]].
  - rewrite Hid in Ht. simpl in Ht. apply negb_true_iff, Z.eqb_neq in Ht.
    destruct (stepOfPlan id planId ps) eqn:E.
    + left. unfold stepOfPlan in E. apply andb_true_iff in E.
      destruct E as [E1 E2]. apply Z.eqb_eq in E1, E2.
      split; [congruence|]. split; [congruence|]. split; [exact E2|].
      rewrite Hps. apply in_map_iff. exists ps. split; [|exact Hin].
      unfold stepOfPlan. rewrite E1, E2, !Z.eqb_refl. reflexivity.
    + right. split.
      * unfold stepOfPlan in E. apply andb_false_iff in E.
        destruct E as [E|E]; apply Z.eqb_neq in E;
          [left; congruence | right; right; exact E].
      * rewrite Hps. apply in_map_iff. exists ps. rewrite E. auto.
  - right. split.
    + destruct (StepInput.planStepId step) as [id|]; [|left; discriminate].
      simpl in Ht. apply negb_false_iff, Z.eqb_eq in Ht. subst id.
      destruct (Z.eq_dec (StepRow.planStepId ps) 0) as [E|E];
        [right; left; exact E | left; congruence].
    + rewrite Hps. apply in_or_app. left. exact Hin.
Qed.

(** What a loop that runs to its end does to a step of the table: the
    step is still there, with its identity, plan, template, completion
    timestamp and order; it carries the description, due date and flag
    of the last step of the body that names it; and it is as it was when
    none names it. *)
Lemma writeSteps_step (planId : Z) (steps : list StepInput.t) :
  forall c c',
  writeSteps stepRejected planId steps c = (c', inr tt) ->
  forall ps, In ps (PlanSteps (tables (store c))) ->
  exists ps',
    In ps' (PlanSteps (tables (store c'))) /\ sameStep ps ps' /\
    (forall l1 step l2,
       steps = l1 ++ step :: l2 ->
       StepInput.planStepId step = Some (StepRow.planStepId ps) ->
       StepRow.planStepId ps <> 0 -> StepRow.userPlanId ps = planId ->
       (forall later, In later l2 ->
          StepInput.planStepId later <> Some (StepRow.planStepId ps)) ->
       carries step ps') /\
    ((forall step, In step steps ->
        StepInput.planStepId step <> Some (StepRow.planStepId ps))
     \/ StepRow.planStepId ps = 0 \/ StepRow.userPlanId ps <> planId ->
     ps' = ps).
Proof.
  induction steps as [|x rest IH]; intros c c' H ps Hin.
  - simpl in H. unfold ret in H. inversion H; subst.
    exists ps. split; [exact Hin|]. split; [repeat split|]. split.
    + intros l1 step l2 Heq. destruct l1; discriminate Heq.
    + reflexivity.
  - simpl in H. unfold bind in H.
    destruct (writeStep stepRejected planId x c) as [c1 [e|[]]] eqn:H1;
      [discriminate|].
    destruct (writeStep_step _ _ _ H1 ps Hin)
      as [[Hname [Hnz [Hplan Hin1]]] | [Hnot Hin1]].
    + (* [x] names the step *)
      set (ps1 := setStep (StepInput.stepDescription x) (StepInput.dueDate x)
                          (StepInput.completed x) ps) in *.
      destruct (IH _ _ H ps1 Hin1) as [ps' [Hin' [Hsame [Hlast Hkeep]]]].
      exists ps'. split; [exact Hin'|]. split; [exact Hsame|]. split.
      * intros l1 step l2 Heq Hid Hnz' Hplan' Hlater.
        destruct l1 as [|y l1]; simpl in Heq; injection Heq as -> ->.
        -- rewrite (Hkeep (or_introl Hlater)). repeat split.
        -- apply (Hlast l1 step l2 eq_refl); assumption.
      * intros [Hnone | [Hz | Hother]]; exfalso.
        -- apply (Hnone x); [left; reflexivity | exact Hname].
        -- contradiction.
        -- contradiction.
    + (* [x] leaves the step as it is *)
      destruct (IH _ _ H ps Hin1) as [ps' [Hin' [Hsame [Hlast Hkeep]]]].
      exists ps'. split; [exact Hin'|]. split; [exact Hsame|]. split.
      * intros l1 step l2 Heq Hid Hnz' Hplan' Hlater.
        destruct l1 as [|y l1]; simpl in Heq; injection Heq as -> ->.
        -- exfalso. destruct Hnot as [Hn | [Hn | Hn]]; contradiction.
        -- apply (Hlast l1 step l2 eq_refl); assumption.
      * intros [Hnone | Hwhy].
        -- apply Hkeep. left. intros step Hstep. apply Hnone. right. exact Hstep.
        -- apply Hkeep. right. exact Hwhy.
Qed.

(** What a loop that runs to its end does for a step of the body without
    a truthy [planStepId]: there is a step of the plan with the identity
    the sequence gave, no template, no completion timestamp and no
    order; it carries the description, due date and flag of the step of
    the body unless a later step of the body names that identity. *)
Lemma writeSteps_inserted (planId : Z) (steps : list StepInput.t) :
  forall c c',
  writeSteps stepRejected planId steps c = (c', inr tt) ->
  forall l1 step l2,
    steps = l1 ++ step :: l2 ->
    truthy (StepInput.planStepId step) = false ->
    exists ps',
      In ps' (PlanSteps (tables (store c'))) /\
      StepRow.planStepId ps'
      = planStepId_seq (store c) + Z.of_nat (List.length (insertedSteps l1)) /\
      insertedFor planId ps' /\
      ((forall later, In later l2 ->
          StepInput.planStepId later <> Some (StepRow.planStepId ps')) ->
       carries step ps').
Proof.
  induction steps as [|x rest IH]; intros c c' H l1 step l2 Heq Ht.
  - destruct l1; discriminate Heq.
  - simpl in H. unfold bind in H.
    destruct (writeStep stepRejected planId x c) as [c1 [e|[]]] eqn:H1;
      [discriminate|].
    destruct l1 as [|y l1]; simpl in Heq; injection Heq as -> ->.
    + (* the turn that inserts it *)
      destruct (writeStep_effect _ _ _ _ H1)
        as [[Ht' _] | [_ [[p0 [Hps [Hid [Hplan [Htpl [Hd [Hdue [Hc [Hat Hord]]]]]]]]] _]]];
        [congruence|].
      assert (Hin0 : In p0 (PlanSteps (tables (store c1)))).
      { rewrite Hps. apply in_or_app. right. left. reflexivity. }
      destruct (@writeSteps_step planId l2 c1 c' H p0 Hin0)
        as [ps' [Hin' [[S1 [S2 [S3 [S4 S5]]]] [_ Hkeep]]]].
      exists ps'. split; [exact Hin'|]. split.
      * simpl. rewrite S1, Hid. lia.
      * split; [repeat split; congruence|].
        intros Hlater. rewrite Hkeep; [repeat split; assumption|].
        left. intros later Hl. rewrite <- S1. apply Hlater. exact Hl.
    + (* an earlier turn *)
      destruct (IH _ _ H l1 step l2 eq_refl Ht) as [ps' [Hin' [Hid' [Hins Hc]]]].
      exists ps'. split; [exact Hin'|]. split; [|split; assumption].
      rewrite Hid'.
      destruct (writeStep_effect _ _ _ _ H1)
        as [[Ht' [_ Hs]] | [Ht' [_ Hs]]]; rewrite Hs;
        unfold insertedSteps; simpl; rewrite Ht'; simpl.
      * reflexivity.
      * fold (insertedSteps l1). lia.
Qed.

Lemma insertedSteps_app (l1 l2 : list StepInput.t) :
  insertedSteps (l1 ++ l2) = insertedSteps l1 ++ insertedSteps l2.
Proof. apply filter_app. Qed.

(** C3, as the code has it.  [update] answers NotFound and changes
    nothing when its plan statement writes no row.  A body without
    steps, or a step the store rejects, makes it fail with the tables
    as they were.  Whenever it fails the tables are what they were,
    unless what failed is the re-read: the re-read runs after COMMIT, so
    the store is then the one a successful update leaves, and the caller
    gets an error.  When no step is rejected and the re-read is answered
    it succeeds.  On success the plan rows of the user with the identity
    of the path carry the scalar fields of the body, the others are as
    they were; a step of the plan that the body names carries the
    description, due date and flag of the last step of the body that
    names it, its other columns kept; a step the body does not name, or
    of another plan, is as it was; each step of the body without a
    truthy [planStepId] has given the plan a new step without template;
    and the answer carries the scalar fields of the plan row and the
    name of its species, and one entry for each step of the plan, in the
    order of the due dates. *)
Theorem putPlan_all_or_nothing_until_commit (planId userId : Z)
    (updatedPlan : PlanInput.t) (s s' : Store) (response : Response) :
  handle NOW stepRejected updatedPlanFails userId (PUT_plan planId updatedPlan) s
  = (s', response) ->
  (* NotFound *)
  (checkPlanSql planId userId (tables s) = [] ->
   s' = s /\ response = Next (ClientError 404 "Plan not found")) /\
  (* a failure before COMMIT rolls back *)
  (checkPlanSql planId userId (tables s) <> [] ->
   (PlanInput.steps updatedPlan = None \/
    exists steps step, PlanInput.steps updatedPlan = Some steps /\
      In step steps /\ forall t, stepRejected t planId step = true) ->
   (exists err, response = Next err) /\ tables s' = tables s) /\
  (forall err, response = Next err ->
   tables s' = tables s
   \/ (err = StoreError /\ updatedPlanFails (tables s') planId = true)) /\
  (* the re-read runs after COMMIT *)
  (fst (handle NOW stepRejected (fun _ _ => false) userId
          (PUT_plan planId updatedPlan) s) = s' /\
   forall status body,
     snd (handle NOW stepRejected (fun _ _ => false) userId
            (PUT_plan planId updatedPlan) s) = Json status body ->
     updatedPlanFails (tables s') planId = true ->
     response = Next StoreError) /\
  (* success *)
  (checkPlanSql planId userId (tables s) <> [] ->
   (exists steps, PlanInput.steps updatedPlan = Some steps /\
      forall t step, In step steps -> stepRejected t planId step = false) ->
   updatedPlanFails (tables s') planId = false ->
   exists body, response = Json 200 body) /\
  (forall status body,
   response = Json status body ->
   status = 200 /\
   exists steps finalPlan,
     PlanInput.steps updatedPlan = Some steps /\
     body = FinalPlanBody finalPlan /\
     (* the plan *)
     Forall2 (fun up up' =>
                (PlanRow.userPlanId up = planId /\ PlanRow.userId up = userId ->
                 planWithBody updatedPlan up up') /\
                (~ (PlanRow.userPlanId up = planId /\ PlanRow.userId up = userId) ->
                 up' = up))
             (UserPlans (tables s)) (UserPlans (tables s')) /\
     (* the steps the body names *)
     (forall ps l1 step l2,
        In ps (PlanSteps (tables s)) -> StepRow.userPlanId ps = planId ->
        steps = l1 ++ step :: l2 ->
        StepInput.planStepId step = Some (StepRow.planStepId ps) ->
        StepRow.planStepId ps <> 0 ->
        (forall later, In later l2 ->
           StepInput.planStepId later <> Some (StepRow.planStepId ps)) ->
        exists ps',
          In ps' (PlanSteps (tables s')) /\ sameStep ps ps' /\ carries step ps') /\
     (* the steps it does not name *)
     (forall ps,
        In ps (PlanSteps (tables s)) ->
        (StepRow.userPlanId ps <> planId \/
         forall step, In step steps ->
           StepInput.planStepId step <> Some (StepRow.planStepId ps)) ->
        In ps (PlanSteps (tables s'))) /\
     (* the steps it adds *)
     (forall l1 step l2,
        steps = l1 ++ step :: l2 ->
        (StepInput.planStepId step = None \/ StepInput.planStepId step = Some 0) ->
        exists ps',
          In ps' (PlanSteps (tables s')) /\
          planStepId_seq s <= StepRow.planStepId ps' < planStepId_seq s' /\
          insertedFor planId ps' /\
          ((forall later, In later l2 ->
              StepInput.planStepId later <> Some (StepRow.planStepId ps')) ->
           carries step ps')) /\
     (* the answer: the plan *)
     (forall row,
        FinalPlan.first finalPlan = Some row ->
        exists up gs,
          In up (UserPlans (tables s)) /\ PlanRow.userPlanId up = planId /\
          In gs (GrassSpecies (tables s)) /\
          SpeciesRow.grassSpeciesId gs = Joined.grassSpeciesId row /\
          Joined.grassSpeciesName row = SpeciesRow.name gs /\
          Joined.userId row = PlanRow.userId up /\
          Joined.createdAt row = PlanRow.createdAt up /\
          (PlanRow.userId up = userId ->
           Joined.grassSpeciesId row = PlanInput.grassSpeciesId updatedPlan /\
           Joined.planType row = PlanInput.planType updatedPlan /\
           Joined.establishmentType row = PlanInput.establishmentType updatedPlan /\
           Joined.isCompleted row = orFalse (PlanInput.isCompleted updatedPlan) /\
           Joined.isArchived row = orFalse (PlanInput.isArchived updatedPlan))) /\
     (* the answer: the steps *)
     (forall e,
        In e (FinalPlan.steps finalPlan) ->
        (exists ps, In ps (PlanSteps (tables s')) /\
                    StepRow.userPlanId ps = planId /\ e = entryOf ps)
        \/ (e = nullStep /\
            forall ps, In ps (PlanSteps (tables s')) ->
                       StepRow.userPlanId ps <> planId)) /\
     Sorted dueNoLater (FinalPlan.steps finalPlan) /\
     (In (PlanInput.grassSpeciesId updatedPlan)
         (map SpeciesRow.grassSpeciesId (GrassSpecies (tables s))) ->
      FinalPlan.first finalPlan <> None /\
      (forall ps, In ps (PlanSteps (tables s')) -> StepRow.userPlanId ps = planId ->
                  In (entryOf ps) (FinalPlan.steps finalPlan)) /\
      (NoDup (map PlanRow.userPlanId (UserPlans (tables s))) ->
       NoDup (map SpeciesRow.grassSpeciesId (GrassSpecies (tables s))) ->
       filter (ofPlan planId) (PlanSteps (tables s')) <> [] ->
       Permutation (FinalPlan.steps finalPlan)
                   (map entryOf (filter (ofPlan planId) (PlanSteps (tables s'))))))).
Proof.
  intros Hrun.
  pose proof (putPlan_run NOW stepRejected (fun _ _ => false) planId userId
                updatedPlan s) as Hrun0.
  rewrite putPlan_run in Hrun.
  destruct (checkPlanSql planId userId (tables s)) as [|p0 more] eqn:Hq.
  { (* no row of the user *)
    injection Hrun as <- <-. rewrite Hrun0.
    split; [intros _; split; reflexivity|].
    split; [intros H; contradiction H; reflexivity|].
    split; [intros err _; left; reflexivity|].
    split; [split; [reflexivity | intros status body H; discriminate H]|].
    split; [intros H; contradiction H; reflexivity|].
    intros status body H. discriminate H. }
  split; [discriminate|].
  destruct (PlanInput.steps updatedPlan) as [steps|] eqn:Hsteps.
  2:{ (* a body without steps *)
      injection Hrun as <- <-. rewrite Hrun0.
      split; [intros _ _; split; [eexists|]; reflexivity|].
      split; [intros err _; left; reflexivity|].
      split; [split; [reflexivity | intros status body H; discriminate H]|].
      split; [intros _ [steps [H _]]; discriminate H|].
      intros status body H. discriminate H. }
  destruct (writeSteps stepRejected planId steps
              (afterPlanUpdate planId userId updatedPlan s))
    as [c [e|[]]] eqn:Hw.
  { (* a step is rejected *)
    injection Hrun as <- <-. rewrite Hrun0.
    split; [intros _ _; split; [eexists|]; reflexivity|].
    split; [intros err _; left; reflexivity|].
    split; [split; [reflexivity | intros status body H; discriminate H]|].
    split; [|intros status body H; discriminate H].
    intros _ [steps' [Heq Hacc]]. injection Heq as <-.
    destruct (@writeSteps_accepted stepRejected planId steps Hacc
                (afterPlanUpdate planId userId updatedPlan s)) as [c' Hc'].
    rewrite Hc' in Hw. discriminate Hw. }
  (* the loop ran to its end and the transaction is committed *)
  assert (Hstore : s' = store c).
  { destruct (updatedPlanFails (tables (store c)) planId);
      injection Hrun as <- _; reflexivity. }
  subst s'. simpl in Hrun0.
  split.
  { intros _ [Hnone | [steps' [step [Heq [Hin Hrej]]]]]; [discriminate Hnone|].
    injection Heq as <-.
    destruct (@writeSteps_rejected stepRejected planId steps step Hin Hrej
                (afterPlanUpdate planId userId updatedPlan s)) as [c' Hc'].
    rewrite Hc' in Hw. discriminate Hw. }
  split.
  { intros err Herr. right.
    destruct (updatedPlanFails (tables (store c)) planId);
      injection Hrun as <-; [|discriminate Herr].
    injection Herr as <-. split; reflexivity. }
  split.
  { rewrite Hrun0. split; [reflexivity|]. intros status body _ Hfails.
    rewrite Hfails in Hrun. injection Hrun as <-. reflexivity. }
  split.
  { intros _ _ Hanswers. rewrite Hanswers in Hrun. injection Hrun as <-.
    eexists. reflexivity. }
  intros status body Hok.
  destruct (updatedPlanFails (tables (store c)) planId);
    injection Hrun as <-; [discriminate Hok|].
  injection Hok as <- <-. split; [reflexivity|].
  exists steps, (finalPlan planId (tables (store c))).
  split; [reflexivity|]. split; [reflexivity|].
  pose proof (@writeSteps_frame stepRejected planId steps _ _ _ Hw) as [_ [Hu [Hg _]]].
  pose proof (@writeSteps_effect stepRejected planId steps _ _ Hw) as [_ [Hseq _]].
  simpl in Hu, Hg, Hseq.
  set (F := fun up => if ownedBy planId userId up
                      then setPlan (PlanInput.grassSpeciesId updatedPlan)
                             (PlanInput.planType updatedPlan)
                             (orFalse (PlanInput.isCompleted updatedPlan))
                             (orFalse (PlanInput.isArchived updatedPlan))
                             (PlanInput.establishmentType updatedPlan) up
                      else up) in *.
  assert (HFown : forall up, PlanRow.userPlanId (F up) = PlanRow.userPlanId up /\
                             PlanRow.userId (F up) = PlanRow.userId up /\
                             PlanRow.createdAt (F up) = PlanRow.createdAt up).
  { intros up. unfold F. destruct (ownedBy planId userId up); repeat split. }
  assert (HFbody : forall up, PlanRow.userPlanId up = planId ->
                     PlanRow.userId up = userId -> planWithBody updatedPlan up (F up)).
  { intros up H1 H2. unfold F.
    rewrite (proj2 (ownedBy_spec planId userId up) (conj H1 H2)). repeat split. }
  (* the plan row of the user *)
  assert (Hp0 : In p0 (UserPlans (tables s)) /\
                PlanRow.userPlanId p0 = planId /\ PlanRow.userId p0 = userId).
  { assert (H : In p0 (checkPlanSql planId userId (tables s)))
      by (rewrite Hq; left; reflexivity).
    apply filter_In in H. destruct H as [H Hown].
    apply ownedBy_spec in Hown. tauto. }
  destruct Hp0 as [Hp0 [Hid0 Huid0]].
  split.
  { (* the plan *)
    rewrite Hu. apply Forall2_map_self. intros up. split.
    - intros [H1 H2]. apply HFbody; assumption.
    - intros Hnot. unfold F. destruct (ownedBy planId userId up) eqn:E;
        [|reflexivity].
      apply ownedBy_spec in E. contradiction. }
  split.
  { (* the steps the body names *)
    intros ps l1 step l2 Hin Hplan Heq Hname Hnz Hlater.
    destruct (@writeSteps_step planId steps _ _ Hw ps Hin)
      as [ps' [Hin' [Hsame [Hlast _]]]].
    exists ps'. split; [exact Hin'|]. split; [exact Hsame|].
    apply (Hlast l1 step l2); assumption. }
  split.
  { (* the steps it does not name *)
    intros ps Hin Hwhy.
    destruct (@writeSteps_step planId steps _ _ Hw ps Hin) as [ps' [Hin' [_ [_ Hkeep]]]].
    rewrite <- (Hkeep ltac:(tauto)). exact Hin'. }
  split.
  { (* the steps it adds *)
    intros l1 step l2 Heq Hfalsy.
    assert (Ht : truthy (StepInput.planStepId step) = false)
      by (destruct Hfalsy as [-> | ->]; reflexivity).
    destruct (@writeSteps_inserted planId steps _ _ Hw l1 step l2 Heq Ht)
      as [ps' [Hin' [Hid' [Hins Hc]]]].
    exists ps'. split; [exact Hin'|]. split; [|split; assumption].
    assert (Hlen : List.length (insertedSteps (step :: l2))
                   = S (List.length (insertedSteps l2))).
    { unfold insertedSteps. simpl. rewrite Ht. reflexivity. }
    simpl in Hid'. rewrite Hid', Hseq, Heq, insertedSteps_app, length_app, Hlen.
    lia. }
  split.
  { (* the answer: the plan *)
    intros row Hrow. apply finalPlan_first in Hrow.
    destruct Hrow as [up' [gs [Hup' [Hid [Hgs [Hsp [R1 [R2 [R3 [R4 [R5 [R6 [R7 R8]]]]]]]]]]]]].
    rewrite Hu in Hup'. apply in_map_iff in Hup'. destruct Hup' as [up [<- Hup]].
    destruct (HFown up) as [K1 [K2 K3]].
    exists up, gs. rewrite Hg in Hgs.
    split; [exact Hup|]. split; [congruence|]. split; [exact Hgs|].
    split; [congruence|]. split; [exact R8|]. split; [congruence|].
    split; [congruence|].
    intros Hmine.
    destruct (HFbody up ltac:(congruence) Hmine)
      as [_ [_ [_ [_ [B1 [B2 [B3 [B4 B5]]]]]]]].
    repeat split; congruence. }
  split; [intros e; apply finalPlan_entries|].
  split; [apply finalPlan_Sorted|].
  intros Hspecies.
  apply in_map_iff in Hspecies. destruct Hspecies as [gs [Hgsid Hgsin]].
  assert (HinF : In (F p0) (UserPlans (tables (store c))))
    by (rewrite Hu; apply in_map; exact Hp0).
  assert (HidF : PlanRow.userPlanId (F p0) = planId)
    by (destruct (HFown p0) as [K _]; congruence).
  assert (HspF : PlanRow.grassSpeciesId (F p0) = PlanInput.grassSpeciesId updatedPlan).
  { destruct (HFbody p0 Hid0 Huid0) as [_ [_ [_ [_ [B _]]]]]. exact B. }
  assert (Hgs : In gs (speciesOf (tables (store c)) (F p0))).
  { unfold speciesOf. rewrite Hg. apply filter_In. split; [exact Hgsin|].
    apply Z.eqb_eq. congruence. }
  split; [exact (@finalPlan_first_some planId _ (F p0) gs HinF HidF Hgs)|].
  split.
  { intros ps Hin Hplan.
    exact (@finalPlan_complete planId _ (F p0) gs ps HinF HidF Hgs Hin Hplan). }
  intros Hplans Hkeys Hsome.
  apply (@finalPlan_steps_keyed planId (tables (store c)) (F p0) gs);
    try assumption.
  - rewrite Hu. apply (@filter_unique _ PlanRow.userPlanId).
    + rewrite map_map. erewrite map_ext; [exact Hplans|].
      intros a. destruct (HFown a) as [K _]. exact K.
    + apply in_map. exact Hp0.
    + apply Z.eqb_eq. exact HidF.
    + intros y _ Hy. apply Z.eqb_eq in Hy. congruence.
  - unfold speciesOf. rewrite Hg.
    apply (@filter_unique _ SpeciesRow.grassSpeciesId); try assumption.
    + apply Z.eqb_eq. congruence.
    + intros y _ Hy. apply Z.eqb_eq in Hy. congruence.
Qed.
End Update.

(* ===================================================================== *)
(** ** What a request leaves alone *)
(* ===================================================================== *)

Lemma filter_map_frame (A : Type) (f : A -> bool) (F : A -> A) (l : list A) :
  (forall x, f (F x) = f x) -> (forall x, f x = true -> F x = x) ->
  filter f (map F l) = filter f l.
Proof.
  intros Hf HF. induction l as [|a l IH]; simpl; [reflexivity|].
  rewrite Hf. destruct (f a) eqn:E; [rewrite (HF a E), IH | rewrite IH]; reflexivity.
Qed.

Lemma filter_map_frame_In (A : Type) (f : A -> bool) (F : A -> A) (l : list A) :
  (forall x, f (F x) = f x) -> (forall x, In x l -> f x = true -> F x = x) ->
  filter f (map F l) = filter f l.
Proof.
  intros Hf. induction l as [|a l IH]; simpl; intros HF; [reflexivity|].
  rewrite Hf, IH by (intros x Hx; apply HF; right; exact Hx).
  destruct (f a) eqn:E; [rewrite (HF a (or_introl eq_refl) E)|]; reflexivity.
Qed.

Lemma filter_filter_frame (A : Type) (f g : A -> bool) (l : list A) :
  (forall x, f x = true -> g x = true) ->
  filter f (filter g l) = filter f l.
Proof.
  intros H. induction l as [|a l IH]; simpl; [reflexivity|].
  destruct (g a) eqn:Eg; simpl.
  - rewrite IH. reflexivity.
  - destruct (f a) eqn:Ef; [rewrite (H a Ef) in Eg; discriminate | exact IH].
Qed.

Lemma ofPlan_other (planId other : Z) (ps : StepRow.row) :
  other <> planId -> ofPlan other ps = true -> ofPlan planId ps = false.
Proof.
  unfold ofPlan. intros Hne H. apply Z.eqb_eq in H. apply Z.eqb_neq. congruence.
Qed.

Section Frame.
Variable NOW : Z.
Variable stepRejected : Tables -> Z -> StepInput.t -> bool.
Variable updatedPlanFails : Tables -> Z -> bool.

(** The steps after PUT /api/plans/:planId: those of the tables of the
    start when it fails, those the loop left when it succeeds. *)
Lemma putPlan_other_steps (planId userId : Z) (updatedPlan : PlanInput.t)
    (s : Store) (other : Z) :
  other <> planId ->
  filter (ofPlan other) (PlanSteps (tables (fst
    (handle NOW stepRejected updatedPlanFails userId (PUT_plan planId updatedPlan) s))))
  = filter (ofPlan other) (PlanSteps (tables s)).
Proof.
  intros Hne. rewrite putPlan_run.
  destruct (checkPlanSql planId userId (tables s)); [reflexivity|].
  destruct (PlanInput.steps updatedPlan) as [steps|]; [|reflexivity].
  destruct (writeSteps stepRejected planId steps
              (afterPlanUpdate planId userId updatedPlan s))
    as [c [e|[]]] eqn:Hw; [reflexivity|].
  destruct (writeSteps_effect _ _ _ _ Hw) as [_ [_ [_ Hother]]].
  destruct (updatedPlanFails (tables (store c)) planId); simpl fst;
    rewrite (Hother other Hne); reflexivity.
Qed.

(** X12: a request about a plan leaves the steps of every other plan as
    they were, whatever its body names; and a request of a user leaves
    the steps of a plan that no plan row gives to that user as they
    were. *)
Theorem request_leaves_other_steps (user : Z) (r : Request) (s : Store)
    (other : Z) :
  (targetPlan r <> Some other ->
   filter (ofPlan other) (PlanSteps (tables (fst (handle NOW stepRejected updatedPlanFails user r s))))
   = filter (ofPlan other) (PlanSteps (tables s))) /\
  (checkPlanSql other user (tables s) = [] ->
   filter (ofPlan other) (PlanSteps (tables (fst (handle NOW stepRejected updatedPlanFails user r s))))
   = filter (ofPlan other) (PlanSteps (tables s))).
Proof.
  assert (Hframe : targetPlan r <> Some other ->
            filter (ofPlan other)
              (PlanSteps (tables (fst (handle NOW stepRejected updatedPlanFails user r s))))
            = filter (ofPlan other) (PlanSteps (tables s))).
  { intros Ht. destruct r; simpl in Ht.
    - rewrite getPlan_run. reflexivity.
    - apply putPlan_other_steps. congruence.
    - rewrite getUserPlans_run. reflexivity.
    - assert (Hne : other <> planId) by congruence.
      destruct (putStep_PlanSteps NOW stepRejected updatedPlanFails planId stepId user completed
                  completedAt s) as [-> | ->]; [reflexivity|].
      apply filter_map_frame.
      + intros x. destruct (stepOfPlan stepId planId x); reflexivity.
      + intros x Hx. unfold stepOfPlan.
        rewrite (@ofPlan_other planId other x Hne Hx : (StepRow.userPlanId x =? planId) = false).
        rewrite andb_false_r. reflexivity.
    - assert (Hne : other <> planId) by congruence.
      destruct (putComplete_PlanSteps NOW stepRejected updatedPlanFails planId user s) as [-> | ->];
        [reflexivity|].
      apply filter_map_frame.
      + intros x. destruct (incompleteOfPlan planId x); reflexivity.
      + intros x Hx. unfold incompleteOfPlan.
        rewrite (@ofPlan_other planId other x Hne Hx). reflexivity.
    - assert (Hne : other <> planId) by congruence.
      rewrite deletePlan_run.
      destruct (checkPlanSql planId user (tables s)); [reflexivity|].
      simpl. apply filter_filter_frame. intros x Hx.
      rewrite (@ofPlan_other planId other x Hne Hx). reflexivity.
    - assert (Hne : other <> planId) by congruence.
      rewrite postStep_run.
      destruct (checkPlanSql planId user (tables s)); [reflexivity|].
      simpl. rewrite filter_app. simpl. unfold ofPlan at 2. simpl.
      destruct (planId =? other) eqn:E;
        [apply Z.eqb_eq in E; congruence | apply app_nil_r].
    - assert (Hne : other <> planId) by congruence.
      rewrite deleteStep_run.
      destruct (checkPlanSql planId user (tables s)); [reflexivity|].
      destruct (filter (stepOfPlan stepId planId) (PlanSteps (tables s)));
        [reflexivity|].
      simpl. apply filter_filter_frame. intros x Hx. unfold stepOfPlan.
      rewrite (@ofPlan_other planId other x Hne Hx : (StepRow.userPlanId x =? planId) = false).
      rewrite andb_false_r. reflexivity.
    - rewrite postUserPlan_run. reflexivity. }
  split; [exact Hframe|].
  intros Hnot.
  destruct (targetPlan r) as [planId|] eqn:Ht.
  - destruct (Z.eq_dec planId other) as [->|Hne].
    + rewrite (@not_owned_run NOW stepRejected updatedPlanFails user r other s Ht Hnot). reflexivity.
    + apply Hframe. congruence.
  - apply Hframe. discriminate.
Qed.

(** X13: when [userPlanId] is a key of [UserPlans], no request of a
    user changes, removes or adds a plan row of another user. *)
Theorem request_leaves_other_users_plans (user : Z) (r : Request) (s : Store) :
  NoDup (map PlanRow.userPlanId (UserPlans (tables s))) ->
  filter (fun up => negb (PlanRow.userId up =? user))
         (UserPlans (tables (fst (handle NOW stepRejected updatedPlanFails user r s))))
  = filter (fun up => negb (PlanRow.userId up =? user)) (UserPlans (tables s)).
Proof.
  intros Hkey.
  assert (Hmine : forall planId x, ownedBy planId user x = true ->
            negb (PlanRow.userId x =? user) = false).
  { intros planId x Hx. unfold ownedBy in Hx. apply andb_true_iff in Hx.
    destruct Hx as [_ Hx]. rewrite Hx. reflexivity. }
  destruct r.
  - rewrite getPlan_run. reflexivity.
  - destruct (putPlan_UserPlans NOW stepRejected updatedPlanFails planId user updatedPlan s)
      as [[_ ->] | [_ [_ [_ ->]]]]; [reflexivity|].
    apply filter_map_frame.
    + intros x. destruct (ownedBy planId user x); reflexivity.
    + intros x Hx. destruct (ownedBy planId user x) eqn:E; [|reflexivity].
      rewrite (Hmine planId x E) in Hx. discriminate.
  - rewrite getUserPlans_run. reflexivity.
  - rewrite putStep_run.
    destruct (checkPlanSql planId user (tables s)); [reflexivity|].
    destruct (filter (stepOfPlan stepId planId) (PlanSteps (tables s))); reflexivity.
  - rewrite putComplete_run.
    destruct (checkPlanSql planId user (tables s)) as [|p0 rest] eqn:Hq;
      [reflexivity|].
    assert (Hp0 : In p0 (UserPlans (tables s)) /\ ownedBy planId user p0 = true).
    { assert (H : In p0 (checkPlanSql planId user (tables s)))
        by (rewrite Hq; left; reflexivity).
      apply filter_In in H. exact H. }
    destruct Hp0 as [Hp0 Hown0].
    simpl. apply filter_map_frame_In.
    + intros x. destruct (PlanRow.userPlanId x =? planId); reflexivity.
    + intros x Hin Hx. destruct (PlanRow.userPlanId x =? planId) eqn:E; [|reflexivity].
      assert (x = p0).
      { apply (@NoDup_map_eq _ PlanRow.userPlanId (UserPlans (tables s)));
          try assumption.
        apply Z.eqb_eq in E. unfold ownedBy in Hown0.
        apply andb_true_iff in Hown0. destruct Hown0 as [H0 _].
        apply Z.eqb_eq in H0. congruence. }
      subst x. rewrite (Hmine planId p0 Hown0) in Hx. discriminate.
  - rewrite deletePlan_run.
    destruct (checkPlanSql planId user (tables s)); [reflexivity|].
    simpl. apply filter_filter_frame. intros x Hx.
    destruct (ownedBy planId user x) eqn:E; [|reflexivity].
    rewrite (Hmine planId x E) in Hx. discriminate.
  - rewrite postStep_run.
    destruct (checkPlanSql planId user (tables s)); reflexivity.
  - rewrite deleteStep_run.
    destruct (checkPlanSql planId user (tables s)); [reflexivity|].
    destruct (filter (stepOfPlan stepId planId) (PlanSteps (tables s))); reflexivity.
  - rewrite postUserPlan_run. reflexivity.
Qed.
End Frame.

(* ===================================================================== *)
(** ** Plans: what is written, what is never written *)
(* ===================================================================== *)

Section PlanRoutes.
Variable NOW : Z.
Variable stepRejected : Tables -> Z -> StepInput.t -> bool.
Variable updatedPlanFails : Tables -> Z -> bool.

(** X14: after a successful update, what [get] returns for the plan
    carries the scalar fields of the body, the flags as
    [isCompleted || false] and [isArchived || false], and the identity,
    the owner and the creation time of a plan row of before; [get]
    succeeds when the species of the body exists. *)
Theorem putPlan_then_getPlan (planId userId : Z) (updatedPlan : PlanInput.t)
    (s : Store) (status : Z) (body : Body) :
  snd (handle NOW stepRejected updatedPlanFails userId (PUT_plan planId updatedPlan) s)
  = Json status body ->
  (forall st userPlan,
     snd (handle NOW stepRejected updatedPlanFails userId (GET_plan planId)
            (fst (handle NOW stepRejected updatedPlanFails userId (PUT_plan planId updatedPlan) s)))
     = Json st (PlanBody userPlan) ->
     exists up,
       In up (UserPlans (tables s)) /\ ownedBy planId userId up = true /\
       PlanWithSteps.plan userPlan
       = setPlan (PlanInput.grassSpeciesId updatedPlan)
           (PlanInput.planType updatedPlan)
           (orFalse (PlanInput.isCompleted updatedPlan))
           (orFalse (PlanInput.isArchived updatedPlan))
           (PlanInput.establishmentType updatedPlan) up) /\
  (In (PlanInput.grassSpeciesId updatedPlan)
      (map SpeciesRow.grassSpeciesId (GrassSpecies (tables s))) ->
   exists userPlan,
     snd (handle NOW stepRejected updatedPlanFails userId (GET_plan planId)
            (fst (handle NOW stepRejected updatedPlanFails userId (PUT_plan planId updatedPlan) s)))
     = Json 200 (PlanBody userPlan)).
Proof.
  intros Hok.
  destruct (putPlan_UserPlans NOW stepRejected updatedPlanFails planId userId updatedPlan s)
    as [[[err Herr] _] | [_ [Hown [Hg Hu]]]]; [congruence|].
  set (s' := fst (handle NOW stepRejected updatedPlanFails userId (PUT_plan planId updatedPlan) s)) in *.
  rewrite getPlan_run. simpl snd. split.
  - intros st userPlan Hget.
    destruct (planSql planId userId (tables s')) as [|[plan nm] more] eqn:Hp;
      [discriminate|].
    injection Hget as _ <-. simpl.
    assert (Hin : In (plan, nm) (planSql planId userId (tables s')))
      by (rewrite Hp; left; reflexivity).
    apply planSql_In in Hin. destruct Hin as [Hin [Ho _]].
    rewrite Hu in Hin. apply in_map_iff in Hin. destruct Hin as [up [Hup Hin]].
    exists up. destruct (ownedBy planId userId up) eqn:E.
    + repeat split; [exact Hin | symmetry; exact Hup].
    + subst plan. congruence.
  - intros Hgs. apply in_map_iff in Hgs. destruct Hgs as [gs [Hgsid Hgsin]].
    destruct (checkPlanSql planId userId (tables s)) as [|p0 rest] eqn:Hq;
      [contradiction Hown; reflexivity|].
    assert (Hp0 : In p0 (UserPlans (tables s)) /\ ownedBy planId userId p0 = true).
    { assert (H : In p0 (checkPlanSql planId userId (tables s)))
        by (rewrite Hq; left; reflexivity).
      apply filter_In in H. exact H. }
    destruct Hp0 as [Hp0 Hown0].
    assert (Hrow : In (setPlan (PlanInput.grassSpeciesId updatedPlan)
                         (PlanInput.planType updatedPlan)
                         (orFalse (PlanInput.isCompleted updatedPlan))
                         (orFalse (PlanInput.isArchived updatedPlan))
                         (PlanInput.establishmentType updatedPlan) p0,
                       SpeciesRow.name gs)
                      (planSql planId userId (tables s'))).
    { unfold planSql. apply in_flat_map. eexists. split.
      - apply filter_In. split.
        + rewrite Hu. apply in_map_iff. exists p0. rewrite Hown0.
          split; [reflexivity | exact Hp0].
        + exact Hown0.
      - apply in_map_iff. exists gs. split; [reflexivity|].
        unfold speciesOf. apply filter_In. rewrite Hg. split; [exact Hgsin|].
        simpl. rewrite Hgsid. apply Z.eqb_refl. }
    destruct (planSql planId userId (tables s')) as [|[plan nm] more];
      [destruct Hrow|].
    eexists. reflexivity.
Qed.

(** X15: [saveExisting] never changes the store.  It answers 403 when
    the user of the path is not the authenticated one, whatever the
    plan; otherwise 200 when a plan row gives the plan to the user, and
    404 when none does. *)
Theorem postUserPlan_only_checks (userId planId authenticatedUserId : Z)
    (s : Store) :
  fst (handle NOW stepRejected updatedPlanFails authenticatedUserId (POST_user_plan userId planId) s)
  = s /\
  (userId <> authenticatedUserId ->
   statusOf (snd (handle NOW stepRejected updatedPlanFails authenticatedUserId
                    (POST_user_plan userId planId) s)) = 403) /\
  (userId = authenticatedUserId ->
   (checkPlanSql planId authenticatedUserId (tables s) <> [] ->
    snd (handle NOW stepRejected updatedPlanFails authenticatedUserId
           (POST_user_plan userId planId) s)
    = Json 200 (MessageBody "Plan saved to profile successfully")) /\
   (checkPlanSql planId authenticatedUserId (tables s) = [] ->
    statusOf (snd (handle NOW stepRejected updatedPlanFails authenticatedUserId
                     (POST_user_plan userId planId) s)) = 404)).
Proof.
  rewrite postUserPlan_run. simpl. split; [reflexivity|]. split.
  - intros Hne. apply Z.eqb_neq in Hne. rewrite Hne. reflexivity.
  - intros ->. rewrite Z.eqb_refl. simpl. split.
    + intros Hown. destruct (checkPlanSql planId authenticatedUserId (tables s));
        [contradiction Hown; reflexivity | reflexivity].
    + intros ->. reflexivity.
Qed.

(** X16: after a successful [delete], every request of the user about
    that plan changes nothing and is answered 404, or 403 when it is a
    [saveExisting] for another user's path: the plan cannot be read,
    written, completed or deleted any more. *)
Theorem deletePlan_then_not_found (planId userId : Z) (s : Store) (status : Z)
    (body : Body) (r : Request) :
  snd (handle NOW stepRejected updatedPlanFails userId (DELETE_plan planId) s) = Json status body ->
  targetPlan r = Some planId ->
  fst (handle NOW stepRejected updatedPlanFails userId r
         (fst (handle NOW stepRejected updatedPlanFails userId (DELETE_plan planId) s)))
  = fst (handle NOW stepRejected updatedPlanFails userId (DELETE_plan planId) s) /\
  (statusOf (snd (handle NOW stepRejected updatedPlanFails userId r
                    (fst (handle NOW stepRejected updatedPlanFails userId (DELETE_plan planId) s))))
   = 404
   \/ exists pathUser,
        r = POST_user_plan pathUser planId /\ pathUser <> userId /\
        statusOf (snd (handle NOW stepRejected updatedPlanFails userId r
                         (fst (handle NOW stepRejected updatedPlanFails userId
                                 (DELETE_plan planId) s))))
        = 403).
Proof.
  intros Hok Ht.
  assert (Hgone : checkPlanSql planId userId
                    (tables (fst (handle NOW stepRejected updatedPlanFails userId
                                    (DELETE_plan planId) s))) = []).
  { rewrite deletePlan_run in *.
    destruct (checkPlanSql planId userId (tables s)) eqn:Hq; [exact Hq|].
    simpl. unfold checkPlanSql. simpl. apply filter_none.
    intros x Hx. apply filter_In in Hx. destruct Hx as [_ Hx].
    apply negb_true_iff in Hx. exact Hx. }
  rewrite (@not_owned_run NOW stepRejected updatedPlanFails userId r planId _ Ht Hgone). simpl.
  split; [reflexivity|].
  destruct r; simpl in Ht; try discriminate; try (left; reflexivity).
  injection Ht as ->.
  destruct (userId0 =? userId) eqn:E; simpl; [left; reflexivity|].
  right. exists userId0. split; [reflexivity|].
  split; [apply Z.eqb_neq; exact E | reflexivity].
Qed.

(** X17: no request creates a plan row, or changes the identity, the
    owner, the creation time or the [completedAt] of one: every plan row
    after a request has these four fields of a plan row of before.  No
    request changes the species. *)
Theorem request_keeps_plan_identity (user : Z) (r : Request) (s : Store) :
  GrassSpecies (tables (fst (handle NOW stepRejected updatedPlanFails user r s)))
  = GrassSpecies (tables s) /\
  forall up',
    In up' (UserPlans (tables (fst (handle NOW stepRejected updatedPlanFails user r s)))) ->
    exists up,
      In up (UserPlans (tables s)) /\
      PlanRow.userPlanId up' = PlanRow.userPlanId up /\
      PlanRow.userId up' = PlanRow.userId up /\
      PlanRow.createdAt up' = PlanRow.createdAt up /\
      PlanRow.completedAt up' = PlanRow.completedAt up.
Proof.
  assert (Hsame : forall s',
            tables s' = tables s \/
            (GrassSpecies (tables s') = GrassSpecies (tables s) /\
             UserPlans (tables s') = UserPlans (tables s)) ->
            GrassSpecies (tables s') = GrassSpecies (tables s) /\
            forall up',
              In up' (UserPlans (tables s')) ->
              exists up,
                In up (UserPlans (tables s)) /\
                PlanRow.userPlanId up' = PlanRow.userPlanId up /\
                PlanRow.userId up' = PlanRow.userId up /\
                PlanRow.createdAt up' = PlanRow.createdAt up /\
                PlanRow.completedAt up' = PlanRow.completedAt up).
  { intros s' [-> | [-> ->]]; (split; [reflexivity|]); intros up' H; exists up'; auto. }
  destruct r.
  - apply Hsame. left. rewrite getPlan_run. reflexivity.
  - destruct (putPlan_UserPlans NOW stepRejected updatedPlanFails planId user updatedPlan s)
      as [[_ Hu] | [_ [_ [Hg Hu]]]].
    + apply Hsame. right. split; [|exact Hu].
      rewrite putPlan_run.
      destruct (checkPlanSql planId user (tables s)); [reflexivity|].
      destruct (PlanInput.steps updatedPlan) as [steps|]; [|reflexivity].
      destruct (writeSteps stepRejected planId steps
                  (afterPlanUpdate planId user updatedPlan s)) as [c [e|[]]] eqn:Hw;
        [reflexivity|].
      apply writeSteps_frame in Hw. destruct Hw as [_ [_ [Hg _]]].
      destruct (updatedPlanFails (tables (store c)) planId); exact Hg.
    + split; [exact Hg|]. rewrite Hu. intros up' Hin. apply in_map_iff in Hin.
      destruct Hin as [up [<- Hin]]. exists up.
      destruct (ownedBy planId user up); auto.
  - apply Hsame. left. rewrite getUserPlans_run. reflexivity.
  - apply Hsame. right. rewrite putStep_run.
    destruct (checkPlanSql planId user (tables s)); [split; reflexivity|].
    destruct (filter (stepOfPlan stepId planId) (PlanSteps (tables s)));
      split; reflexivity.
  - rewrite putComplete_run.
    destruct (checkPlanSql planId user (tables s)); [apply Hsame; left; reflexivity|].
    simpl. split; [reflexivity|]. intros up' Hin. apply in_map_iff in Hin.
    destruct Hin as [up [<- Hin]]. exists up.
    destruct (PlanRow.userPlanId up =? planId); auto.
  - rewrite deletePlan_run.
    destruct (checkPlanSql planId user (tables s)); [apply Hsame; left; reflexivity|].
    simpl. split; [reflexivity|]. intros up' Hin. apply filter_In in Hin.
    exists up'. tauto.
  - apply Hsame. right. rewrite postStep_run.
    destruct (checkPlanSql planId user (tables s)); split; reflexivity.
  - apply Hsame. right. rewrite deleteStep_run.
    destruct (checkPlanSql planId user (tables s)); [split; reflexivity|].
    destruct (filter (stepOfPlan stepId planId) (PlanSteps (tables s)));
      split; reflexivity.
  - apply Hsame. left. rewrite postUserPlan_run. reflexivity.
Qed.
End PlanRoutes.

(* ===================================================================== *)
(** ** The client forms *)
(* ===================================================================== *)

Lemma eqb_neq_string (a b : string) : negb (String.eqb a b) = true <-> a <> b.
Proof.
  rewrite negb_true_iff. split.
  - intros H Heq. apply String.eqb_eq in Heq. congruence.
  - intros H. destruct (String.eqb a b) eqn:E; [|reflexivity].
    apply String.eqb_eq in E. contradiction.
Qed.

(** The cases of a membership in an explicit list of effects. *)
Ltac in_effects H :=
  simpl in H;
  repeat (destruct H as [H|H]; [try discriminate H|]);
  try contradiction.

(** X19: the sign-up form sends nothing when the two passwords differ:
    it only reports the mismatch and never touches the loading flag.
    What it sends goes to /api/auth/sign-up with the form as it is; once
    it has set the loading flag it clears it last, on every path; and it
    navigates, to /sign-in, only on a response that is [ok], and then
    sets no error. *)
Theorem registrationSubmit_effects (formData : SignUpForm.t)
    (res : Fetched (option string)) :
  (SignUpForm.password formData <> SignUpForm.confirmPassword formData ->
   registrationSubmit formData res
   = [preventDefault; setError (Some "Passwords don't match")]) /\
  (forall url method authorization body,
   In (fetch url method authorization body) (registrationSubmit formData res) ->
   SignUpForm.password formData = SignUpForm.confirmPassword formData /\
   url = "/api/auth/sign-up" /\ method = "POST" /\ body = signUpBody formData) /\
  (In (setIsLoading true) (registrationSubmit formData res) ->
   exists before, registrationSubmit formData res = before ++ [setIsLoading false]) /\
  (forall to, In (navigate to) (registrationSubmit formData res) ->
   to = "/sign-in" /\
   (exists status json, res = resolved true status json) /\
   forall error, ~ In (setError error) (registrationSubmit formData res)).
Proof.
  unfold registrationSubmit.
  destruct (negb (String.eqb (SignUpForm.password formData)
                             (SignUpForm.confirmPassword formData))) eqn:E.
  - split; [reflexivity|]. split; [|split].
    + intros url method authorization body H. in_effects H.
    + intros H. in_effects H.
    + intros to H. in_effects H.
  - apply negb_false_iff, String.eqb_eq in E.
    split; [intros H; contradiction|]. split; [|split].
    + intros url method authorization body H.
      destruct res as [message | ok status [message | errorData]];
        [| destruct ok .. ]; in_effects H; inversion H; auto.
    + intros _.
      destruct res as [message | ok status [message | errorData]];
        [| destruct ok .. ]; simpl;
        match goal with |- exists b, ?l = _ => exists (removelast l) end;
        reflexivity.
    + intros to H.
      destruct res as [message | ok status [message | errorData]];
        [| destruct ok .. ]; in_effects H; inversion H; subst;
        (split; [reflexivity|]); (split; [do 2 eexists; reflexivity|]);
        intros error He; in_effects He.
Qed.

(** X20: the plan form sends nothing while a submission is in progress
    or when nobody is signed in.  What it sends goes to /api/plans/new
    with the identity of the signed-in user, the three fields of the
    form and the bearer token; once it has set the loading flag it
    clears it last, on every path; and it navigates only on a response
    that is [ok] and whose body could be read, to the page of the plan
    the body names. *)
Theorem newPlanSubmit_effects (isLoading : bool) (user : option Z)
    (token : option string) (formData : PlanForm.t) (response : Fetched string) :
  (isLoading = true ->
   newPlanSubmit isLoading user token formData response
   = [preventDefault; consoleLog]) /\
  (forall url method authorization body,
   In (fetch url method authorization body)
      (newPlanSubmit isLoading user token formData response) ->
   isLoading = false /\
   exists userId,
     user = Some userId /\ url = "/api/plans/new" /\ method = "POST" /\
     authorization = Some (bearer token) /\
     body = newPlanBody userId (PlanForm.grassSpecies formData)
              (PlanForm.planType formData) (PlanForm.establishmentType formData)) /\
  (In (setIsLoading true) (newPlanSubmit isLoading user token formData response) ->
   exists before,
     newPlanSubmit isLoading user token formData response
     = before ++ [setIsLoading false]) /\
  (forall to,
   In (navigate to) (newPlanSubmit isLoading user token formData response) ->
   exists status userPlanId,
     response = resolved true status (gave userPlanId) /\
     to = ("/plan/" ++ userPlanId)%string).
Proof.
  unfold newPlanSubmit. destruct isLoading.
  - split; [reflexivity|]. split; [|split].
    + intros url method authorization body H. in_effects H.
    + intros H. in_effects H.
    + intros to H. in_effects H.
  - split; [discriminate|]. destruct user as [userId|].
    + split; [|split].
      * intros url method authorization body H.
        split; [reflexivity|]. exists userId.
        destruct response as [message | [|] status [message | userPlanId]];
          in_effects H; inversion H; repeat split; reflexivity.
      * intros _.
        destruct response as [message | [|] status [message | userPlanId]];
          simpl;
          match goal with |- exists b, ?l = _ => exists (removelast l) end;
          reflexivity.
      * intros to H.
        destruct response as [message | [|] status [message | userPlanId]];
          in_effects H.
        inversion H. subst. do 2 eexists. split; reflexivity.
    + split; [|split].
      * intros url method authorization body H. in_effects H.
      * intros H. in_effects H.
      * intros to H. in_effects H.
Qed.

Lemma truthyString_Some (v : string) : truthyString (Some v) = true <-> v <> "".
Proof. apply eqb_neq_string. Qed.

(** The types offered are the establishment types, not empty, of the
    [new_lawn] entries of the answer. *)
Lemma lawnTypes_In (data : list LawnType.t) (type : string) :
  In type (lawnTypes data) <->
  type <> "" /\
  exists item, In item data /\ LawnType.planType item = "new_lawn" /\
    LawnType.establishmentType item = Some type.
Proof.
  unfold lawnTypes. rewrite in_flat_map. split.
  - intros [e [He Hin]]. apply in_map_iff in He. destruct He as [item [<- Hitem]].
    apply filter_In in Hitem. destruct Hitem as [Hitem Hpt].
    apply String.eqb_eq in Hpt.
    destruct (LawnType.establishmentType item) as [v|] eqn:Ev; [|destruct Hin].
    destruct (truthyString (Some v)) eqn:Et; [|destruct Hin].
    destruct Hin as [<-|[]]. split; [apply truthyString_Some; exact Et|].
    exists item. auto.
  - intros [Hne [item [Hitem [Hpt He]]]]. exists (Some type). split.
    + rewrite <- He. apply in_map. apply filter_In. split; [exact Hitem|].
      apply String.eqb_eq. exact Hpt.
    + apply truthyString_Some in Hne. rewrite Hne. left. reflexivity.
Qed.

(** X21: the plan form asks for the lawn types only when a species is
    chosen, the plan type is [new_lawn] and there is a token; the types
    it then offers come from a response that is [ok]: each is the
    establishment type, never empty, of an entry of the answer whose
    plan type is [new_lawn], and every such type is offered. *)
Theorem fetchAvailableLawnTypes_effects (formData : PlanForm.t)
    (token : option string) (response : Fetched (list LawnType.t)) :
  (forall url method authorization body,
   In (fetch url method authorization body)
      (fetchAvailableLawnTypes formData token response) ->
   PlanForm.grassSpecies formData <> "" /\
   PlanForm.planType formData = "new_lawn" /\
   (exists t, token = Some t /\ t <> "") /\
   url = ("/api/grass-species/" ++ PlanForm.grassSpecies formData
          ++ "/plan-types")%string) /\
  (forall availableTypes,
   In (setAvailableTypes availableTypes)
      (fetchAvailableLawnTypes formData token response) ->
   exists status data,
     response = resolved true status (gave data) /\
     forall type,
       In type availableTypes <->
       type <> "" /\
       exists item, In item data /\ LawnType.planType item = "new_lawn" /\
         LawnType.establishmentType item = Some type).
Proof.
  unfold fetchAvailableLawnTypes.
  destruct (truthyString (Some (PlanForm.grassSpecies formData))) eqn:Eg; simpl;
    [|split; intros; simpl in *; contradiction].
  destruct (String.eqb (PlanForm.planType formData) "new_lawn") eqn:Ep; simpl;
    [|split; intros; simpl in *; contradiction].
  destruct (truthyString token) eqn:Et; simpl;
    [|split; intros; simpl in *; contradiction].
  apply truthyString_Some in Eg. apply String.eqb_eq in Ep.
  assert (Htok : exists t, token = Some t /\ t <> "").
  { destruct token as [t|]; [|discriminate]. exists t. split; [reflexivity|].
    apply truthyString_Some. exact Et. }
  split.
  - intros url method authorization body H.
    destruct response as [message | [|] status [message | data]];
      in_effects H; inversion H; auto.
  - intros availableTypes H.
    destruct response as [message | [|] status [message | data]];
      in_effects H.
    inversion H. subst. do 2 eexists. split; [reflexivity|].
    intros type. apply lawnTypes_In.
Qed.

(* ===================================================================== *)
(** ** The properties at the stores of the scenarios *)
(* ===================================================================== *)

(** The keys of a store given by its rows. *)
Ltac distinct_keys := simpl; repeat constructor; simpl; intuition discriminate.

(** The steps of plan 1 in the listing of user 7 are in the order of
    their due dates. *)
Lemma getUserPlans_steps_by_due_date_witness :
  exists plans,
    handle 2000 acceptAll reliable 7 (GET_user_plans 7) threeSteps
    = (threeSteps, Json 200 (PlansBody plans)) /\
    forall plan, In plan plans ->
      StronglySorted
        (fun a b => ascNullsLast (PlanStep.dueDate a) (PlanStep.dueDate b) = true)
        (UserPlan.steps plan).
Proof.
  apply (@getUserPlans_steps_by_due_date 2000 acceptAll reliable 7 threeSteps).
  distinct_keys.
Defined.

(** Plan 1 is in the listing of user 7 under its identity, with its
    three steps. *)
Lemma getUserPlans_lists_plan_witness :
  exists plans plan,
    handle 2000 acceptAll reliable 7 (GET_user_plans 7) threeSteps
    = (threeSteps, Json 200 (PlansBody plans)) /\
    In plan plans /\
    UserPlan.userPlanId plan = Some 1 /\
    List.length (UserPlan.steps plan) = 3%nat.
Proof.
  destruct (@getUserPlans_lists_plan_with_steps 2000 acceptAll reliable 7 threeSteps
              (lawn 1 7 false 1000) fescue)
    as [plans [plan [Hrun [Hin [Hid [_ [_ [_ [_ [_ [_ [_ [_ Hsteps]]]]]]]]]]]]].
  - distinct_keys.
  - left. reflexivity.
  - reflexivity.
  - reflexivity.
  - vm_compute. discriminate.
  - intros ps Hps _. simpl in Hps.
    destruct Hps as [<-|[<-|[<-|[]]]]; discriminate.
  - exists plans, plan. repeat split; try assumption.
    rewrite (Permutation_length Hsteps). reflexivity.
Defined.

(** User 7 deletes step 11 of plan 1: the two other steps stay.  Asked
    for under plan 2, the same step is not found. *)
Lemma deleteStep_witness :
  map StepRow.planStepId (PlanSteps (tables (fst
    (handle 2000 acceptAll reliable 7 (DELETE_step 1 11) threeSteps)))) = [10; 12] /\
  handle 2000 acceptAll reliable 8 (DELETE_step 2 11) threeSteps
  = (threeSteps, Next (ClientError 404 "Step not found")).
Proof.
  destruct (@deleteStep_removes_only_that_step 2000 acceptAll reliable 1 11 7 threeSteps)
    as [_ Hdel]; [vm_compute; discriminate|].
  destruct (@deleteStep_removes_only_that_step 2000 acceptAll reliable 2 11 8 threeSteps)
    as [Hnone _]; [vm_compute; discriminate|].
  split.
  - destruct (Hdel (task 11 1 "Water" 40 2)) as [Hrun _];
      [right; left; reflexivity | reflexivity | reflexivity |].
    rewrite Hrun. reflexivity.
  - apply Hnone. intros ps Hps Hid. simpl in Hps.
    destruct Hps as [<-|[<-|[<-|[]]]]; discriminate.
Defined.

(** User 7 completes step 10 and sets it back: the store is as it
    was. *)
Lemma putStep_round_trip_witness :
  handle 2000 acceptAll reliable 7 (PUT_step 1 10 false None)
    (fst (handle 2000 acceptAll reliable 7 (PUT_step 1 10 true (Some 1900)) threeSteps))
  = (threeSteps, Json 200 (StepBody (Some (task 10 1 "Mow" 50 1)))).
Proof.
  apply (@putStep_round_trip 2000 acceptAll reliable 1 10 7 true (Some 1900) threeSteps
           (task 10 1 "Mow" 50 1)).
  - distinct_keys.
  - vm_compute. discriminate.
  - left. reflexivity.
  - reflexivity.
  - reflexivity.
Defined.

(** User 8 adds a step to plan 2 and deletes it: the tables are as they
    were and the sequence is at 14. *)
Lemma postStep_then_deleteStep_witness :
  exists step,
    snd (handle 2000 acceptAll reliable 8 (POST_step 2 mow) threeSteps)
    = Json 201 (StepBody (Some step)) /\
    handle 2000 acceptAll reliable 8 (DELETE_step 2 (StepRow.planStepId step))
      (fst (handle 2000 acceptAll reliable 8 (POST_step 2 mow) threeSteps))
    = ({| tables := tables threeSteps; planStepId_seq := 14 |},
       Json 200 (MessageBody "Step deleted successfully")).
Proof.
  apply (@postStep_then_deleteStep 2000 acceptAll reliable 2 8 mow threeSteps).
  - vm_compute. discriminate.
  - intros ps Hps. simpl in Hps.
    destruct Hps as [<-|[<-|[<-|[]]]]; discriminate.
Defined.

(** After user 7 adds a step to plan 1, GET returns four steps. *)
Lemma postStep_then_getPlan_witness :
  exists userPlan',
    snd (handle 2000 acceptAll reliable 7 (GET_plan 1)
           (fst (handle 2000 acceptAll reliable 7 (POST_step 1 mow) threeSteps)))
    = Json 200 (PlanBody userPlan') /\
    List.length (PlanWithSteps.steps userPlan') = 4%nat.
Proof.
  assert (Hget : exists userPlan,
            snd (handle 2000 acceptAll reliable 7 (GET_plan 1) threeSteps)
            = Json 200 (PlanBody userPlan) /\
            List.length (PlanWithSteps.steps userPlan) = 3%nat)
    by (eexists; split; vm_compute; reflexivity).
  destruct Hget as [userPlan [Hget Hlen]].
  destruct (@postStep_then_getPlan 2000 acceptAll reliable 1 7 mow threeSteps userPlan Hget)
    as [step [userPlan' [_ [Hget' [_ [_ [Hperm _]]]]]]].
  exists userPlan'. split; [exact Hget'|].
  rewrite (Permutation_length Hperm). simpl. rewrite Hlen. reflexivity.
Defined.

(** User 7 updates plan 1 with a body that names step 10 and brings a
    new step: steps 11 and 12, which the body leaves out, stay, and the
    new step gets the identity 13. *)
Lemma putPlan_keeps_unlisted_steps_witness :
  map StepRow.planStepId (PlanSteps (tables (fst
    (handle 2000 acceptAll reliable 7
       (PUT_plan 1 (sameLawn None
          (Some [StepInput.mk (Some 10) "Mow high" 55 false;
                 StepInput.mk None "Edge" 60 false])))
       threeSteps))))
  = [10; 11; 12; 13] /\
  In (task 11 1 "Water" 40 2)
     (PlanSteps (tables (fst
        (handle 2000 acceptAll reliable 7
           (PUT_plan 1 (sameLawn None
              (Some [StepInput.mk (Some 10) "Mow high" 55 false;
                     StepInput.mk None "Edge" 60 false])))
           threeSteps)))).
Proof.
  assert (Hok : exists body,
            snd (handle 2000 acceptAll reliable 7
                   (PUT_plan 1 (sameLawn None
                      (Some [StepInput.mk (Some 10) "Mow high" 55 false;
                             StepInput.mk None "Edge" 60 false])))
                   threeSteps) = Json 200 body)
    by (eexists; vm_compute; reflexivity).
  destruct Hok as [body Hok].
  destruct (@putPlan_keeps_unlisted_steps 2000 acceptAll reliable 1 7 _ threeSteps 200 body Hok)
    as [steps [Hsteps [Hids [_ Hkeep]]]].
  injection Hsteps as <-. split.
  - rewrite Hids. reflexivity.
  - apply Hkeep; [right; left; reflexivity|].
    intros step Hstep. simpl in Hstep.
    destruct Hstep as [<-|[<-|[]]]; simpl; discriminate.
Defined.

(** Whatever user 7 asks about plan 1, the plan row of user 8 is as it
    was: after a [complete] and after a [delete]. *)
Lemma request_leaves_other_users_plans_witness :
  filter (fun up => negb (PlanRow.userId up =? 7))
         (UserPlans (tables (fst (handle 2000 acceptAll reliable 7 (PUT_complete 1) threeSteps))))
  = [lawn 2 8 false 1500] /\
  filter (fun up => negb (PlanRow.userId up =? 7))
         (UserPlans (tables (fst (handle 2000 acceptAll reliable 7 (DELETE_plan 1) threeSteps))))
  = [lawn 2 8 false 1500].
Proof.
  split.
  - rewrite (@request_leaves_other_users_plans 2000 acceptAll reliable 7 (PUT_complete 1)
               threeSteps); [reflexivity | distinct_keys].
  - rewrite (@request_leaves_other_users_plans 2000 acceptAll reliable 7 (DELETE_plan 1)
               threeSteps); [reflexivity | distinct_keys].
Defined.

(** User 7 updates plan 1 as completed and archived-less, then reads
    it: the plan read is completed. *)
Lemma putPlan_then_getPlan_witness :
  exists userPlan,
    snd (handle 2000 acceptAll reliable 7 (GET_plan 1)
           (fst (handle 2000 acceptAll reliable 7
                   (PUT_plan 1 (sameLawn (Some true) (Some []))) threeSteps)))
    = Json 200 (PlanBody userPlan) /\
    PlanRow.isCompleted (PlanWithSteps.plan userPlan) = true /\
    PlanRow.userPlanId (PlanWithSteps.plan userPlan) = 1.
Proof.
  assert (Hok : exists body,
            snd (handle 2000 acceptAll reliable 7
                   (PUT_plan 1 (sameLawn (Some true) (Some []))) threeSteps)
            = Json 200 body)
    by (eexists; vm_compute; reflexivity).
  destruct Hok as [body Hok].
  destruct (@putPlan_then_getPlan 2000 acceptAll reliable 1 7 _ threeSteps 200 body Hok)
    as [Hfields Hsome].
  destruct Hsome as [userPlan Hget]; [left; reflexivity|].
  exists userPlan. split; [exact Hget|].
  destruct (Hfields 200 userPlan Hget) as [up [_ [Hown ->]]]. simpl.
  split; [reflexivity|].
  unfold ownedBy in Hown. apply andb_true_iff in Hown. destruct Hown as [Hid _].
  apply Z.eqb_eq. exact Hid.
Defined.

(** After user 7 deleted plan 1, GET on it is answered 404, and a
    [saveExisting] of it under the path of user 8 changes nothing. *)
Lemma deletePlan_then_not_found_witness :
  statusOf (snd (handle 2000 acceptAll reliable 7 (GET_plan 1)
                   (fst (handle 2000 acceptAll reliable 7 (DELETE_plan 1) threeSteps))))
  = 404 /\
  fst (handle 2000 acceptAll reliable 7 (POST_user_plan 8 1)
         (fst (handle 2000 acceptAll reliable 7 (DELETE_plan 1) threeSteps)))
  = fst (handle 2000 acceptAll reliable 7 (DELETE_plan 1) threeSteps).
Proof.
  split.
  - destruct (@deletePlan_then_not_found 2000 acceptAll reliable 1 7 threeSteps 200
                (MessageBody "Plan deleted successfully") (GET_plan 1))
      as [_ [H | [u [H _]]]]; [reflexivity | reflexivity | exact H | discriminate].
  - apply (@deletePlan_then_not_found 2000 acceptAll reliable 1 7 threeSteps 200
             (MessageBody "Plan deleted successfully") (POST_user_plan 8 1));
      reflexivity.
Defined.

(** An update of plan 1 whose second step the store rejects: the answer
    is an error and the tables are what they were, the first step and
    the scalar fields of the body left out; the two identities the
    sequence gave are not given back.  An update of plan 1 that names
    step 10 and adds a step is answered with the plan and the entries of
    its steps, the one of step 10 with the description, due date and
    flag of the body. *)
Lemma putPlan_rolls_back_or_merges :
  ((exists err,
      snd (handle 2000 rejectBlank reliable 7
             (PUT_plan 1 (sameLawn (Some true)
                (Some [StepInput.mk None "Edge" 60 false;
                       StepInput.mk None "" 70 false])))
             threeSteps) = Next err) /\
   tables (fst (handle 2000 rejectBlank reliable 7
             (PUT_plan 1 (sameLawn (Some true)
                (Some [StepInput.mk None "Edge" 60 false;
                       StepInput.mk None "" 70 false])))
             threeSteps)) = tables threeSteps) /\
  planStepId_seq (fst (handle 2000 rejectBlank reliable 7
             (PUT_plan 1 (sameLawn (Some true)
                (Some [StepInput.mk None "Edge" 60 false;
                       StepInput.mk None "" 70 false])))
             threeSteps)) = 15 /\
  exists finalPlan,
    snd (handle 2000 acceptAll reliable 7
           (PUT_plan 1 (sameLawn (Some true)
              (Some [StepInput.mk (Some 10) "Mow high" 55 true;
                     StepInput.mk None "Edge" 60 false])))
           threeSteps) = Json 200 (FinalPlanBody finalPlan) /\
    In (StepSummary.mk (Some 10) (Some "Mow high") (Some 55) (Some true))
       (FinalPlan.steps finalPlan).
Proof.
  split; [|split; [reflexivity|]].
  - set (X := handle 2000 rejectBlank reliable 7
             (PUT_plan 1 (sameLawn (Some true)
                (Some [StepInput.mk None "Edge" 60 false;
                       StepInput.mk None "" 70 false])))
             threeSteps).
    destruct (@putPlan_all_or_nothing_until_commit 2000 rejectBlank reliable 1 7
                (sameLawn (Some true)
                   (Some [StepInput.mk None "Edge" 60 false;
                          StepInput.mk None "" 70 false]))
                threeSteps (fst X) (snd X) (surjective_pairing X))
      as [_ [Hfail _]].
    apply Hfail; [vm_compute; discriminate|].
    right. exists [StepInput.mk None "Edge" 60 false; StepInput.mk None "" 70 false],
             (StepInput.mk None "" 70 false).
    split; [reflexivity|]. split; [right; left; reflexivity|].
    intros t. reflexivity.
  - set (X := handle 2000 acceptAll reliable 7
             (PUT_plan 1 (sameLawn (Some true)
                (Some [StepInput.mk (Some 10) "Mow high" 55 true;
                       StepInput.mk None "Edge" 60 false])))
             threeSteps).
    destruct (@putPlan_all_or_nothing_until_commit 2000 acceptAll reliable 1 7
                (sameLawn (Some true)
                   (Some [StepInput.mk (Some 10) "Mow high" 55 true;
                          StepInput.mk None "Edge" 60 false]))
                threeSteps (fst X) (snd X) (surjective_pairing X))
      as [_ [_ [_ [_ [Hsucceeds Hmerged]]]]].
    destruct Hsucceeds as [body Hbody].
    { vm_compute. discriminate. }
    { eexists. split; [reflexivity|]. intros t step _. reflexivity. }
    { reflexivity. }
    destruct (Hmerged 200 body Hbody)
      as [_ [steps [finalPlan [Hsteps [-> [_ [Hnamed [_ [_ [_ [_ [_ Hsp]]]]]]]]]]]].
    simpl in Hsteps. injection Hsteps as <-.
    exists finalPlan. split; [exact Hbody|].
    destruct (Hnamed (task 10 1 "Mow" 50 1) []
                (StepInput.mk (Some 10) "Mow high" 55 true)
                [StepInput.mk None "Edge" 60 false])
      as [ps' [Hin [[Hid [Hplan _]] [Hd [Hdue Hc]]]]].
    { left. reflexivity. }
    { reflexivity. }
    { reflexivity. }
    { reflexivity. }
    { discriminate. }
    { intros later [<-|[]]. discriminate. }
    destruct Hsp as [_ [Hall _]]; [left; reflexivity|].
    pose proof (Hall ps' Hin Hplan) as He.
    unfold entryOf in He. rewrite Hid, Hd, Hdue, Hc in He. exact He.
Defined.

(** C3 fails when the store fails the re-read: user 7 marks plan 1
    completed, the update is committed, the re-read fails.  The request
    is answered with an error, and the plan is completed. *)
Lemma putPlan_fails_after_commit :
  UserPlans (tables threeSteps) = [lawn 1 7 false 1000; lawn 2 8 false 1500] /\
  snd (handle 2000 acceptAll unreliable 7
         (PUT_plan 1 (sameLawn (Some true) (Some []))) threeSteps)
  = Next StoreError /\
  statusOf (snd (handle 2000 acceptAll unreliable 7
                   (PUT_plan 1 (sameLawn (Some true) (Some []))) threeSteps))
  = 500 /\
  UserPlans (tables (fst (handle 2000 acceptAll unreliable 7
                             (PUT_plan 1 (sameLawn (Some true) (Some [])))
                             threeSteps)))
  = [lawn 1 7 true 1000; lawn 2 8 false 1500].
Proof. repeat split. Qed.
